(** * node-fast: the client request tracker and the frame encoder

    A shallow embedding of [lib/fast_client.js] (the [FastClient] class) and
    of the parts of the Fast wire protocol its claims refer to.

    JavaScript objects that are shared by reference (the request objects,
    which sit in [fc_pending], [fc_aborted], [fc_recentrpc] and in the
    caller's hands at the same time) live in an explicit heap; everything a
    method mutates is threaded through a state-and-exception monad, so that
    a failed assertion leaves the partially updated state behind, as a
    JavaScript [throw] does. *)

From stdpp Require Import gmap strings list fin_maps sorting pretty.

Open Scope Z_scope.

(** ** JavaScript values *)

(** The values that travel in messages: what [JSON.parse] can produce, plus
    [undefined] for absent properties.  Numbers are restricted to integers. *)
#[warnings="-register-all"]
Inductive jsval : Type :=
  | JUndefined
  | JNull
  | JBool (b : bool)
  | JNum (n : Z)
  | JStr (s : string)
  | JArr (items : list jsval)
  | JObj (props : list (string * jsval)).

(** Exceptions a call can end with. *)
Inductive exn : Type :=
  | AssertionError (msg : string)
  | TypeError (msg : string).

Inductive outcome (A : Type) : Type :=
  | Ok (a : A)
  | Throw (e : exn).
Arguments Ok {A} a.
Arguments Throw {A} e.

(** [o[k]] for a property read; the last binding of a repeated key wins, as
    with [JSON.parse]. *)
Fixpoint assoc_last (k : string) (l : list (string * jsval)) : option jsval :=
  match l with
  | [] => None
  | (k', v) :: l' =>
      match assoc_last k l' with
      | Some v' => Some v'
      | None => if decide (k' = k) then Some v else None
      end
  end.

Definition js_get (v : jsval) (k : string) : outcome jsval :=
  match v with
  | JUndefined | JNull =>
      Throw (TypeError ("Cannot read property '" +:+ k +:+ "' of undefined or null"))
  | JObj props => Ok (default JUndefined (assoc_last k props))
  | _ => Ok JUndefined
  end.

Definition js_truthy (v : jsval) : bool :=
  match v with
  | JUndefined | JNull => false
  | JBool b => b
  | JNum n => negb (n =? 0)
  | JStr s => negb (bool_decide (s = EmptyString))
  | JArr _ | JObj _ => true
  end.

(** [a || b] *)
Definition js_or (a b : jsval) : jsval := if js_truthy a then a else b.

Definition join_comma (l : list string) : string :=
  match l with
  | [] => EmptyString
  | s :: l' => fold_left (fun acc t => acc +:+ "," +:+ t) l' s
  end.

(** [String(v)], as the [%s] conversion produces it. *)
Fixpoint js_to_string (v : jsval) : string :=
  match v with
  | JUndefined => "undefined"
  | JNull => "null"
  | JBool true => "true"
  | JBool false => "false"
  | JNum n => pretty n
  | JStr s => s
  | JArr items =>
      join_comma (map (fun x => match x with
                                | JUndefined | JNull => EmptyString
                                | _ => js_to_string x
                                end) items)
  | JObj _ => "[object Object]"
  end.

(** ** Errors: the [verror] package *)

(** A [VError]: a name, the composed message, an optional cause and an info
    block. *)
#[warnings="-register-all"]
Inductive VError : Type :=
  MkVError {
    ve_name : string;
    ve_message : string;
    ve_cause : option VError;
    ve_info : gmap string jsval
  }.

(** [new VError({ name, cause, info }, shortmsg)].  The name defaults to
    ['VError'] when the option is absent or falsy; the message is the short
    message followed by [': ' + cause.message] when there is a cause. *)
Definition new_VError (name : option string) (cause : option VError)
    (info : gmap string jsval) (shortmsg : string) : VError :=
  {| ve_name := match name with
                | Some s => if decide (s = EmptyString) then "VError" else s
                | None => "VError"
                end;
     ve_message := match cause with
                   | Some c => shortmsg +:+ ": " +:+ ve_message c
                   | None => shortmsg
                   end;
     ve_cause := cause;
     ve_info := info |}.

(** [err.info()]: the info blocks of the whole cause chain merged, the outer
    error's properties taking precedence. *)
Fixpoint VError_info (e : VError) : gmap string jsval :=
  match ve_cause e with
  | Some c => ve_info e ∪ VError_info c
  | None => ve_info e
  end.

(** The [name] option taken from untrusted data: falsy values mean "no
    name", a string is used, anything else trips the constructor's
    assertion. *)
Definition name_option (v : jsval) : outcome (option string) :=
  match v with
  | JStr s => Ok (Some s)
  | _ => if js_truthy v
         then Throw (AssertionError "error's 'name' must be a string")
         else Ok None
  end.

(** ** Protocol constants and messages *)

Definition FP_STATUS_DATA : Z := 1.
Definition FP_STATUS_END : Z := 2.
Definition FP_STATUS_ERROR : Z := 3.

(** Modelled from the spec: [FP_MSGID_MAX] is defined in
    [lib/fast_protocol.js], which is not among the sources; message ids lie
    in [[0, 2^31 - 1]] and the encoder's tests accept 2147483647 and reject
    2147483648. *)
Definition FP_MSGID_MAX : Z := 2147483647.

(** A message as the encoder takes it and the decoder delivers it:
    [{ msgid, status, data }]. *)
Record message : Type := MkMessage {
  msg_msgid : Z;
  msg_status : Z;
  msg_data : jsval
}.

(** ** Request objects *)

(** What a request stream delivers to its consumer: a 'data' event, the
    'end' event, an 'error' event emitted by the client, and the 'error'
    event the stream raises itself, with Node's error 'stream.push() after
    EOF', when a value is pushed after its end. *)
Inductive stream_event : Type :=
  | EvData (v : jsval)
  | EvEnd
  | EvError (e : option VError)
  | EvPushAfterEOF.

(** Modelled from the spec: [FastRpcRequest] is defined in
    [lib/fast_client_request.js], which is not among the sources.  The
    fields are the ones [fast_client.js] reads and writes; the object is a
    readable object-stream, as Node provides it, with a consumer that
    listens for 'data', 'end' and 'error'.  [push(d)] delivers [d] as a
    'data' event unless [d] is [null]; [push(null)] is the end of the
    stream, which emits 'end' once the turn of the event loop is over; a
    value pushed after the end makes the stream fail instead, with an
    'error' event of its own, and an 'end' still due from the same turn is
    then not emitted; a stream that has failed ignores what is pushed or
    ended afterwards.  [end()] ends a stream that has not ended, and
    [emit('error', e)] hands [e] to the listeners whatever the state of the
    stream.  [frq_stream] records the events in order.  Messages are taken
    to arrive in separate turns of the event loop, and listeners not to
    call back into the client while it is running. *)
Record FastRpcRequest : Type := MkRequest {
  frq_msgid : Z;
  frq_rpcmethod : string;
  frq_rpcargs : list jsval;
  frq_skip : bool;
  frq_aborted : bool;
  frq_done_graceful : bool;
  frq_error : option VError;
  frq_ndata : nat;
  frq_nignored : nat;
  frq_last : option message;
  frq_stream : list stream_event
}.

Definition new_FastRpcRequest (msgid : Z) (rpcmethod : string)
    (rpcargs : list jsval) : FastRpcRequest :=
  {| frq_msgid := msgid; frq_rpcmethod := rpcmethod; frq_rpcargs := rpcargs;
     frq_skip := false; frq_aborted := false; frq_done_graceful := false;
     frq_error := None; frq_ndata := 0; frq_nignored := 0;
     frq_last := None; frq_stream := [] |}.

Definition set_frq_skip (b : bool) (q : FastRpcRequest) : FastRpcRequest :=
  {| frq_msgid := frq_msgid q; frq_rpcmethod := frq_rpcmethod q;
     frq_rpcargs := frq_rpcargs q; frq_skip := b;
     frq_aborted := frq_aborted q; frq_done_graceful := frq_done_graceful q;
     frq_error := frq_error q; frq_ndata := frq_ndata q;
     frq_nignored := frq_nignored q; frq_last := frq_last q;
     frq_stream := frq_stream q |}.

Definition set_frq_aborted (b : bool) (q : FastRpcRequest) : FastRpcRequest :=
  {| frq_msgid := frq_msgid q; frq_rpcmethod := frq_rpcmethod q;
     frq_rpcargs := frq_rpcargs q; frq_skip := frq_skip q;
     frq_aborted := b; frq_done_graceful := frq_done_graceful q;
     frq_error := frq_error q; frq_ndata := frq_ndata q;
     frq_nignored := frq_nignored q; frq_last := frq_last q;
     frq_stream := frq_stream q |}.

Definition set_frq_done_graceful (b : bool) (q : FastRpcRequest)
    : FastRpcRequest :=
  {| frq_msgid := frq_msgid q; frq_rpcmethod := frq_rpcmethod q;
     frq_rpcargs := frq_rpcargs q; frq_skip := frq_skip q;
     frq_aborted := frq_aborted q; frq_done_graceful := b;
     frq_error := frq_error q; frq_ndata := frq_ndata q;
     frq_nignored := frq_nignored q; frq_last := frq_last q;
     frq_stream := frq_stream q |}.

Definition set_frq_error (e : option VError) (q : FastRpcRequest)
    : FastRpcRequest :=
  {| frq_msgid := frq_msgid q; frq_rpcmethod := frq_rpcmethod q;
     frq_rpcargs := frq_rpcargs q; frq_skip := frq_skip q;
     frq_aborted := frq_aborted q; frq_done_graceful := frq_done_graceful q;
     frq_error := e; frq_ndata := frq_ndata q;
     frq_nignored := frq_nignored q; frq_last := frq_last q;
     frq_stream := frq_stream q |}.

Definition incr_frq_ndata (q : FastRpcRequest) : FastRpcRequest :=
  {| frq_msgid := frq_msgid q; frq_rpcmethod := frq_rpcmethod q;
     frq_rpcargs := frq_rpcargs q; frq_skip := frq_skip q;
     frq_aborted := frq_aborted q; frq_done_graceful := frq_done_graceful q;
     frq_error := frq_error q; frq_ndata := S (frq_ndata q);
     frq_nignored := frq_nignored q; frq_last := frq_last q;
     frq_stream := frq_stream q |}.

Definition incr_frq_nignored (q : FastRpcRequest) : FastRpcRequest :=
  {| frq_msgid := frq_msgid q; frq_rpcmethod := frq_rpcmethod q;
     frq_rpcargs := frq_rpcargs q; frq_skip := frq_skip q;
     frq_aborted := frq_aborted q; frq_done_graceful := frq_done_graceful q;
     frq_error := frq_error q; frq_ndata := frq_ndata q;
     frq_nignored := S (frq_nignored q); frq_last := frq_last q;
     frq_stream := frq_stream q |}.

Definition set_frq_last (m : message) (q : FastRpcRequest) : FastRpcRequest :=
  {| frq_msgid := frq_msgid q; frq_rpcmethod := frq_rpcmethod q;
     frq_rpcargs := frq_rpcargs q; frq_skip := frq_skip q;
     frq_aborted := frq_aborted q; frq_done_graceful := frq_done_graceful q;
     frq_error := frq_error q; frq_ndata := frq_ndata q;
     frq_nignored := frq_nignored q; frq_last := Some m;
     frq_stream := frq_stream q |}.

(** Append one delivery to the stream. *)
Definition deliver (ev : stream_event) (q : FastRpcRequest) : FastRpcRequest :=
  {| frq_msgid := frq_msgid q; frq_rpcmethod := frq_rpcmethod q;
     frq_rpcargs := frq_rpcargs q; frq_skip := frq_skip q;
     frq_aborted := frq_aborted q; frq_done_graceful := frq_done_graceful q;
     frq_error := frq_error q; frq_ndata := frq_ndata q;
     frq_nignored := frq_nignored q; frq_last := frq_last q;
     frq_stream := frq_stream q ++ [ev] |}.

(** The request object with [s] as what its stream has emitted. *)
Definition set_frq_stream (s : list stream_event) (q : FastRpcRequest)
    : FastRpcRequest :=
  {| frq_msgid := frq_msgid q; frq_rpcmethod := frq_rpcmethod q;
     frq_rpcargs := frq_rpcargs q; frq_skip := frq_skip q;
     frq_aborted := frq_aborted q; frq_done_graceful := frq_done_graceful q;
     frq_error := frq_error q; frq_ndata := frq_ndata q;
     frq_nignored := frq_nignored q; frq_last := frq_last q;
     frq_stream := s |}.

(** The stream has failed: it has raised its own 'error'. *)
Definition stream_failed (s : list stream_event) : bool :=
  existsb (fun ev => match ev with EvPushAfterEOF => true | _ => false end) s.

(** The stream is over: it has ended or failed. *)
Definition stream_over (s : list stream_event) : bool :=
  existsb (fun ev => match ev with
                     | EvEnd | EvPushAfterEOF => true
                     | _ => false
                     end) s.

(** The calls [push(x)] for the [items] of one [forEach], in order, on a
    stream that has emitted [s]; [eof] says that a [push(null)] of this
    turn has ended the stream and that its 'end' is still to come. *)
Fixpoint push_all (items : list jsval) (eof : bool) (s : list stream_event)
    : list stream_event :=
  match items with
  | [] => if eof then s ++ [EvEnd] else s
  | x :: items' =>
      if stream_failed s then push_all items' eof s
      else if stream_over s || eof then
        match x with
        | JNull => push_all items' eof s
        | _ => push_all items' false (s ++ [EvPushAfterEOF])
        end
      else
        match x with
        | JNull => push_all items' true s
        | _ => push_all items' false (s ++ [EvData x])
        end
  end.

(** The request object after [items.forEach(function (d) {
    request.push(d); })]. *)
Definition pushed (items : list jsval) (q : FastRpcRequest) : FastRpcRequest :=
  set_frq_stream (push_all items false (frq_stream q)) q.

(** [request.end()]: the stream emits 'end', unless it is over already. *)
Definition stream_end (q : FastRpcRequest) : FastRpcRequest :=
  if stream_over (frq_stream q) then q else deliver EvEnd q.

(** A reference to a request object: its index in the heap. *)
Abbreviation reqref := nat.

(** ** The client, its transport and the surrounding world *)

(** The two closures [attach] creates. *)
Inductive listener : Type :=
  | OnTransportEnd
  | OnTransportError.

Global Instance listener_eq_dec : EqDecision listener.
Proof. solve_decision. Defined.

(** The transport, as far as the client touches it: its listener table, its
    pipe into the decoder, and whether its [removeListener] insists on a
    function (as Node's [EventEmitter] does). *)
Record Transport : Type := MkTransport {
  tr_listeners : list (string * listener);
  tr_piped_to_decoder : bool;
  tr_checks_listener : bool
}.

(** The fields of a [FastClient].  A table [{}] used as a map from message
    identifiers to requests is a finite map to request references. *)
Record FastClient : Type := MkClient {
  fc_nrecent : Z;
  fc_msgid : Z;
  fc_pending : gmap Z reqref;
  fc_aborted : gmap Z reqref;
  fc_nrpc_started : nat;
  fc_nrpc_done : nat;
  fc_recentrpc : list reqref;
  fc_error : option VError;
  fc_nerrors : nat;
  fc_transport_onerr : option listener;
  fc_transport_onend : option listener;
  (* read by [detach], assigned nowhere *)
  fc_transport_onerror : option listener;
  fc_detached : bool;
  fc_transport_ended : bool
}.

(** The client together with everything it reads and writes.  The caller is
    taken to listen for the client's 'error' event, so that emitting it
    does not throw. *)
Record World : Type := MkWorld {
  w_client : FastClient;
  w_heap : list FastRpcRequest;          (* the request objects *)
  w_transport : Transport;
  w_encoder_piped : bool;                (* fc_msgencoder.pipe(transport) *)
  w_encoder_written : list message;      (* fc_msgencoder.write(message) *)
  w_immediates : list reqref;            (* setImmediate callbacks, in order *)
  w_emitted : list VError;               (* the client's 'error' events *)
  w_logged : list VError                 (* fc_log.error(err) *)
}.

Definition upd_client (f : FastClient -> FastClient) (w : World) : World :=
  {| w_client := f (w_client w); w_heap := w_heap w;
     w_transport := w_transport w; w_encoder_piped := w_encoder_piped w;
     w_encoder_written := w_encoder_written w;
     w_immediates := w_immediates w; w_emitted := w_emitted w;
     w_logged := w_logged w |}.

Definition upd_heap (f : list FastRpcRequest -> list FastRpcRequest)
    (w : World) : World :=
  {| w_client := w_client w; w_heap := f (w_heap w);
     w_transport := w_transport w; w_encoder_piped := w_encoder_piped w;
     w_encoder_written := w_encoder_written w;
     w_immediates := w_immediates w; w_emitted := w_emitted w;
     w_logged := w_logged w |}.

Definition upd_transport (f : Transport -> Transport) (w : World) : World :=
  {| w_client := w_client w; w_heap := w_heap w;
     w_transport := f (w_transport w); w_encoder_piped := w_encoder_piped w;
     w_encoder_written := w_encoder_written w;
     w_immediates := w_immediates w; w_emitted := w_emitted w;
     w_logged := w_logged w |}.

Definition set_encoder_piped (b : bool) (w : World) : World :=
  {| w_client := w_client w; w_heap := w_heap w;
     w_transport := w_transport w; w_encoder_piped := b;
     w_encoder_written := w_encoder_written w;
     w_immediates := w_immediates w; w_emitted := w_emitted w;
     w_logged := w_logged w |}.

Definition encoder_write (m : message) (w : World) : World :=
  {| w_client := w_client w; w_heap := w_heap w;
     w_transport := w_transport w; w_encoder_piped := w_encoder_piped w;
     w_encoder_written := w_encoder_written w ++ [m];
     w_immediates := w_immediates w; w_emitted := w_emitted w;
     w_logged := w_logged w |}.

Definition set_immediates (l : list reqref) (w : World) : World :=
  {| w_client := w_client w; w_heap := w_heap w;
     w_transport := w_transport w; w_encoder_piped := w_encoder_piped w;
     w_encoder_written := w_encoder_written w;
     w_immediates := l; w_emitted := w_emitted w;
     w_logged := w_logged w |}.

Definition emit_client_error (e : VError) (w : World) : World :=
  {| w_client := w_client w; w_heap := w_heap w;
     w_transport := w_transport w; w_encoder_piped := w_encoder_piped w;
     w_encoder_written := w_encoder_written w;
     w_immediates := w_immediates w; w_emitted := w_emitted w ++ [e];
     w_logged := w_logged w |}.

Definition log_error (e : VError) (w : World) : World :=
  {| w_client := w_client w; w_heap := w_heap w;
     w_transport := w_transport w; w_encoder_piped := w_encoder_piped w;
     w_encoder_written := w_encoder_written w;
     w_immediates := w_immediates w; w_emitted := w_emitted w;
     w_logged := w_logged w ++ [e] |}.

(** Field updates of the client object. *)
Definition set_fc_msgid (v : Z) (c : FastClient) : FastClient :=
  {| fc_nrecent := fc_nrecent c; fc_msgid := v; fc_pending := fc_pending c;
     fc_aborted := fc_aborted c; fc_nrpc_started := fc_nrpc_started c;
     fc_nrpc_done := fc_nrpc_done c; fc_recentrpc := fc_recentrpc c;
     fc_error := fc_error c; fc_nerrors := fc_nerrors c;
     fc_transport_onerr := fc_transport_onerr c;
     fc_transport_onend := fc_transport_onend c;
     fc_transport_onerror := fc_transport_onerror c;
     fc_detached := fc_detached c;
     fc_transport_ended := fc_transport_ended c |}.

Definition set_fc_pending (v : gmap Z reqref) (c : FastClient) : FastClient :=
  {| fc_nrecent := fc_nrecent c; fc_msgid := fc_msgid c; fc_pending := v;
     fc_aborted := fc_aborted c; fc_nrpc_started := fc_nrpc_started c;
     fc_nrpc_done := fc_nrpc_done c; fc_recentrpc := fc_recentrpc c;
     fc_error := fc_error c; fc_nerrors := fc_nerrors c;
     fc_transport_onerr := fc_transport_onerr c;
     fc_transport_onend := fc_transport_onend c;
     fc_transport_onerror := fc_transport_onerror c;
     fc_detached := fc_detached c;
     fc_transport_ended := fc_transport_ended c |}.

Definition set_fc_aborted (v : gmap Z reqref) (c : FastClient) : FastClient :=
  {| fc_nrecent := fc_nrecent c; fc_msgid := fc_msgid c;
     fc_pending := fc_pending c; fc_aborted := v;
     fc_nrpc_started := fc_nrpc_started c; fc_nrpc_done := fc_nrpc_done c;
     fc_recentrpc := fc_recentrpc c; fc_error := fc_error c;
     fc_nerrors := fc_nerrors c; fc_transport_onerr := fc_transport_onerr c;
     fc_transport_onend := fc_transport_onend c;
     fc_transport_onerror := fc_transport_onerror c;
     fc_detached := fc_detached c;
     fc_transport_ended := fc_transport_ended c |}.

Definition set_fc_nrpc_started (v : nat) (c : FastClient) : FastClient :=
  {| fc_nrecent := fc_nrecent c; fc_msgid := fc_msgid c;
     fc_pending := fc_pending c; fc_aborted := fc_aborted c;
     fc_nrpc_started := v; fc_nrpc_done := fc_nrpc_done c;
     fc_recentrpc := fc_recentrpc c; fc_error := fc_error c;
     fc_nerrors := fc_nerrors c; fc_transport_onerr := fc_transport_onerr c;
     fc_transport_onend := fc_transport_onend c;
     fc_transport_onerror := fc_transport_onerror c;
     fc_detached := fc_detached c;
     fc_transport_ended := fc_transport_ended c |}.

Definition set_fc_nrpc_done (v : nat) (c : FastClient) : FastClient :=
  {| fc_nrecent := fc_nrecent c; fc_msgid := fc_msgid c;
     fc_pending := fc_pending c; fc_aborted := fc_aborted c;
     fc_nrpc_started := fc_nrpc_started c; fc_nrpc_done := v;
     fc_recentrpc := fc_recentrpc c; fc_error := fc_error c;
     fc_nerrors := fc_nerrors c; fc_transport_onerr := fc_transport_onerr c;
     fc_transport_onend := fc_transport_onend c;
     fc_transport_onerror := fc_transport_onerror c;
     fc_detached := fc_detached c;
     fc_transport_ended := fc_transport_ended c |}.

Definition set_fc_recentrpc (v : list reqref) (c : FastClient) : FastClient :=
  {| fc_nrecent := fc_nrecent c; fc_msgid := fc_msgid c;
     fc_pending := fc_pending c; fc_aborted := fc_aborted c;
     fc_nrpc_started := fc_nrpc_started c; fc_nrpc_done := fc_nrpc_done c;
     fc_recentrpc := v; fc_error := fc_error c; fc_nerrors := fc_nerrors c;
     fc_transport_onerr := fc_transport_onerr c;
     fc_transport_onend := fc_transport_onend c;
     fc_transport_onerror := fc_transport_onerror c;
     fc_detached := fc_detached c;
     fc_transport_ended := fc_transport_ended c |}.

Definition set_fc_error (v : option VError) (c : FastClient) : FastClient :=
  {| fc_nrecent := fc_nrecent c; fc_msgid := fc_msgid c;
     fc_pending := fc_pending c; fc_aborted := fc_aborted c;
     fc_nrpc_started := fc_nrpc_started c; fc_nrpc_done := fc_nrpc_done c;
     fc_recentrpc := fc_recentrpc c; fc_error := v;
     fc_nerrors := fc_nerrors c; fc_transport_onerr := fc_transport_onerr c;
     fc_transport_onend := fc_transport_onend c;
     fc_transport_onerror := fc_transport_onerror c;
     fc_detached := fc_detached c;
     fc_transport_ended := fc_transport_ended c |}.

Definition set_fc_nerrors (v : nat) (c : FastClient) : FastClient :=
  {| fc_nrecent := fc_nrecent c; fc_msgid := fc_msgid c;
     fc_pending := fc_pending c; fc_aborted := fc_aborted c;
     fc_nrpc_started := fc_nrpc_started c; fc_nrpc_done := fc_nrpc_done c;
     fc_recentrpc := fc_recentrpc c; fc_error := fc_error c; fc_nerrors := v;
     fc_transport_onerr := fc_transport_onerr c;
     fc_transport_onend := fc_transport_onend c;
     fc_transport_onerror := fc_transport_onerror c;
     fc_detached := fc_detached c;
     fc_transport_ended := fc_transport_ended c |}.

Definition set_fc_transport_onerr (v : option listener) (c : FastClient) : FastClient :=
  {| fc_nrecent := fc_nrecent c; fc_msgid := fc_msgid c;
     fc_pending := fc_pending c; fc_aborted := fc_aborted c;
     fc_nrpc_started := fc_nrpc_started c; fc_nrpc_done := fc_nrpc_done c;
     fc_recentrpc := fc_recentrpc c; fc_error := fc_error c;
     fc_nerrors := fc_nerrors c; fc_transport_onerr := v;
     fc_transport_onend := fc_transport_onend c;
     fc_transport_onerror := fc_transport_onerror c;
     fc_detached := fc_detached c;
     fc_transport_ended := fc_transport_ended c |}.

Definition set_fc_transport_onend (v : option listener) (c : FastClient) : FastClient :=
  {| fc_nrecent := fc_nrecent c; fc_msgid := fc_msgid c;
     fc_pending := fc_pending c; fc_aborted := fc_aborted c;
     fc_nrpc_started := fc_nrpc_started c; fc_nrpc_done := fc_nrpc_done c;
     fc_recentrpc := fc_recentrpc c; fc_error := fc_error c;
     fc_nerrors := fc_nerrors c; fc_transport_onerr := fc_transport_onerr c;
     fc_transport_onend := v; fc_transport_onerror := fc_transport_onerror c;
     fc_detached := fc_detached c;
     fc_transport_ended := fc_transport_ended c |}.

Definition set_fc_detached (v : bool) (c : FastClient) : FastClient :=
  {| fc_nrecent := fc_nrecent c; fc_msgid := fc_msgid c;
     fc_pending := fc_pending c; fc_aborted := fc_aborted c;
     fc_nrpc_started := fc_nrpc_started c; fc_nrpc_done := fc_nrpc_done c;
     fc_recentrpc := fc_recentrpc c; fc_error := fc_error c;
     fc_nerrors := fc_nerrors c; fc_transport_onerr := fc_transport_onerr c;
     fc_transport_onend := fc_transport_onend c;
     fc_transport_onerror := fc_transport_onerror c; fc_detached := v;
     fc_transport_ended := fc_transport_ended c |}.

Definition set_fc_transport_ended (v : bool) (c : FastClient) : FastClient :=
  {| fc_nrecent := fc_nrecent c; fc_msgid := fc_msgid c;
     fc_pending := fc_pending c; fc_aborted := fc_aborted c;
     fc_nrpc_started := fc_nrpc_started c; fc_nrpc_done := fc_nrpc_done c;
     fc_recentrpc := fc_recentrpc c; fc_error := fc_error c;
     fc_nerrors := fc_nerrors c; fc_transport_onerr := fc_transport_onerr c;
     fc_transport_onend := fc_transport_onend c;
     fc_transport_onerror := fc_transport_onerror c;
     fc_detached := fc_detached c; fc_transport_ended := v |}.

(** ** The state-and-exception monad *)

Definition M (A : Type) : Type := World -> outcome A * World.

Definition ret {A : Type} (a : A) : M A := fun w => (Ok a, w).

Definition throw {A : Type} (e : exn) : M A := fun w => (Throw e, w).

Definition bind {A B : Type} (m : M A) (k : A -> M B) : M B :=
  fun w =>
    match m w with
    | (Ok a, w') => k a w'
    | (Throw e, w') => (Throw e, w')
    end.

Notation "'let*' x ':=' m 'in' k" := (bind m (fun x => k))
  (at level 10, x name, m at level 100, k at level 200).
Notation "m '>>' k" := (bind m (fun _ => k))
  (at level 90, right associativity).

Definition get : M World := fun w => (Ok w, w).

Definition modify (f : World -> World) : M unit := fun w => (Ok tt, f w).

Definition lift {A : Type} (o : outcome A) : M A := fun w => (o, w).

(** [mod_assertplus.ok(b)] *)
Definition assert_ok (b : bool) (msg : string) : M unit :=
  if b then ret tt else throw (AssertionError msg).

Fixpoint for_each {A : Type} (l : list A) (body : A -> M unit) : M unit :=
  match l with
  | [] => ret tt
  | x :: l' => body x >> for_each l' body
  end.

(** Reading and updating a request object through its reference.  A
    reference handed out by [rpc] is never dangling; the error branch only
    makes the function total. *)
Definition deref (r : reqref) : M FastRpcRequest :=
  fun w =>
    match w_heap w !! r with
    | Some q => (Ok q, w)
    | None => (Throw (TypeError "no such request object"), w)
    end.

Definition update_request (r : reqref) (f : FastRpcRequest -> FastRpcRequest)
    : M unit :=
  modify (upd_heap (alter f r)).

(** [new FastRpcRequest(...)]: allocate the object, return its reference. *)
Definition alloc_request (q : FastRpcRequest) : M reqref :=
  fun w => (Ok (length (w_heap w)), upd_heap (fun h => h ++ [q]) w).

(** ** The transport's event-emitter interface *)

Definition transport_on (ev : string) (l : option listener) : M unit :=
  match l with
  | Some f =>
      modify (upd_transport (fun t =>
        {| tr_listeners := tr_listeners t ++ [(ev, f)];
           tr_piped_to_decoder := tr_piped_to_decoder t;
           tr_checks_listener := tr_checks_listener t |}))
  | None => throw (TypeError "listener must be a function")
  end.

(** Drop the most recently added occurrence of [x]. *)
Fixpoint remove_last (x : string * listener) (l : list (string * listener))
    : list (string * listener) :=
  match l with
  | [] => []
  | y :: l' =>
      if bool_decide (x ∈ l') then y :: remove_last x l'
      else if decide (y = x) then l' else y :: l'
  end.

(** [transport.removeListener(ev, l)]; [l] is [None] when the caller passes
    [undefined]. *)
Definition transport_removeListener (ev : string) (l : option listener)
    : M unit :=
  match l with
  | Some f =>
      modify (upd_transport (fun t =>
        {| tr_listeners := remove_last (ev, f) (tr_listeners t);
           tr_piped_to_decoder := tr_piped_to_decoder t;
           tr_checks_listener := tr_checks_listener t |}))
  | None =>
      let* w := get in
      if tr_checks_listener (w_transport w)
      then throw (TypeError "listener must be a function")
      else ret tt
  end.

Definition transport_set_piped (b : bool) : M unit :=
  modify (upd_transport (fun t =>
    {| tr_listeners := tr_listeners t;
       tr_piped_to_decoder := b;
       tr_checks_listener := tr_checks_listener t |})).

(** ** The methods of [FastClient] *)

(** [allocMessageId] *)
Definition allocMessageId : M Z :=
  let* w := get in
  let incremented := fc_msgid (w_client w) + 1 in
  modify (upd_client (set_fc_msgid incremented)) >>
  (if incremented >=? FP_MSGID_MAX
   then modify (upd_client (set_fc_msgid 1))
   else ret tt) >>
  let* w' := get in
  ret (fc_msgid (w_client w')).

(** [requestIsPending], on the request object itself. *)
Definition requestIsPending (q : FastRpcRequest) : bool :=
  negb (frq_done_graceful q) && bool_decide (frq_error q = None).

(** [requestComplete] *)
Definition requestComplete (r : reqref) : M unit :=
  let* q := deref r in
  let msgid := frq_msgid q in
  assert_ok (negb (requestIsPending q)) "request is still pending" >>
  let* w := get in
  assert_ok (bool_decide (fc_pending (w_client w) !! msgid = Some r))
    "request is not in fc_pending" >>
  modify (upd_client (fun c => set_fc_pending (delete msgid (fc_pending c)) c)) >>
  modify (upd_client (fun c => set_fc_nrpc_done (S (fc_nrpc_done c)) c)) >>
  modify (upd_client (fun c => set_fc_recentrpc (fc_recentrpc c ++ [r]) c)) >>
  let* w' := get in
  if Z.of_nat (length (fc_recentrpc (w_client w'))) >? fc_nrecent (w_client w')
  then modify (upd_client (fun c => set_fc_recentrpc (tail (fc_recentrpc c)) c))
  else ret tt.

(** [requestFail] *)
Definition requestFail (r : reqref) (error : VError) : M unit :=
  let* q := deref r in
  assert_ok (bool_decide (frq_error q = None)) "frq_error is set" >>
  update_request r (set_frq_error (Some
    (new_VError (Some (ve_name error)) (Some error)
       (<["rpcMsgid" := JNum (frq_msgid q)]>
          (<["rpcMethod" := JStr (frq_rpcmethod q)]> ∅))
       EmptyString))) >>
  requestComplete r >>
  (* setImmediate(function () { request.emit('error', request.frq_error) }) *)
  modify (fun w => set_immediates (w_immediates w ++ [r]) w).

(** [requestAbort]; [error] is [None] when the argument is omitted. *)
Definition requestAbort (r : reqref) (error : option VError) : M unit :=
  let* q := deref r in
  if negb (requestIsPending q) then ret tt
  else
    let msgid := frq_msgid q in
    let* w := get in
    assert_ok (bool_decide (fc_pending (w_client w) !! msgid = Some r))
      "request is not in fc_pending" >>
    update_request r (set_frq_aborted true) >>
    modify (upd_client (fun c =>
      set_fc_aborted (<[frq_msgid q := r]> (fc_aborted c)) c)) >>
    requestFail r
      (new_VError (Some "RequestAbortedError") error ∅ "request aborted").

(** The property names [for (msgid in this.fc_pending)] visits: integer
    keys, in ascending order. *)
Definition pending_keys (pending : gmap Z reqref) : list Z :=
  merge_sort Z.le (map fst (map_to_list pending)).

(** [requestAbortAll] *)
Definition requestAbortAll (error : VError) : M unit :=
  let* w := get in
  for_each (pending_keys (fc_pending (w_client w))) (fun msgid =>
    let* w1 := get in
    match fc_pending (w_client w1) !! msgid with
    | None => ret tt (* a property deleted before its turn is skipped *)
    | Some r =>
        let* q := deref r in
        assert_ok (requestIsPending q) "request is not pending" >>
        requestAbort r (Some error) >>
        let* w2 := get in
        assert_ok (bool_decide (fc_pending (w_client w2) !! msgid = None))
          "request is still in fc_pending"
    end).

(** [fatalError] *)
Definition fatalError (err : VError) : M unit :=
  modify (log_error err) >>
  modify (upd_client (fun c => set_fc_nerrors (S (fc_nerrors c)) c)) >>
  let* w := get in
  match fc_error (w_client w) with
  | Some _ => ret tt
  | None =>
      modify (upd_client (set_fc_error (Some err))) >>
      modify (emit_client_error err) >>
      requestAbortAll err
  end.

(** [message.data.d.forEach(function (d) { request.push(d); })]: the
    pushes of one call happen in one turn of the event loop. *)
Definition push_each (r : reqref) (d : jsval) : M unit :=
  match d with
  | JArr items => update_request r (pushed items)
  | JUndefined | JNull =>
      throw (TypeError "Cannot read property 'forEach' of undefined or null")
  | _ => throw (TypeError "message.data.d.forEach is not a function")
  end.

(** [onMessage] *)
Definition onMessage (message : message) : M unit :=
  let* w := get in
  let* found :=
    match fc_pending (w_client w) !! msg_msgid message with
    | Some r =>
        let* q := deref r in
        assert_ok (negb (frq_aborted q)) "pending request is aborted" >>
        ret (Some (r, false))
    | None =>
        match fc_aborted (w_client w) !! msg_msgid message with
        | Some r =>
            let* q := deref r in
            assert_ok (frq_aborted q) "aborted request is not aborted" >>
            ret (Some (r, true))
        | None =>
            fatalError
              (new_VError (Some "FastProtocolError") None
                 (<["fast_reason" := JStr "unknown_msgid"]>
                    (<["fast_msgid" := JNum (msg_msgid message)]> ∅))
                 ("fast protocol: received message with unknown msgid "
                    +:+ pretty (msg_msgid message))) >>
            ret None
        end
    end in
  match found with
  | None => ret tt
  | Some (r, aborted) =>
      let* q := deref r in
      assert_ok (negb (frq_done_graceful q)) "request is already done" >>
      update_request r (set_frq_last message) >>
      if msg_status message =? FP_STATUS_END then
        if aborted then
          modify (upd_client (fun c =>
            set_fc_aborted (delete (frq_msgid q) (fc_aborted c)) c))
        else
          update_request r (set_frq_done_graceful true) >>
          requestComplete r >>
          update_request r stream_end               (* request.end() *)
      else if aborted then
        update_request r incr_frq_nignored
      else
        let* q1 := deref r in
        assert_ok (bool_decide (frq_error q1 = None)) "frq_error is set" >>
        if msg_status message =? FP_STATUS_DATA then
          update_request r incr_frq_ndata >>
          let* d := lift (js_get (msg_data message) "d") in
          push_each r d
        else
          assert_ok (msg_status message =? FP_STATUS_ERROR)
            "decoder emitted message with invalid status" >>
          let* d := lift (js_get (msg_data message) "d") in
          let* name := lift (js_get d "name") in
          let* context := lift (js_get d "context") in
          let* ase_errors := lift (js_get d "ase_errors") in
          let* msg := lift (js_get d "message") in
          let* name_opt := lift (name_option name) in
          let cause :=
            new_VError name_opt None
              (<["rpcMsgid" := JNum (frq_msgid q)]>
                 (<["rpcMethod" := JStr (frq_rpcmethod q)]>
                    (<["context" := js_or context (JObj [])]>
                       (<["errors" := js_or ase_errors (JArr [])]> ∅))))
              (js_to_string msg) in
          update_request r (set_frq_done_graceful true) >>
          requestFail r (new_VError None (Some cause) ∅ "server error")
  end.

(** [rpc]; the result is the reference to the new request object. *)
Definition rpc (rpcmethod : string) (rpcargs : list jsval) : M reqref :=
  let* msgid := allocMessageId in
  let* request := alloc_request (new_FastRpcRequest msgid rpcmethod rpcargs) in
  let* w := get in
  assert_ok (bool_decide (fc_pending (w_client w) !! msgid = None))
    "msgid is already pending" >>
  modify (upd_client (fun c => set_fc_pending (<[msgid := request]> (fc_pending c)) c)) >>
  modify (upd_client (fun c => set_fc_nrpc_started (S (fc_nrpc_started c)) c)) >>
  let* w1 := get in
  if fc_detached (w_client w1) || fc_transport_ended (w_client w1) then
    update_request request (set_frq_skip true) >>
    requestFail request
      (new_VError (Some "TransportError") None ∅ "transport detached") >>
    ret request
  else
    modify (encoder_write
      {| msg_msgid := msgid;
         msg_status := FP_STATUS_DATA;
         msg_data := JObj [("m", JObj [("name", JStr rpcmethod)]);
                           ("d", JArr rpcargs)] |}) >>
    ret request.

(** [detach] *)
Definition detach : M unit :=
  let* w := get in
  if fc_detached (w_client w) then ret tt
  else
    modify (upd_client (set_fc_detached true)) >>
    transport_removeListener "end" (fc_transport_onend (w_client w)) >>
    transport_removeListener "error" (fc_transport_onerror (w_client w)) >>
    transport_set_piped false >>
    modify (set_encoder_piped false) >>
    requestAbortAll (new_VError None None ∅ "client detached from transport").

(** The body of the closure [onTransportEnd]. *)
Definition onTransportEnd : M unit :=
  modify (upd_client (set_fc_transport_ended true)) >>
  let* w := get in
  if (fc_nrpc_done (w_client w) <? fc_nrpc_started (w_client w))%nat then
    fatalError (new_VError (Some "FastProtocolError") None ∅
                  "unexpected end of transport stream")
  else ret tt.

(** The body of the closure [onTransportError]. *)
Definition onTransportError (err : VError) : M unit :=
  fatalError (new_VError (Some "TransportError") (Some err) ∅
                "unexpected error on transport").

(** [attach] *)
Definition attach : M unit :=
  transport_set_piped true >>
  modify (set_encoder_piped true) >>
  modify (upd_client (set_fc_transport_onend (Some OnTransportEnd))) >>
  modify (upd_client (set_fc_transport_onerr (Some OnTransportError))) >>
  let* w := get in
  transport_on "end" (fc_transport_onend (w_client w)) >>
  transport_on "error" (fc_transport_onerr (w_client w)).

(** [new FastClient({ nRecentRequests, transport })]: the fields as the
    constructor initialises them, then [attach()]. *)
Definition constructed (nRecentRequests : Z) (transport : Transport) : World :=
  {| w_client :=
       {| fc_nrecent := nRecentRequests; fc_msgid := 0;
          fc_pending := ∅; fc_aborted := ∅;
          fc_nrpc_started := 0; fc_nrpc_done := 0; fc_recentrpc := [];
          fc_error := None; fc_nerrors := 0;
          fc_transport_onerr := None; fc_transport_onend := None;
          fc_transport_onerror := None;
          fc_detached := false; fc_transport_ended := false |};
     w_heap := []; w_transport := transport;
     w_encoder_piped := false; w_encoder_written := [];
     w_immediates := []; w_emitted := []; w_logged := [] |}.

Definition new_FastClient (nRecentRequests : Z) (transport : Transport)
    : World :=
  snd (attach (constructed nRecentRequests transport)).

(** ** The environment: callers, the decoder, the transport, the event loop *)

(** Modelled from the spec: [request.abort()] belongs to
    [lib/fast_client_request.js], which is not among the sources; it aborts
    the request locally, without a cause. *)
Definition request_abort (r : reqref) : M unit := requestAbort r None.

(** One turn of the event loop's immediate queue: the oldest callback
    scheduled by [requestFail] runs and emits the request's error. *)
Definition run_immediate : M unit :=
  let* w := get in
  match w_immediates w with
  | [] => ret tt
  | r :: rest =>
      modify (set_immediates rest) >>
      let* q := deref r in
      update_request r (deliver (EvError (frq_error q)))
  end.

Definition invoke_listener (l : listener) (arg : option VError) : M unit :=
  match l with
  | OnTransportEnd => onTransportEnd
  | OnTransportError =>
      onTransportError (default (new_VError None None ∅ EmptyString) arg)
  end.

(** [transport.emit(ev, arg)]: the listeners registered for [ev] when the
    event is emitted run in registration order. *)
Definition transport_emit (ev : string) (arg : option VError) : M unit :=
  let* w := get in
  for_each (filter (fun p => p.1 = ev) (tr_listeners (w_transport w)))
    (fun p => invoke_listener p.2 arg).

(** What can happen to a client after its construction. *)
Inductive action : Type :=
  | CallRpc (rpcmethod : string) (rpcargs : list jsval)
  | CallAbort (request : reqref)
  | CallDetach
  | DecoderMessage (m : message)
  | DecoderError (err : VError)
  | TransportEnd
  | TransportError (err : VError)
  | Immediate.

Definition perform (a : action) : M unit :=
  match a with
  | CallRpc rpcmethod rpcargs => rpc rpcmethod rpcargs >> ret tt
  | CallAbort request => request_abort request
  | CallDetach => detach
  | DecoderMessage m => onMessage m
  | DecoderError err => fatalError err
  | TransportEnd => transport_emit "end" None
  | TransportError err => transport_emit "error" (Some err)
  | Immediate => run_immediate
  end.

(** The state after an action, whether it returned or threw. *)
Definition step (w : World) (a : action) : World := snd (perform a w).

Definition run (actions : list action) (w : World) : World :=
  fold_left step actions w.

(** A transport nobody has touched yet. *)
Definition fresh_transport (checks : bool) : Transport :=
  {| tr_listeners := []; tr_piped_to_decoder := false;
     tr_checks_listener := checks |}.

(** The states a client can be in: constructed on a fresh transport, then
    any sequence of actions. *)
Definition history (nRecentRequests : Z) (checks : bool)
    (actions : list action) : World :=
  run actions (new_FastClient nRecentRequests (fresh_transport checks)).

(** The deliveries on a request's stream so far. *)
Definition stream_of (w : World) (r : reqref) : list stream_event :=
  match w_heap w !! r with
  | Some q => frq_stream q
  | None => []
  end.

(** ** The frame encoder *)

(** The bytes of a string (strings are byte sequences; text is UTF-8). *)
Definition bytes_of_string (s : string) : list Z :=
  map (fun c => Z.of_nat (Ascii.nat_of_ascii c)) (String.list_ascii_of_string s).

Definition hex_digit (n : Z) : string :=
  String (Ascii.ascii_of_nat
            (Z.to_nat (if n <? 10 then 48 + n else 87 + n))) EmptyString.

Definition backslash : string := String (Ascii.ascii_of_nat 92) EmptyString.
Definition dquote : string := String (Ascii.ascii_of_nat 34) EmptyString.

(** One character inside a JSON string literal. *)
Definition json_escape (c : Ascii.ascii) : string :=
  let n := Z.of_nat (Ascii.nat_of_ascii c) in
  if n =? 34 then backslash +:+ dquote
  else if n =? 92 then backslash +:+ backslash
  else if n =? 8 then backslash +:+ "b"
  else if n =? 12 then backslash +:+ "f"
  else if n =? 10 then backslash +:+ "n"
  else if n =? 13 then backslash +:+ "r"
  else if n =? 9 then backslash +:+ "t"
  else if n <? 32 then
    backslash +:+ "u00" +:+ hex_digit (n / 16) +:+ hex_digit (n mod 16)
  else String c EmptyString.

Definition json_quote (s : string) : string :=
  dquote
  +:+ fold_right (fun c acc => json_escape c +:+ acc) EmptyString
        (String.list_ascii_of_string s)
  +:+ dquote.

Definition is_undefined (v : jsval) : bool :=
  match v with JUndefined => true | _ => false end.

(** [JSON.stringify(v)] for a value that is not [undefined] at the top:
    [undefined] prints as [null] inside an array and drops the property
    inside an object. *)
Fixpoint JSON_stringify (v : jsval) : string :=
  match v with
  | JUndefined | JNull => "null"
  | JBool true => "true"
  | JBool false => "false"
  | JNum n => pretty n
  | JStr s => json_quote s
  | JArr items => "[" +:+ join_comma (map JSON_stringify items) +:+ "]"
  | JObj props =>
      "{" +:+
      join_comma
        (omap (fun p => let '(k, x) := p in
                        if is_undefined x then None
                        else Some (json_quote k +:+ ":" +:+ JSON_stringify x))
           props)
      +:+ "}"
  end.

(** The checksum modes of the protocol. *)
Inductive crc_mode : Type :=
  | CRC_MODE_OLD
  | CRC_MODE_NEW
  | CRC_MODE_OLD_NEW.

Global Instance crc_mode_eq_dec : EqDecision crc_mode.
Proof. solve_decision. Defined.

(** Modelled from the spec: the two checksums come from the [crc] packages
    [lib/fast_protocol.js] loads, neither of which is among the sources.
    NEW is the conformant CRC-16: bits taken least significant first,
    polynomial 0xA001, start value 0. *)
Definition crc16_new_step (crc byte : Z) : Z :=
  Nat.iter 8
    (fun c => if Z.testbit c 0
              then Z.lxor (Z.shiftr c 1) 40961
              else Z.shiftr c 1)
    (Z.lxor crc byte).

Definition crc16_new (payload : list Z) : Z := fold_left crc16_new_step payload 0.

(** Modelled from the spec: OLD is the legacy variant, which takes the bits
    most significant first with polynomial 0x1021 and start value 0 (the
    checksum of ZMODEM); this is the 16-bit variant that yields the spec's
    reference value. *)
Definition crc16_old_step (crc byte : Z) : Z :=
  Nat.iter 8
    (fun c => if Z.testbit c 15
              then Z.land (Z.lxor (Z.shiftl c 1) 4129) 65535
              else Z.land (Z.shiftl c 1) 65535)
    (Z.lxor crc (Z.shiftl byte 8)).

Definition crc16_old (payload : list Z) : Z := fold_left crc16_old_step payload 0.

(** A 32-bit big-endian field. *)
Definition u32_be (n : Z) : list Z :=
  [Z.land (Z.shiftr n 24) 255; Z.land (Z.shiftr n 16) 255;
   Z.land (Z.shiftr n 8) 255; Z.land n 255].

Definition FP_OFF_MSGID : nat := 3.
Definition FP_OFF_CRC : nat := 7.
Definition FP_OFF_DATALEN : nat := 11.
(* the fields before the payload take 1 + 1 + 1 + 4 + 4 + 4 bytes *)
Definition FP_OFF_DATA : nat := 15.

(** Modelled from the spec: [fastMessageEncode] is defined in
    [lib/fast_protocol.js], which is not among the sources.  The message is
    validated, its data serialised as JSON, and the frame is the header
    (version 1, type 1, status, msgid, crc, data length) followed by the
    payload.  The checksum in the header is the one of the configured mode:
    the legacy one in mode OLD, the conformant one in mode NEW, and in mode
    OLD_NEW the legacy one again ('emit OLD, but accept either on
    decode'). *)
Definition fastMessageEncode (mode : crc_mode) (msg : message)
    : outcome (list Z) :=
  if negb ((0 <=? msg_msgid msg) && (msg_msgid msg <=? FP_MSGID_MAX)) then
    Throw (AssertionError
             "msg.msgid is not an integer between 0 and FP_MSGID_MAX")
  else if negb ((1 <=? msg_status msg) && (msg_status msg <=? 3)) then
    Throw (AssertionError "unsupported fast message status")
  else
    match msg_data msg with
    | JArr _ | JObj _ =>
        let payload := bytes_of_string (JSON_stringify (msg_data msg)) in
        let crc := match mode with
                   | CRC_MODE_OLD | CRC_MODE_OLD_NEW => crc16_old payload
                   | CRC_MODE_NEW => crc16_new payload
                   end in
        Ok ([1; 1; msg_status msg]
              ++ u32_be (msg_msgid msg)
              ++ u32_be crc
              ++ u32_be (Z.of_nat (length payload))
              ++ payload)
    | _ => Throw (AssertionError "msg.data (object) is required")
    end.

(** [buf.readUInt32BE(off)] *)
Definition readUInt32BE (buf : list Z) (off : nat) : Z :=
  match take 4 (drop off buf) with
  | [a; b; c; d] => ((a * 256 + b) * 256 + c) * 256 + d
  | _ => -1
  end.

(** The input of the test case 'basic data message' of
    [test/tst.protocol_encoder.js]. *)
Definition basic_data_message : message :=
  {| msg_msgid := 1; msg_status := FP_STATUS_DATA;
     msg_data := JArr [JStr "hello"; JStr "world"] |}.

(** What the check of that test case requires of the checksum field, by
    the mode of the test run. *)
Definition basic_data_message_crc (mode : crc_mode) : Z :=
  if decide (mode = CRC_MODE_OLD) then 10980 else 7500.

(** The text [["hello","world"]]. *)
Definition hello_world_json : string :=
  "[" +:+ dquote +:+ "hello" +:+ dquote +:+ ","
      +:+ dquote +:+ "world" +:+ dquote +:+ "]".

(** * Auxiliary definitions for the statements *)

(** ** Observations of a state *)

(** The last message identifier the client has used. *)
Definition msgid_of (w : World) : Z := fc_msgid (w_client w).

(** [frq_nignored] of the request at [r]. *)
Definition nignored_of (w : World) (r : reqref) : nat :=
  match w_heap w !! r with
  | Some q => frq_nignored q
  | None => 0%nat
  end.

(** How often the immediate queue holds a callback for [r]. *)
Definition scheduled (r : reqref) (w : World) : nat :=
  length (filter (fun x => x = r) (w_immediates w)).

(** The error a request's stream ended with, if it did. *)
Definition delivered_error (w : World) (r : reqref) : option VError :=
  match last (stream_of w r) with
  | Some (EvError e) => e
  | _ => None
  end.

(** The data values a request's stream has delivered. *)
Definition delivered_data (w : World) (r : reqref) : list jsval :=
  omap (fun ev => match ev with EvData v => Some v | _ => None end)
    (stream_of w r).

(** What [detach] changes outside the request tables: whether the client is
    detached, and the transport's listeners. *)
Definition attachment (w : World) : bool * list (string * listener) :=
  (fc_detached (w_client w), tr_listeners (w_transport w)).

(** The checksum field of an encoded frame, as the encoder's tests read it
    back. *)
Definition encoded_crc (mode : crc_mode) (msg : message) : option Z :=
  match fastMessageEncode mode msg with
  | Ok buf => Some (readUInt32BE buf FP_OFF_CRC)
  | Throw _ => None
  end.

(** The payload of an encoded frame. *)
Definition encoded_payload (mode : crc_mode) (msg : message)
    : option (list Z) :=
  match fastMessageEncode mode msg with
  | Ok buf => Some (drop FP_OFF_DATA buf)
  | Throw _ => None
  end.

(** ** The sequence of message identifiers *)

(** The successor function [allocMessageId] applies to [fc_msgid]. *)
Definition next_msgid (last : Z) : Z :=
  if last + 1 >=? FP_MSGID_MAX then 1 else last + 1.

(** Is the action a call of [rpc]? *)
Definition is_rpc (a : action) : bool :=
  match a with CallRpc _ _ => true | _ => false end.

(** The number of [rpc] calls in a history. *)
Definition rpc_calls (actions : list action) : nat :=
  length (filter (fun a => is_rpc a = true) actions).

(** The closed form of the identifier sequence; [0] before any allocation. *)
Definition msgid_after (n : nat) : Z :=
  match n with
  | O => 0
  | S k => Z.of_nat k mod (2 ^ 31 - 2) + 1
  end.

(** ** What the methods leave behind *)

(** [keeps f m]: running [m] leaves the observation [f] of the state
    unchanged, whether [m] returns or throws. *)
Definition keeps {A X : Type} (f : World -> X) (m : M A) : Prop :=
  forall w, f (snd (m w)) = f w.

(** [fc_recentrpc] after a push: the oldest entry is dropped once the list
    is longer than [fc_nrecent]. *)
Definition trim_recent (nrecent : Z) (l : list reqref) : list reqref :=
  if Z.of_nat (length l) >? nrecent then tail l else l.

(** The state a successful [requestComplete] leaves, for the request [r]
    with identifier [m]. *)
Definition completed (r : reqref) (m : Z) (w : World) : World :=
  upd_client (fun c =>
    set_fc_recentrpc (trim_recent (fc_nrecent c) (fc_recentrpc c ++ [r]))
      (set_fc_nrpc_done (S (fc_nrpc_done c))
         (set_fc_pending (delete m (fc_pending c)) c))) w.

(** The error [requestFail] stores in the request. *)
Definition request_error (m : Z) (rpcmethod : string) (error : VError)
    : VError :=
  new_VError (Some (ve_name error)) (Some error)
    (<["rpcMsgid" := JNum m]> (<["rpcMethod" := JStr rpcmethod]> ∅))
    EmptyString.

(** The state a successful [requestFail] leaves. *)
Definition failed (r : reqref) (m : Z) (rpcmethod : string) (error : VError)
    (w : World) : World :=
  let w1 := upd_heap
              (alter (set_frq_error (Some (request_error m rpcmethod error))) r)
              w in
  let w2 := completed r m w1 in
  set_immediates (w_immediates w2 ++ [r]) w2.

(** The error [requestAbort] fails the request with. *)
Definition abort_error (error : option VError) : VError :=
  new_VError (Some "RequestAbortedError") error ∅ "request aborted".

(** The state a successful [requestAbort] of a pending request leaves. *)
Definition aborted_by (r : reqref) (m : Z) (rpcmethod : string)
    (error : option VError) (w : World) : World :=
  failed r m rpcmethod (abort_error error)
    (upd_client (fun c => set_fc_aborted (<[m := r]> (fc_aborted c)) c)
       (upd_heap (alter (set_frq_aborted true) r) w)).

(** The state the loop of [requestAbortAll] leaves after visiting [keys]. *)
Fixpoint abort_all (keys : list Z) (error : VError) (w : World) : World :=
  match keys with
  | [] => w
  | k :: keys' =>
      match fc_pending (w_client w) !! k with
      | None => abort_all keys' error w
      | Some r =>
          match w_heap w !! r with
          | Some q =>
              abort_all keys' error
                (aborted_by r (frq_msgid q) (frq_rpcmethod q) (Some error) w)
          | None => w
          end
      end
  end.

(** The error [onMessage] raises for a message whose identifier is in
    neither table. *)
Definition unknown_msgid_error (msgid : Z) : VError :=
  new_VError (Some "FastProtocolError") None
    (<["fast_reason" := JStr "unknown_msgid"]>
       (<["fast_msgid" := JNum msgid]> ∅))
    ("fast protocol: received message with unknown msgid " +:+ pretty msgid).


(** The state [fatalError] leaves: the error is logged and counted; the
    first one is also recorded, emitted and handed to every pending
    request. *)
Definition fatal (err : VError) (w : World) : World :=
  let w1 := upd_client (fun c => set_fc_nerrors (S (fc_nerrors c)) c)
              (log_error err w) in
  match fc_error (w_client w) with
  | Some _ => w1
  | None =>
      abort_all (pending_keys (fc_pending (w_client w))) err
        (emit_client_error err (upd_client (set_fc_error (Some err)) w1))
  end.

(** ** The invariant of the client's state *)

(** What the server's data can leave on a stream after the data values:
    nothing; the 'end' of a null item; the stream's own error, for an item
    after a null item, after the 'end' where that had been emitted.  When
    the server is known to send no null item ([strict]) it is nothing. *)
Definition push_tail (strict : bool) (tail : list stream_event) : Prop :=
  tail = [] \/
  (strict = false /\
   (tail = [EvEnd] \/ tail = [EvPushAfterEOF] \/
    tail = [EvEnd; EvPushAfterEOF])).

(** The shape of a request's stream, given how many error callbacks are
    still queued for it: the data values and what the pushes left after
    them while nothing is decided; then [end] after a graceful end of a
    stream that was not over; then the request's error once its callback
    has run. *)
Definition stream_ok (strict : bool) (q : FastRpcRequest) (queued : nat)
    : Prop :=
  exists (ds : list jsval) (tail : list stream_event),
    push_tail strict tail /\
    match frq_error q with
    | None =>
        queued = 0%nat /\
        frq_stream q
        = map EvData ds ++ tail
          ++ (if frq_done_graceful q && negb (stream_over tail)
              then [EvEnd] else [])
    | Some e =>
        (queued = 1%nat /\ frq_stream q = map EvData ds ++ tail) \/
        (queued = 0%nat /\
         frq_stream q = map EvData ds ++ tail ++ [EvError (Some e)])
    end.

(** Counters and tables agree, the tables point at request objects in the
    matching state, and every stream has the shape above. *)
Record wfs (strict : bool) (w : World) : Prop := {
  wf_count :
    fc_nrpc_started (w_client w)
    = (fc_nrpc_done (w_client w) + size (fc_pending (w_client w)))%nat;
  wf_pending : forall m r,
    fc_pending (w_client w) !! m = Some r ->
    exists q, w_heap w !! r = Some q /\ frq_msgid q = m /\
              requestIsPending q = true /\ frq_aborted q = false;
  wf_aborted : forall m r,
    fc_aborted (w_client w) !! m = Some r ->
    exists q, w_heap w !! r = Some q /\ frq_msgid q = m /\
              frq_aborted q = true /\ frq_done_graceful q = false;
  wf_streams : forall r,
    match w_heap w !! r with
    | Some q => stream_ok strict q (scheduled r w)
    | None => scheduled r w = 0%nat
    end
}.
Arguments wf_count {strict} w _.
Arguments wf_pending {strict} w _ m r _.
Arguments wf_aborted {strict} w _ m r _.
Arguments wf_streams {strict} w _ r.

(** The invariant of every state a client can reach. *)
Abbreviation wf := (wfs false).

(** [keeps_wf strict m]: running [m] in a state that satisfies the
    invariant leaves one that satisfies it, whether [m] returns or
    throws. *)
Definition keeps_wf (strict : bool) {A : Type} (m : M A) : Prop :=
  forall w, wfs strict w -> wfs strict (snd (m w)).

(** ** What the server sends *)

(** One of the items is [null]. *)
Definition has_null (items : list jsval) : bool :=
  existsb (fun x => match x with JNull => true | _ => false end) items.

(** The action is not the arrival of a DATA message with a null item. *)
Definition null_free (a : action) : bool :=
  match a with
  | DecoderMessage msg =>
      match js_get (msg_data msg) "d" with
      | Ok (JArr items) =>
          negb ((msg_status msg =? FP_STATUS_DATA) && has_null items)
      | _ => true
      end
  | _ => true
  end.



(** [w'] has the request tables and counters of [w]. *)
Definition same_tables (w w' : World) : Prop :=
  fc_pending (w_client w') = fc_pending (w_client w) /\
  fc_aborted (w_client w') = fc_aborted (w_client w) /\
  fc_nrpc_started (w_client w') = fc_nrpc_started (w_client w) /\
  fc_nrpc_done (w_client w') = fc_nrpc_done (w_client w).

(** The heap of [w'] is the heap of [w] with the object at [r] replaced by
    [q']. *)
Definition heap_update (w w' : World) (r : reqref) (q' : FastRpcRequest)
    : Prop :=
  w_heap w' !! r = Some q' /\
  forall r', r' <> r -> w_heap w' !! r' = w_heap w !! r'.

(** The request [r], issued under identifier [m], has been aborted on
    behalf of the fatal error [err]: it has moved from [fc_pending] to
    [fc_aborted], its error wraps the abort error caused by [err], and the
    callback that delivers it is queued. *)
Definition aborted_with (err : VError) (m : Z) (r : reqref) (w : World)
    : Prop :=
  fc_pending (w_client w) !! m = None /\
  fc_aborted (w_client w) !! m = Some r /\
  exists q,
    w_heap w !! r = Some q /\
    frq_msgid q = m /\
    frq_error q
    = Some (request_error m (frq_rpcmethod q) (abort_error (Some err))) /\
    scheduled r w = 1%nat.

(** ** Scenarios of the test suite *)

(** A server message [{ msgid, status, data: { d } }]. *)
Definition reply (msgid status : Z) (d : jsval) : message :=
  {| msg_msgid := msgid; msg_status := status; msg_data := JObj [("d", d)] |}.

(** [dummyValue] and [dummyRequestArgs] of [test/tst.client_request.js]. *)
Definition dummyValue : jsval :=
  JObj [("movies", JArr [JStr "red dawn"; JStr "wargames"])].
Definition dummyRequestArgs : list jsval := [dummyValue].

(** [dummyResponseError.d] *)
Definition dummyErrorData : jsval :=
  JObj [("name", JStr "DummyError");
        ("message", JStr "dummy error message");
        ("info", JObj [("dummyProp", JStr "dummyVal")])].

(** What [runTestCase] does before the server answers: a client on a new
    socket issues one request for ['testmethod']. *)
Definition test_client : list action :=
  [CallRpc "testmethod" dummyRequestArgs].

(** 'ok, with 10,000 data messages', with two DATA messages instead of
    10,000: DATA messages carrying one string each, then an END message
    carrying ['lastmessage']. *)
Definition scenario_data_then_end : list action :=
  test_client ++
  [DecoderMessage (reply 1 FP_STATUS_DATA (JArr [JStr "string_0"]));
   DecoderMessage (reply 1 FP_STATUS_DATA (JArr [JStr "string_1"]));
   DecoderMessage (reply 1 FP_STATUS_END (JArr [JStr "lastmessage"]))].

(** 'unexpected end of stream: no response at all': the server closes the
    socket; then the event loop runs the queued callback. *)
Definition scenario_transport_end : list action :=
  test_client ++ [TransportEnd; Immediate].

(** 'error, no data': the server answers with an ERROR message. *)
Definition scenario_server_error : list action :=
  test_client ++
  [DecoderMessage (reply 1 FP_STATUS_ERROR dummyErrorData); Immediate].





(** * [lib/demo_server.js]: the demo RPC handlers *)

(** A handler is given an [rpc] object, reads the arguments of the call
    from it and answers through it.  The [rpc] object belongs to
    [lib/fast_server.js]; a handler is described here by what it does with
    it: the calls it makes on it, in order.  A call made from a timer's
    callback is recorded with the delay of the timer. *)
#[warnings="-register-all"]
Inductive rpc_call : Type :=
  | RpcWrite (v : jsval)                      (* rpc.write(v) *)
  | RpcEnd (v : option jsval)                 (* rpc.end() or rpc.end(v) *)
  | RpcFail (err : VError)                    (* rpc.fail(err) *)
  | SetTimeout (ms : Z) (calls : list rpc_call).

(** A handler, applied to [rpc.argv()]: the calls it made, and how it
    returned. *)
Definition handler : Type := list jsval -> list rpc_call * outcome unit.

(** [new Error(message)] *)
Definition new_Error (message : string) : VError :=
  {| ve_name := "Error"; ve_message := message;
     ve_cause := None; ve_info := ∅ |}.

(** What [new Date()] gives: the current time, as the two methods the
    handler calls report it. *)
Record Date : Type := MkDate { getTime : Z; toISOString : string }.

(** [fastRpcDate]; [when] is the date [new Date()] returns. *)
Definition fastRpcDate (when : Date) : handler := fun argv =>
  if negb (length argv =? 0)%nat then
    ([RpcFail (new_Error "expected no arguments")], Ok tt)
  else
    ([RpcEnd (Some (JObj [("timestamp", JNum (getTime when));
                          ("iso8601", JStr (toISOString when))]))],
     Ok tt).

(** [fastRpcEcho] *)
Definition fastRpcEcho : handler := fun argv =>
  (map (fun a => RpcWrite (JObj [("value", a)])) argv ++ [RpcEnd None],
   Ok tt).

(** [fastRpcSleep]; a value whose type is not number has no [ms] to
    compare. *)
Definition fastRpcSleep : handler := fun argv =>
  match argv with
  | [a] =>
      match js_get a "ms" with
      | Throw e => ([], Throw e)
      | Ok (JNum timems) =>
          let maxtimems := 30 * 60 * 1000 in
          if (timems <? 0) || (timems >? maxtimems)
          then ([RpcFail (new_Error
                            ("bad value for " +:+ dquote +:+ "ms" +:+ dquote))],
                Ok tt)
          else ([SetTimeout timems [RpcEnd None]], Ok tt)
      | Ok _ =>
          ([RpcFail (new_Error
                       ("bad value for " +:+ dquote +:+ "ms" +:+ dquote))],
           Ok tt)
      end
  | _ => ([RpcFail (new_Error "expected one argument")], Ok tt)
  end.

(** The error [fastRpcYes] fails with when [count] is not acceptable. *)
Definition yes_count_error (count : jsval) : VError :=
  new_VError None None
    (<["foundValue" := count]>
       (<["minValue" := JNum 1]> (<["maxValue" := JNum 10240]> ∅)))
    "count must be an integer in range [1, 10240]".

(** [fastRpcYes] *)
Definition fastRpcYes : handler := fun argv =>
  match argv with
  | [a] =>
      match js_get a "value" with
      | Throw e => ([], Throw e)
      | Ok value =>
          match js_get a "count" with
          | Throw e => ([], Throw e)
          | Ok (JNum count) =>
              if (count <? 1) || (count >? 10240)
              then ([RpcFail (yes_count_error (JNum count))], Ok tt)
              else
                (map (fun _ => RpcWrite (JObj [("value", value)]))
                   (seqZ 0 count)
                 ++ [RpcEnd None],
                 Ok tt)
          | Ok count => ([RpcFail (yes_count_error count)], Ok tt)
          end
      end
  | _ => ([RpcFail (new_Error "expected one argument")], Ok tt)
  end.

(** The handlers of [demoRpcs()] that are modelled, by method name.  The
    fifth, [fastRpcWords], streams a file of the machine through Node's
    stream classes. *)
Definition demoRpc (when : Date) : list (string * handler) :=
  [("date", fastRpcDate when); ("echo", fastRpcEcho);
   ("sleep", fastRpcSleep); ("yes", fastRpcYes)].

(** * [test/common.js]: [makeBigObject] *)

(** [rv[k] = v] on a plain object: an existing property keeps its place and
    takes the new value, a new one is added last. *)
Fixpoint obj_set (k : string) (v : jsval) (props : list (string * jsval))
    : list (string * jsval) :=
  match props with
  | [] => [(k, v)]
  | (k', v') :: props' =>
      if decide (k' = k) then (k, v) :: props'
      else (k', v') :: obj_set k v props'
  end.

(** [makeBigObject(width, depth)] for integers; the recursion is bounded by
    [fuel], and [None] means that the bound was reached. *)
Fixpoint makeBigObject (fuel : nat) (width depth : Z)
    : option (outcome jsval) :=
  match fuel with
  | O => None
  | S fuel' =>
      if negb (depth >=? 1) then Some (Throw (AssertionError "depth >= 1"))
      else if depth =? 1 then
        Some (Ok (JObj
          (fold_left (fun rv i =>
             obj_set ("prop_1_" +:+ pretty i)
               (JStr ("prop_1_" +:+ pretty i +:+ "_value")) rv)
             (seqZ 0 width) [])))
      else
        match
          fold_left (fun acc i =>
            match acc with
            | Some (Ok rv) =>
                match makeBigObject fuel' width (depth - 1) with
                | Some (Ok v) =>
                    Some (Ok (obj_set
                                ("prop_" +:+ pretty depth +:+ "_" +:+ pretty i)
                                v rv))
                | Some (Throw e) => Some (Throw e)
                | None => None
                end
            | _ => acc
            end) (seqZ 0 width) (Some (Ok []))
        with
        | Some (Ok rv) => Some (Ok (JObj rv))
        | Some (Throw e) => Some (Throw e)
        | None => None
        end
  end.

(** The number of string leaves of a value. *)
Fixpoint leaves (v : jsval) : nat :=
  match v with
  | JStr _ => 1
  | JArr items => fold_right (fun x n => leaves x + n) 0 items
  | JObj props =>
      fold_right (fun p n => let '(_, x) := p in leaves x + n) 0 props
  | _ => 0
  end%nat.

(** ** The shape of a handler's answer *)

Definition is_write (c : rpc_call) : bool :=
  match c with RpcWrite _ => true | _ => false end.

(** The call settles the request: [end] or [fail], at once or from a
    timer. *)
Definition settles (c : rpc_call) : bool :=
  match c with
  | RpcEnd _ | RpcFail _ => true
  | SetTimeout _ [RpcEnd _] => true
  | _ => false
  end.

(** Any number of writes, then one call that settles the request. *)
Definition answers_once (calls : list rpc_call) : Prop :=
  exists writes last_call,
    calls = writes ++ [last_call] /\
    Forall (fun c => is_write c = true) writes /\
    settles last_call = true.

(** * Further definitions for the statements *)

(** ** Invariants of whole histories *)

(** [preserves P m]: running [m] in a state that satisfies [P] leaves one
    that satisfies [P], whether [m] returns or throws. *)
Definition preserves {A : Type} (P : World -> Prop) (m : M A) : Prop :=
  forall w, P w -> P (snd (m w)).

(** What [fatalError] keeps track of: the recorded first error, the
    client's 'error' events, the error log and the error count. *)
Definition fatal_view (w : World)
    : option VError * list VError * list VError * nat :=
  (fc_error (w_client w), w_emitted w, w_logged w, fc_nerrors (w_client w)).

(** The first fatal error is the recorded one and the only one emitted; all
    are counted. *)
Definition fatal_view_ok (w : World) : Prop :=
  fc_error (w_client w) = head (w_logged w) /\
  w_emitted w = take 1 (w_logged w) /\
  fc_nerrors (w_client w) = length (w_logged w).

(** [fc_recentrpc] holds at most [fc_nrecent] requests. *)
Definition recent_ok (nRecentRequests : Z) (w : World) : Prop :=
  fc_nrecent (w_client w) = nRecentRequests /\
  length (fc_recentrpc (w_client w)) =
    Nat.min (fc_nrpc_done (w_client w)) (Z.to_nat nRecentRequests).

(** ** The transport's listeners *)

Definition listener_view (w : World)
    : bool * option listener * option listener * list (string * listener) :=
  (fc_detached (w_client w), fc_transport_onend (w_client w),
   fc_transport_onerror (w_client w), tr_listeners (w_transport w)).

(** The listeners a client has on its transport: both while it is
    attached, the one for 'error' alone once [detach] has been called. *)
Definition listeners_ok (w : World) : Prop :=
  fc_transport_onend (w_client w) = Some OnTransportEnd /\
  fc_transport_onerror (w_client w) = None /\
  tr_listeners (w_transport w)
  = (if fc_detached (w_client w) then [] else [("end", OnTransportEnd)])
    ++ [("error", OnTransportError)].

(** The error [onTransportError] raises for the transport's error [err]. *)
Definition transport_error (err : VError) : VError :=
  new_VError (Some "TransportError") (Some err) ∅
    "unexpected error on transport".

(** ** Issuing a request *)

(** The message [rpc] writes to the encoder. *)
Definition rpc_message (msgid : Z) (rpcmethod : string)
    (rpcargs : list jsval) : message :=
  {| msg_msgid := msgid;
     msg_status := FP_STATUS_DATA;
     msg_data := JObj [("m", JObj [("name", JStr rpcmethod)]);
                       ("d", JArr rpcargs)] |}.

(** The state of [rpc] once the identifier and the request object are
    allocated. *)
Definition allocated (rpcmethod : string) (rpcargs : list jsval) (w : World)
    : World :=
  upd_heap
    (fun h => h ++ [new_FastRpcRequest (next_msgid (msgid_of w))
                      rpcmethod rpcargs])
    (upd_client (set_fc_msgid (next_msgid (msgid_of w))) w).

(** The state of [rpc] once the request is filed in [fc_pending] and
    counted. *)
Definition registered (rpcmethod : string) (rpcargs : list jsval) (w : World)
    : World :=
  upd_client (fun c => set_fc_nrpc_started (S (fc_nrpc_started c)) c)
    (upd_client (fun c =>
       set_fc_pending
         (<[next_msgid (msgid_of w) := length (w_heap w)]> (fc_pending c)) c)
       (allocated rpcmethod rpcargs w)).

(** The error of a request issued on a detached or ended transport. *)
Definition transport_detached_error : VError :=
  new_VError (Some "TransportError") None ∅ "transport detached".

(** The client no longer writes to its transport. *)
Definition closed (w : World) : bool :=
  fc_detached (w_client w) || fc_transport_ended (w_client w).

(** ** Responses *)

(** [frq_ndata] of the request at [r]. *)
Definition ndata_of (w : World) (r : reqref) : nat :=
  match w_heap w !! r with
  | Some q => frq_ndata q
  | None => 0%nat
  end.

(** A DATA message for the request [m] that carries the values [items]. *)
Definition data_message (m : Z) (msg : message) (items : list jsval) : Prop :=
  msg_msgid msg = m /\
  msg_status msg = FP_STATUS_DATA /\
  js_get (msg_data msg) "d" = Ok (JArr items).

(** ** Detaching *)

(** The error [detach] aborts the pending requests with. *)
Definition detach_error : VError :=
  new_VError None None ∅ "client detached from transport".

(** The state of [detach] once the client is flagged and its 'end' listener
    is removed. *)
Definition detaching (w : World) : World :=
  upd_transport (fun t =>
    {| tr_listeners := remove_last ("end", OnTransportEnd) (tr_listeners t);
       tr_piped_to_decoder := tr_piped_to_decoder t;
       tr_checks_listener := tr_checks_listener t |})
    (upd_client (set_fc_detached true) w).

(** The state of [detach] once the pipes to and from the transport are
    undone. *)
Definition unpiped (w : World) : World :=
  set_encoder_piped false
    (upd_transport (fun t =>
       {| tr_listeners := tr_listeners t;
          tr_piped_to_decoder := false;
          tr_checks_listener := tr_checks_listener t |}) w).

(** ** Errors from the server *)

(** [o[k]], for an [o] on which the property read cannot throw. *)
Definition prop (o : jsval) (k : string) : jsval :=
  match js_get o k with
  | Ok v => v
  | Throw _ => JUndefined
  end.

(** The error [onMessage] builds from the payload [d] of an ERROR message
    for the request [m]. *)
Definition server_cause (m : Z) (rpcmethod : string) (d : jsval)
    (name : option string) : VError :=
  new_VError name None
    (<["rpcMsgid" := JNum m]>
       (<["rpcMethod" := JStr rpcmethod]>
          (<["context" := js_or (prop d "context") (JObj [])]>
             (<["errors" := js_or (prop d "ase_errors") (JArr [])]> ∅))))
    (js_to_string (prop d "message")).

(** The error [onMessage] fails the request with. *)
Definition server_error (cause : VError) : VError :=
  new_VError None (Some cause) ∅ "server error".

(** * Properties *)

(** ** Running computations: frame lemmas *)

Section Keeps.
Context {X : Type} (f : World -> X).

Lemma keeps_ret {A} (a : A) : keeps f (ret a).
Proof. intros w. reflexivity. Qed.

Lemma keeps_throw {A} (e : exn) : keeps f (throw (A := A) e).
Proof. intros w. reflexivity. Qed.

Lemma keeps_get : keeps f get.
Proof. intros w. reflexivity. Qed.

Lemma keeps_lift {A} (o : outcome A) : keeps f (lift o).
Proof. intros w. reflexivity. Qed.

Lemma keeps_assert_ok b msg : keeps f (assert_ok b msg).
Proof. intros w. destruct b; reflexivity. Qed.

Lemma keeps_deref r : keeps f (deref r).
Proof. intros w. unfold deref. destruct (w_heap w !! r); reflexivity. Qed.

Lemma keeps_modify (g : World -> World) :
  (forall w, f (g w) = f w) -> keeps f (modify g).
Proof. intros H w. apply H. Qed.

Lemma keeps_bind {A B} (m : M A) (k : A -> M B) :
  keeps f m -> (forall a, keeps f (k a)) -> keeps f (bind m k).
Proof.
  intros Hm Hk w. unfold bind.
  destruct (m w) as [[a|e] w'] eqn:E.
  - rewrite (Hk a w'). specialize (Hm w). rewrite E in Hm. exact Hm.
  - specialize (Hm w). rewrite E in Hm. exact Hm.
Qed.

Lemma keeps_for_each {A} (l : list A) (body : A -> M unit) :
  (forall x, keeps f (body x)) -> keeps f (for_each l body).
Proof.
  intros Hb. induction l as [|x l IH]; simpl.
  - apply keeps_ret.
  - apply keeps_bind; [apply Hb | intros _; exact IH].
Qed.
End Keeps.

(** Decompose a computation along its binds and branches. *)
Ltac keeps_step :=
  first
    [ apply keeps_ret | apply keeps_throw | apply keeps_get
    | apply keeps_lift | apply keeps_assert_ok | apply keeps_deref
    | apply keeps_bind; [| intros ?]
    | apply keeps_for_each; intros ?
    | apply keeps_modify; intros ?; reflexivity
    | match goal with
      | |- keeps _ (if ?b then _ else _) => destruct b
      | |- keeps _ (match ?x with _ => _ end) => destruct x
      end ].

Ltac keeps_auto := repeat keeps_step.

(** ** Running computations: properties of the state *)

Section Preserves.
Context (P : World -> Prop).

Lemma preserves_ret {A} (a : A) : preserves P (ret a).
Proof. intros w H. exact H. Qed.

Lemma preserves_throw {A} (e : exn) : preserves P (throw (A := A) e).
Proof. intros w H. exact H. Qed.

Lemma preserves_get : preserves P get.
Proof. intros w H. exact H. Qed.

Lemma preserves_lift {A} (o : outcome A) : preserves P (lift o).
Proof. intros w H. exact H. Qed.

Lemma preserves_assert_ok b msg : preserves P (assert_ok b msg).
Proof. intros w H. destruct b; exact H. Qed.

Lemma preserves_deref r : preserves P (deref r).
Proof. intros w H. unfold deref. destruct (w_heap w !! r); exact H. Qed.

Lemma preserves_modify (g : World -> World) :
  (forall w, P w -> P (g w)) -> preserves P (modify g).
Proof. intros Hg w H. apply Hg. exact H. Qed.

Lemma preserves_bind {A B} (m : M A) (k : A -> M B) :
  preserves P m -> (forall a, preserves P (k a)) -> preserves P (bind m k).
Proof.
  intros Hm Hk w H. unfold bind. specialize (Hm w H).
  destruct (m w) as [[a|e] w1]; cbn [snd] in *.
  - apply Hk. exact Hm.
  - exact Hm.
Qed.

Lemma preserves_for_each {A} (l : list A) (body : A -> M unit) :
  (forall x, preserves P (body x)) -> preserves P (for_each l body).
Proof.
  intros Hb. induction l as [|x l IH]; cbn [for_each].
  - apply preserves_ret.
  - apply preserves_bind; [apply Hb | intros _; exact IH].
Qed.

(** A property of an observation is preserved by whatever keeps the
    observation. *)
Lemma preserves_keeps {A X} (f : World -> X) (m : M A) :
  (forall w w', f w' = f w -> P w -> P w') -> keeps f m -> preserves P m.
Proof. intros HP Hk w H. apply (HP w); [apply Hk | exact H]. Qed.
End Preserves.

Lemma preserves_run (P : World -> Prop) actions w :
  (forall a, preserves P (perform a)) -> P w -> P (run actions w).
Proof.
  intros Hstep. revert w. induction actions as [|a actions IH]; intros w H.
  - exact H.
  - cbn [run fold_left]. apply IH. apply (Hstep a). exact H.
Qed.

(** ** Message identifiers *)

Lemma allocMessageId_run w :
  allocMessageId w
  = (Ok (next_msgid (msgid_of w)),
     upd_client (set_fc_msgid (next_msgid (msgid_of w))) w).
Proof.
  unfold allocMessageId, next_msgid, msgid_of, bind, get, modify, ret.
  simpl. destruct (fc_msgid (w_client w) + 1 >=? FP_MSGID_MAX); reflexivity.
Qed.

Lemma requestAbort_keeps_msgid r e : keeps msgid_of (requestAbort r e).
Proof.
  unfold requestAbort, update_request. keeps_auto.
Qed.

Lemma fatalError_keeps_msgid e : keeps msgid_of (fatalError e).
Proof.
  unfold fatalError. keeps_auto.
Qed.

Lemma onMessage_keeps_msgid m : keeps msgid_of (onMessage m).
Proof.
  unfold onMessage, update_request, push_each.
  keeps_auto.
Qed.

Lemma detach_keeps_msgid : keeps msgid_of detach.
Proof.
  unfold detach, transport_removeListener, transport_set_piped.
  keeps_auto.
Qed.

Lemma transport_emit_keeps_msgid ev arg : keeps msgid_of (transport_emit ev arg).
Proof.
  unfold transport_emit, invoke_listener, onTransportEnd, onTransportError.
  keeps_auto.
Qed.

Lemma run_immediate_keeps_msgid : keeps msgid_of run_immediate.
Proof. unfold run_immediate, update_request. keeps_auto. Qed.

(** Only [rpc] advances the counter, and by exactly one allocation. *)
Lemma rpc_msgid rpcmethod rpcargs w :
  msgid_of (snd (rpc rpcmethod rpcargs w)) = next_msgid (msgid_of w).
Proof.
  unfold rpc. unfold bind at 1. rewrite allocMessageId_run.
  match goal with
  | |- msgid_of (snd (?m ?w1)) = _ => assert (keeps msgid_of m) as Hk
  end.
  { unfold alloc_request, update_request. keeps_auto. }
  rewrite Hk. reflexivity.
Qed.

Lemma step_msgid w a :
  msgid_of (step w a) = if is_rpc a then next_msgid (msgid_of w) else msgid_of w.
Proof.
  unfold step. destruct a; simpl.
  - unfold bind. pose proof (rpc_msgid rpcmethod rpcargs w) as H.
    destruct (rpc rpcmethod rpcargs w) as [[a|e] w']; exact H.
  - apply requestAbort_keeps_msgid.
  - apply detach_keeps_msgid.
  - apply onMessage_keeps_msgid.
  - apply fatalError_keeps_msgid.
  - apply transport_emit_keeps_msgid.
  - apply transport_emit_keeps_msgid.
  - apply run_immediate_keeps_msgid.
Qed.

Lemma next_msgid_after n : next_msgid (msgid_after n) = msgid_after (S n).
Proof.
  unfold next_msgid, msgid_after, FP_MSGID_MAX.
  destruct n as [|k].
  - reflexivity.
  - replace (Z.of_nat (S k)) with (Z.of_nat k + 1) by lia.
    pose proof (Z.mod_pos_bound (Z.of_nat k) (2 ^ 31 - 2) ltac:(lia)) as Hb.
    destruct (Z.of_nat k mod (2 ^ 31 - 2) + 1 + 1 >=? 2147483647) eqn:E.
    + assert (Z.of_nat k mod (2 ^ 31 - 2) = 2 ^ 31 - 3) as Hk by lia.
      rewrite <- Z.add_mod_idemp_l by lia. rewrite Hk. reflexivity.
    + assert (Z.of_nat k mod (2 ^ 31 - 2) + 1 < 2 ^ 31 - 2) as Hk by lia.
      rewrite <- Z.add_mod_idemp_l by lia.
      rewrite (Z.mod_small (_ + 1)) by lia. reflexivity.
Qed.

Lemma run_msgid actions w n :
  msgid_of w = msgid_after n ->
  msgid_of (run actions w) = msgid_after (n + rpc_calls actions).
Proof.
  revert w n. induction actions as [|a actions IH]; intros w n Hw.
  - simpl. rewrite Hw. f_equal. unfold rpc_calls. simpl. lia.
  - simpl. unfold rpc_calls. rewrite filter_cons.
    pose proof (step_msgid w a) as Hs.
    destruct (is_rpc a) eqn:Ea.
    + rewrite decide_True by reflexivity. simpl length.
      rewrite (IH _ (S n)).
      * f_equal. unfold rpc_calls. lia.
      * rewrite Hs, Hw. apply next_msgid_after.
    + rewrite decide_False by discriminate.
      rewrite (IH _ n).
      * reflexivity.
      * rewrite Hs. exact Hw.
Qed.

(** C10. The n-th message identifier a client allocates, that is the one
    handed out after a history with n - 1 earlier [rpc] calls, is
    ((n - 1) mod (2^31 - 2)) + 1: the sequence starts at 1, increases by
    one, never contains 0 and wraps to 1 instead of reaching 2^31 - 1. *)
Theorem allocMessageId_nth (nRecentRequests : Z) (checks : bool)
    (actions : list action) :
  let n := Z.of_nat (S (rpc_calls actions)) in
  fst (allocMessageId (history nRecentRequests checks actions))
  = Ok ((n - 1) mod (2 ^ 31 - 2) + 1)
  /\ 1 <= (n - 1) mod (2 ^ 31 - 2) + 1 < 2 ^ 31 - 1.
Proof.
  intros n. rewrite allocMessageId_run. simpl fst. split.
  - f_equal. unfold history.
    rewrite (run_msgid actions _ 0) by reflexivity.
    rewrite next_msgid_after. unfold msgid_after, n. simpl plus.
    f_equal. f_equal. lia.
  - pose proof (Z.mod_pos_bound (n - 1) (2 ^ 31 - 2) ltac:(lia)). lia.
Qed.

(** ** Completing, failing and aborting one request *)

#[local] Arguments requestComplete : simpl never.
#[local] Arguments requestFail : simpl never.
#[local] Arguments requestAbort : simpl never.
#[local] Arguments requestAbortAll : simpl never.
#[local] Arguments fatalError : simpl never.

(** Reduce projections of updated records, and nothing else. *)
Ltac fields :=
  cbn [w_client w_heap w_transport w_encoder_piped w_encoder_written
       w_immediates w_emitted w_logged
       upd_client upd_heap upd_transport set_encoder_piped encoder_write
       set_immediates emit_client_error log_error
       completed failed aborted_by
       fc_nrecent fc_msgid fc_pending fc_aborted fc_nrpc_started fc_nrpc_done
       fc_recentrpc fc_error fc_nerrors fc_transport_onerr fc_transport_onend
       fc_transport_onerror fc_detached fc_transport_ended
       set_fc_msgid set_fc_pending set_fc_aborted set_fc_nrpc_started
       set_fc_nrpc_done set_fc_recentrpc set_fc_error set_fc_nerrors
       set_fc_transport_onerr set_fc_transport_onend set_fc_detached
       set_fc_transport_ended
       frq_msgid frq_rpcmethod frq_rpcargs frq_skip frq_aborted
       frq_done_graceful frq_error frq_ndata frq_nignored frq_last frq_stream
       set_frq_skip set_frq_aborted set_frq_done_graceful set_frq_error
       incr_frq_ndata incr_frq_nignored set_frq_last set_frq_stream deliver
       tr_listeners tr_piped_to_decoder tr_checks_listener
       fst snd].

(** Run the monad's plumbing on the current state. *)
Ltac plumbing :=
  unfold bind, deref, update_request, modify, assert_ok, ret, get, throw, lift.

Lemma requestIsPending_error q e :
  frq_error q = Some e -> requestIsPending q = false.
Proof.
  intros H. unfold requestIsPending. rewrite H.
  rewrite bool_decide_eq_false_2 by discriminate. apply andb_false_r.
Qed.

Lemma requestIsPending_graceful q :
  frq_done_graceful q = true -> requestIsPending q = false.
Proof. intros H. unfold requestIsPending. rewrite H. reflexivity. Qed.

Lemma requestIsPending_true q :
  requestIsPending q = true <->
  frq_done_graceful q = false /\ frq_error q = None.
Proof.
  unfold requestIsPending. rewrite andb_true_iff, negb_true_iff.
  rewrite bool_decide_eq_true. reflexivity.
Qed.

Lemma requestComplete_run r q w :
  w_heap w !! r = Some q ->
  requestIsPending q = false ->
  fc_pending (w_client w) !! frq_msgid q = Some r ->
  requestComplete r w = (Ok tt, completed r (frq_msgid q) w).
Proof.
  intros Hq Hp Hm.
  unfold requestComplete. plumbing. rewrite Hq, Hp. fields. cbn [negb].
  rewrite bool_decide_eq_true_2 by exact Hm.
  unfold completed, trim_recent, upd_client. fields.
  match goal with
  | |- context [if ?c then _ else _] => destruct c
  end; reflexivity.
Qed.

Lemma requestFail_run r q error w :
  w_heap w !! r = Some q ->
  frq_error q = None ->
  fc_pending (w_client w) !! frq_msgid q = Some r ->
  requestFail r error w
  = (Ok tt, failed r (frq_msgid q) (frq_rpcmethod q) error w).
Proof.
  intros Hq He Hm.
  unfold requestFail. plumbing. rewrite Hq, He.
  rewrite bool_decide_eq_true_2 by reflexivity.
  erewrite requestComplete_run; cycle 1.
  - fields. rewrite list_lookup_alter_eq, Hq. reflexivity.
  - eapply requestIsPending_error. reflexivity.
  - fields. exact Hm.
  - reflexivity.
Qed.

Lemma requestAbort_run r q error w :
  w_heap w !! r = Some q ->
  requestIsPending q = true ->
  fc_pending (w_client w) !! frq_msgid q = Some r ->
  requestAbort r error w
  = (Ok tt, aborted_by r (frq_msgid q) (frq_rpcmethod q) error w).
Proof.
  intros Hq Hp Hm.
  unfold requestAbort. plumbing. rewrite Hq, Hp. cbn [negb].
  rewrite bool_decide_eq_true_2 by exact Hm.
  erewrite requestFail_run; cycle 1.
  - fields. rewrite list_lookup_alter_eq, Hq. reflexivity.
  - fields. apply requestIsPending_true in Hp. apply Hp.
  - fields. exact Hm.
  - reflexivity.
Qed.

(** ** The invariant is kept by every kind of transition *)

Lemma scheduled_same r w w' :
  w_immediates w' = w_immediates w -> scheduled r w' = scheduled r w.
Proof. unfold scheduled. intros ->. reflexivity. Qed.

Lemma scheduled_snoc r r0 w w' :
  w_immediates w' = w_immediates w ++ [r0] ->
  scheduled r w' = (scheduled r w + if decide (r0 = r) then 1 else 0)%nat.
Proof.
  unfold scheduled. intros ->. rewrite filter_app, length_app.
  f_equal. rewrite filter_cons, filter_nil.
  destruct (decide (r0 = r)); reflexivity.
Qed.

Lemma scheduled_pop r r0 w w' :
  w_immediates w = r0 :: w_immediates w' ->
  scheduled r w = ((if decide (r0 = r) then 1 else 0) + scheduled r w')%nat.
Proof.
  unfold scheduled. intros ->. rewrite filter_cons.
  destruct (decide (r0 = r)); reflexivity.
Qed.

(** The stronger invariant, the one of the states a client reaches with a
    server that sends no null item, implies the invariant of all states. *)
Lemma push_tail_weaken strict tail :
  push_tail strict tail -> push_tail false tail.
Proof.
  intros [H | [_ H]]; [left; exact H | right; split; [reflexivity | exact H]].
Qed.

Lemma push_tail_strict tail : push_tail true tail -> tail = [].
Proof. intros [H | [H _]]; [exact H | discriminate]. Qed.

Lemma stream_ok_weaken strict q queued :
  stream_ok strict q queued -> stream_ok false q queued.
Proof.
  intros (ds & tail & Ht & H). exists ds, tail.
  split; [exact (push_tail_weaken _ _ Ht) | exact H].
Qed.

Lemma wfs_weaken {strict} w : wfs strict w -> wf w.
Proof.
  intros Hwf. split.
  - apply (wf_count w Hwf).
  - apply (wf_pending w Hwf).
  - apply (wf_aborted w Hwf).
  - intros r. pose proof (wf_streams w Hwf r) as Hs.
    destruct (w_heap w !! r); [|exact Hs].
    exact (stream_ok_weaken _ _ _ Hs).
Qed.

(** ** What the pushes of one message leave on a stream *)

Lemma stream_failed_app s t :
  stream_failed (s ++ t) = stream_failed s || stream_failed t.
Proof. apply existsb_app. Qed.

Lemma stream_over_app s t :
  stream_over (s ++ t) = stream_over s || stream_over t.
Proof. apply existsb_app. Qed.

Lemma stream_failed_data ds : stream_failed (map EvData ds) = false.
Proof. induction ds as [|d ds IH]; [reflexivity | exact IH]. Qed.

Lemma stream_over_data ds : stream_over (map EvData ds) = false.
Proof. induction ds as [|d ds IH]; [reflexivity | exact IH]. Qed.

Lemma stream_failed_over s : stream_over s = false -> stream_failed s = false.
Proof.
  induction s as [|ev s IH]; [reflexivity|].
  destruct ev; cbn; try discriminate; exact IH.
Qed.

Lemma stream_over_tail ds tail :
  stream_over (map EvData ds ++ tail) = stream_over tail.
Proof. rewrite stream_over_app, stream_over_data. reflexivity. Qed.

Lemma stream_failed_tail ds tail :
  stream_failed (map EvData ds ++ tail) = stream_failed tail.
Proof. rewrite stream_failed_app, stream_failed_data. reflexivity. Qed.

Lemma has_null_cons x items :
  has_null (x :: items) = false -> x <> JNull /\ has_null items = false.
Proof.
  cbn. destruct x; cbn; try discriminate; intros H; (split; [discriminate|]);
    exact H.
Qed.

(** With no null among them, the items pushed on a stream that is not over
    are delivered as data, in order. *)
Lemma push_all_data items s :
  has_null items = false -> stream_over s = false ->
  push_all items false s = s ++ map EvData items.
Proof.
  revert s. induction items as [|x items IH]; intros s Hn Ho.
  - cbn. rewrite app_nil_r. reflexivity.
  - apply has_null_cons in Hn as [Hx Hn]. cbn [push_all].
    rewrite (stream_failed_over s Ho), Ho. cbn [orb].
    assert (push_all items false (s ++ [EvData x])
            = s ++ map EvData (x :: items)) as H.
    { rewrite IH; [|exact Hn|].
      - rewrite <- app_assoc. reflexivity.
      - rewrite stream_over_app, Ho. reflexivity. }
    destruct x; try exact H. contradiction.
Qed.

(** Whatever the items are, the pushes leave the data values followed by
    one of the tails of [push_tail]. *)
Lemma push_all_shape strict items eof ds tail :
  push_tail strict tail ->
  (strict = true -> has_null items = false /\ eof = false) ->
  (eof = true -> tail = []) ->
  exists ds' tail',
    push_tail strict tail' /\
    push_all items eof (map EvData ds ++ tail) = map EvData ds' ++ tail'.
Proof.
  destruct strict.
  - intros Ht Hs _. destruct (Hs eq_refl) as [Hn ->].
    rewrite (push_tail_strict _ Ht), app_nil_r.
    exists (ds ++ items), []. split; [left; reflexivity|].
    rewrite push_all_data by (exact Hn || apply stream_over_data).
    rewrite app_nil_r, map_app. reflexivity.
  - intros Ht _. revert eof ds tail Ht.
    assert (forall t, t = [] \/ t = [EvEnd] \/ t = [EvPushAfterEOF] \/
                      t = [EvEnd; EvPushAfterEOF] -> push_tail false t) as Hok.
    { intros t [H|H]; [left; exact H | right; split; [reflexivity | exact H]]. }
    induction items as [|x items IH]; intros eof ds tail Ht He.
    + cbn [push_all]. destruct eof.
      * rewrite (He eq_refl), app_nil_r. exists ds, [EvEnd].
        split; [apply Hok; auto | reflexivity].
      * exists ds, tail. split; [exact Ht | reflexivity].
    + cbn [push_all]. rewrite stream_failed_tail, stream_over_tail.
      destruct Ht as [-> | [_ [-> | [-> | ->]]]];
        cbn [stream_failed stream_over existsb orb].
      * destruct eof; cbn [orb].
        -- assert (exists ds' tail', push_tail false tail' /\
                     push_all items false
                       (map EvData ds ++ [EvPushAfterEOF])
                     = map EvData ds' ++ tail') as Hfail.
           { apply IH; [apply Hok; auto | discriminate]. }
           rewrite app_nil_r in *.
           destruct x; try exact Hfail.
           specialize (IH true ds []). rewrite app_nil_r in IH.
           apply IH; [apply Hok; auto | reflexivity].
        -- assert (exists ds' tail', push_tail false tail' /\
                     push_all items false (map EvData ds ++ [EvData x])
                     = map EvData ds' ++ tail') as Hdata.
           { specialize (IH false (ds ++ [x]) []).
             rewrite map_app, app_nil_r in IH.
             apply IH; [apply Hok; auto | discriminate]. }
           rewrite app_nil_r in *.
           destruct x; try exact Hdata.
           specialize (IH true ds []). rewrite app_nil_r in IH.
           apply IH; [apply Hok; auto | reflexivity].
      * assert (eof = false) as ->.
        { destruct eof; [|reflexivity]. specialize (He eq_refl).
          discriminate He. }
        assert (exists ds' tail', push_tail false tail' /\
                  push_all items false
                    ((map EvData ds ++ [EvEnd]) ++ [EvPushAfterEOF])
                  = map EvData ds' ++ tail') as Hfail.
        { rewrite <- app_assoc. apply IH; [apply Hok; auto | discriminate]. }
        destruct x; try exact Hfail.
        apply IH; [apply Hok; auto | discriminate].
      * apply IH; [apply Hok; auto | exact He].
      * apply IH; [apply Hok; auto | exact He].
Qed.

(** Two entries of the tables never share a request object. *)
Lemma wf_pending_inj {strict} w m m' r :
  wfs strict w ->
  fc_pending (w_client w) !! m = Some r ->
  fc_pending (w_client w) !! m' = Some r -> m = m'.
Proof.
  intros Hwf H1 H2.
  destruct (wf_pending w Hwf _ _ H1) as (q1 & Hq1 & <- & _).
  destruct (wf_pending w Hwf _ _ H2) as (q2 & Hq2 & <- & _).
  congruence.
Qed.

Lemma wf_pending_not_aborted {strict} w m m' r :
  wfs strict w ->
  fc_pending (w_client w) !! m = Some r ->
  fc_aborted (w_client w) !! m' = Some r -> False.
Proof.
  intros Hwf H1 H2.
  destruct (wf_pending w Hwf _ _ H1) as (q1 & Hq1 & _ & _ & Ha1).
  destruct (wf_aborted w Hwf _ _ H2) as (q2 & Hq2 & _ & Ha2 & _).
  congruence.
Qed.

(** A pending request fails: it leaves [fc_pending], its error is set and
    the callback that will emit it is queued. *)
Lemma wf_fail_step {strict} w w' m r q q' e :
  wfs strict w ->
  fc_pending (w_client w) !! m = Some r ->
  w_heap w !! r = Some q ->
  heap_update w w' r q' ->
  frq_msgid q' = frq_msgid q ->
  frq_stream q' = frq_stream q ->
  frq_error q' = Some e ->
  fc_pending (w_client w') = delete m (fc_pending (w_client w)) ->
  fc_nrpc_started (w_client w') = fc_nrpc_started (w_client w) ->
  fc_nrpc_done (w_client w') = S (fc_nrpc_done (w_client w)) ->
  w_immediates w' = w_immediates w ++ [r] ->
  (fc_aborted (w_client w') = fc_aborted (w_client w) \/
   (fc_aborted (w_client w') = <[m := r]> (fc_aborted (w_client w)) /\
    frq_aborted q' = true /\ frq_done_graceful q' = false)) ->
  wfs strict w'.
Proof.
  intros Hwf Hm Hq [Hr Hother] Hid Hstream Herr Hpend Hstart Hdone Himm Hab.
  destruct (wf_pending w Hwf _ _ Hm) as (q0 & Hq0 & Hmsg & Hpq & Haq).
  assert (q0 = q) by congruence. subst q0.
  apply requestIsPending_true in Hpq as [Hgr Hne].
  split.
  - rewrite Hstart, Hdone, Hpend, (wf_count w Hwf).
    pose proof (map_size_delete_Some m (fc_pending (w_client w))
                  ltac:(eauto)) as Hs.
    pose proof (map_size_ne_0_lookup_2 (fc_pending (w_client w)) m
                  ltac:(eauto)) as Hnz.
    revert Hs Hnz. generalize (size (fc_pending (w_client w))).
    generalize (size (delete m (fc_pending (w_client w)))). lia.
  - intros m' r'. rewrite Hpend. rewrite lookup_delete_Some. intros [Hne' Hm'].
    destruct (wf_pending w Hwf _ _ Hm') as (q1 & Hq1 & Hrest).
    exists q1. split; [|exact Hrest].
    rewrite Hother; [exact Hq1|].
    intros ->. apply Hne'. eapply wf_pending_inj; eauto.
  - intros m' r' Hm'.
    assert (fc_aborted (w_client w) !! m' = Some r' ->
            exists q1, w_heap w' !! r' = Some q1 /\ frq_msgid q1 = m' /\
                       frq_aborted q1 = true /\ frq_done_graceful q1 = false)
      as Hold.
    { intros Ho. destruct (wf_aborted w Hwf _ _ Ho) as (q1 & Hq1 & Hrest).
      exists q1. split; [|exact Hrest].
      rewrite Hother; [exact Hq1|].
      intros ->. eapply wf_pending_not_aborted; eauto. }
    destruct Hab as [Hab | (Hab & Ha' & Hg')].
    + rewrite Hab in Hm'. auto.
    + rewrite Hab in Hm'. apply lookup_insert_Some in Hm'.
      destruct Hm' as [[<- <-] | [_ Hm']]; [|auto].
      exists q'. repeat split; try assumption. congruence.
  - intros r'. destruct (decide (r' = r)) as [->|Hne'].
    + rewrite Hr. pose proof (wf_streams w Hwf r) as Hs.
      rewrite Hq in Hs. destruct Hs as (ds & tail & Ht & Hs).
      rewrite Hne, Hgr in Hs.
      destruct Hs as [Hz Hs]. exists ds, tail. split; [exact Ht|].
      rewrite Herr. left.
      rewrite (scheduled_snoc r r w w' Himm), Hz, decide_True by reflexivity.
      split; [reflexivity|]. rewrite Hstream, Hs. cbn [andb].
      rewrite app_nil_r. reflexivity.
    + rewrite Hother by exact Hne'.
      rewrite (scheduled_snoc r' r w w' Himm), decide_False by congruence.
      rewrite Nat.add_0_r. apply (wf_streams w Hwf r').
Qed.

(** A pending request ends gracefully. *)
Lemma wf_end_step {strict} w w' m r q q' :
  wfs strict w ->
  fc_pending (w_client w) !! m = Some r ->
  w_heap w !! r = Some q ->
  heap_update w w' r q' ->
  frq_msgid q' = frq_msgid q ->
  frq_stream q' = frq_stream (stream_end q) ->
  frq_error q' = None ->
  frq_done_graceful q' = true ->
  fc_pending (w_client w') = delete m (fc_pending (w_client w)) ->
  fc_aborted (w_client w') = fc_aborted (w_client w) ->
  fc_nrpc_started (w_client w') = fc_nrpc_started (w_client w) ->
  fc_nrpc_done (w_client w') = S (fc_nrpc_done (w_client w)) ->
  w_immediates w' = w_immediates w ->
  wfs strict w'.
Proof.
  intros Hwf Hm Hq [Hr Hother] Hid Hstream Herr Hgr' Hpend Hab Hstart Hdone
    Himm.
  destruct (wf_pending w Hwf _ _ Hm) as (q0 & Hq0 & Hmsg & Hpq & Haq).
  assert (q0 = q) by congruence. subst q0.
  apply requestIsPending_true in Hpq as [Hgr Hne].
  split.
  - rewrite Hstart, Hdone, Hpend, (wf_count w Hwf).
    pose proof (map_size_delete_Some m (fc_pending (w_client w))
                  ltac:(eauto)) as Hs.
    pose proof (map_size_ne_0_lookup_2 (fc_pending (w_client w)) m
                  ltac:(eauto)) as Hnz.
    revert Hs Hnz. generalize (size (fc_pending (w_client w))).
    generalize (size (delete m (fc_pending (w_client w)))). lia.
  - intros m' r'. rewrite Hpend. rewrite lookup_delete_Some. intros [Hne' Hm'].
    destruct (wf_pending w Hwf _ _ Hm') as (q1 & Hq1 & Hrest).
    exists q1. split; [|exact Hrest].
    rewrite Hother; [exact Hq1|].
    intros ->. apply Hne'. eapply wf_pending_inj; eauto.
  - intros m' r'. rewrite Hab. intros Hm'.
    destruct (wf_aborted w Hwf _ _ Hm') as (q1 & Hq1 & Hrest).
    exists q1. split; [|exact Hrest].
    rewrite Hother; [exact Hq1|].
    intros ->. eapply wf_pending_not_aborted; eauto.
  - intros r'. rewrite (scheduled_same r' w w' Himm).
    destruct (decide (r' = r)) as [->|Hne'].
    + rewrite Hr. pose proof (wf_streams w Hwf r) as Hs.
      rewrite Hq in Hs. destruct Hs as (ds & tail & Ht & Hs).
      rewrite Hne, Hgr in Hs. cbn [andb] in Hs. rewrite app_nil_r in Hs.
      destruct Hs as [Hz Hs]. exists ds, tail. split; [exact Ht|].
      rewrite Herr, Hgr'.
      split; [exact Hz|]. rewrite Hstream. unfold stream_end.
      rewrite Hs, stream_over_tail. cbn [andb].
      destruct (stream_over tail); cbn [negb].
      * rewrite Hs, app_nil_r. reflexivity.
      * fields. rewrite Hs, app_assoc. reflexivity.
    + rewrite Hother by exact Hne'. apply (wf_streams w Hwf r').
Qed.

(** A request object changes in fields the invariant does not look at, or
    the items of a DATA message are pushed on the stream of a pending
    request. *)
Lemma wf_data_step {strict} w w' r q q' :
  wfs strict w ->
  w_heap w !! r = Some q ->
  heap_update w w' r q' ->
  frq_msgid q' = frq_msgid q ->
  frq_error q' = frq_error q ->
  frq_done_graceful q' = frq_done_graceful q ->
  frq_aborted q' = frq_aborted q ->
  (frq_stream q' = frq_stream q \/
   (requestIsPending q = true /\
    exists items,
      (strict = true -> has_null items = false) /\
      frq_stream q' = push_all items false (frq_stream q))) ->
  same_tables w w' ->
  w_immediates w' = w_immediates w ->
  wfs strict w'.
Proof.
  intros Hwf Hq [Hr Hother] Hid Herr Hgr Hab Hcase
    (Hpend & Habt & Hstart & Hdone) Himm.
  assert (forall r1 q1, w_heap w !! r1 = Some q1 ->
            exists q2, w_heap w' !! r1 = Some q2 /\
                       frq_msgid q2 = frq_msgid q1 /\
                       frq_error q2 = frq_error q1 /\
                       frq_done_graceful q2 = frq_done_graceful q1 /\
                       frq_aborted q2 = frq_aborted q1) as Hsame.
  { intros r1 q1 H1. destruct (decide (r1 = r)) as [->|Hne].
    - exists q'. rewrite Hq in H1. injection H1 as <-. auto.
    - exists q1. rewrite Hother by exact Hne. auto. }
  split.
  - rewrite Hstart, Hdone, Hpend. apply (wf_count w Hwf).
  - intros m' r'. rewrite Hpend. intros Hm'.
    destruct (wf_pending w Hwf _ _ Hm') as (q1 & Hq1 & Hi & Hp & Ha).
    destruct (Hsame _ _ Hq1) as (q2 & Hq2 & Hi2 & He2 & Hg2 & Ha2).
    exists q2. repeat split; try congruence.
    unfold requestIsPending in *. rewrite He2, Hg2. exact Hp.
  - intros m' r'. rewrite Habt. intros Hm'.
    destruct (wf_aborted w Hwf _ _ Hm') as (q1 & Hq1 & Hi & Ha & Hg).
    destruct (Hsame _ _ Hq1) as (q2 & Hq2 & Hi2 & He2 & Hg2 & Ha2).
    exists q2. repeat split; congruence.
  - intros r'. rewrite (scheduled_same r' w w' Himm).
    destruct (decide (r' = r)) as [->|Hne'].
    + rewrite Hr. pose proof (wf_streams w Hwf r) as Hs.
      rewrite Hq in Hs. destruct Hs as (ds & tail & Ht & Hs).
      destruct Hcase as [Hstream | (Hp & items & Hn & Hstream)].
      * exists ds, tail. split; [exact Ht|].
        rewrite Herr, Hgr, Hstream. exact Hs.
      * apply requestIsPending_true in Hp as [Hg He].
        rewrite He, Hg in Hs. cbn [andb] in Hs. rewrite app_nil_r in Hs.
        destruct Hs as [Hz Hs].
        destruct (push_all_shape strict items false ds tail Ht)
          as (ds' & tail' & Ht' & Hpush).
        { intros E. split; [exact (Hn E) | reflexivity]. }
        { discriminate. }
        exists ds', tail'. split; [exact Ht'|].
        rewrite Herr, He, Hgr, Hg. cbn [andb]. rewrite app_nil_r.
        split; [exact Hz|]. rewrite Hstream, Hs. exact Hpush.
    + rewrite Hother by exact Hne'. apply (wf_streams w Hwf r').
Qed.

(** Nothing the invariant looks at changes. *)
Lemma wf_same {strict} w w' :
  wfs strict w ->
  w_heap w' = w_heap w ->
  same_tables w w' ->
  w_immediates w' = w_immediates w ->
  wfs strict w'.
Proof.
  intros Hwf Hheap (Hpend & Habt & Hstart & Hdone) Himm.
  split.
  - rewrite Hstart, Hdone, Hpend. apply (wf_count w Hwf).
  - intros m r. rewrite Hpend, Hheap. apply (wf_pending w Hwf).
  - intros m r. rewrite Habt, Hheap. apply (wf_aborted w Hwf).
  - intros r. rewrite Hheap, (scheduled_same r w w' Himm).
    apply (wf_streams w Hwf).
Qed.

(** A new request object is allocated. *)
Lemma wf_alloc_step {strict} w w' m rpcmethod rpcargs :
  wfs strict w ->
  w_heap w' = w_heap w ++ [new_FastRpcRequest m rpcmethod rpcargs] ->
  same_tables w w' ->
  w_immediates w' = w_immediates w ->
  wfs strict w'.
Proof.
  intros Hwf Hheap (Hpend & Habt & Hstart & Hdone) Himm.
  assert (forall r q, w_heap w !! r = Some q -> w_heap w' !! r = Some q)
    as Hold.
  { intros r q H. rewrite Hheap. apply lookup_app_l_Some. exact H. }
  split.
  - rewrite Hstart, Hdone, Hpend. apply (wf_count w Hwf).
  - intros m' r. rewrite Hpend. intros Hm'.
    destruct (wf_pending w Hwf _ _ Hm') as (q & Hq & Hrest). eauto.
  - intros m' r. rewrite Habt. intros Hm'.
    destruct (wf_aborted w Hwf _ _ Hm') as (q & Hq & Hrest). eauto.
  - intros r. rewrite (scheduled_same r w w' Himm).
    pose proof (wf_streams w Hwf r) as Hs.
    destruct (w_heap w !! r) as [q|] eqn:Hq.
    + rewrite (Hold _ _ Hq). exact Hs.
    + rewrite Hheap. apply lookup_ge_None in Hq.
      destruct (decide (r = length (w_heap w))) as [->|Hne].
      * rewrite list_lookup_middle by reflexivity.
        exists [], []. split; [left; reflexivity|]. simpl. auto.
      * rewrite lookup_ge_None_2; [exact Hs|].
        rewrite length_app. simpl. lia.
Qed.

(** A freshly allocated request enters [fc_pending]. *)
Lemma wf_insert_step {strict} w w' m r q :
  wfs strict w ->
  w_heap w !! r = Some q ->
  frq_msgid q = m ->
  requestIsPending q = true ->
  frq_aborted q = false ->
  fc_pending (w_client w) !! m = None ->
  w_heap w' = w_heap w ->
  fc_pending (w_client w') = <[m := r]> (fc_pending (w_client w)) ->
  fc_aborted (w_client w') = fc_aborted (w_client w) ->
  fc_nrpc_started (w_client w') = S (fc_nrpc_started (w_client w)) ->
  fc_nrpc_done (w_client w') = fc_nrpc_done (w_client w) ->
  w_immediates w' = w_immediates w ->
  wfs strict w'.
Proof.
  intros Hwf Hq Hid Hp Ha Hfree Hheap Hpend Habt Hstart Hdone Himm.
  split.
  - rewrite Hstart, Hdone, Hpend, (wf_count w Hwf).
    rewrite map_size_insert_None by exact Hfree. lia.
  - intros m' r'. rewrite Hpend, Hheap. rewrite lookup_insert_Some.
    intros [[<- <-] | [_ Hm']].
    + exists q. auto.
    + apply (wf_pending w Hwf _ _ Hm').
  - intros m' r'. rewrite Habt, Hheap. apply (wf_aborted w Hwf).
  - intros r'. rewrite Hheap, (scheduled_same r' w w' Himm).
    apply (wf_streams w Hwf).
Qed.

(** An entry leaves [fc_aborted]. *)
Lemma wf_aborted_delete {strict} w w' m :
  wfs strict w ->
  w_heap w' = w_heap w ->
  fc_pending (w_client w') = fc_pending (w_client w) ->
  fc_aborted (w_client w') = delete m (fc_aborted (w_client w)) ->
  fc_nrpc_started (w_client w') = fc_nrpc_started (w_client w) ->
  fc_nrpc_done (w_client w') = fc_nrpc_done (w_client w) ->
  w_immediates w' = w_immediates w ->
  wfs strict w'.
Proof.
  intros Hwf Hheap Hpend Habt Hstart Hdone Himm.
  split.
  - rewrite Hstart, Hdone, Hpend. apply (wf_count w Hwf).
  - intros m' r. rewrite Hpend, Hheap. apply (wf_pending w Hwf).
  - intros m' r. rewrite Habt, Hheap, lookup_delete_Some.
    intros [_ H]. apply (wf_aborted w Hwf _ _ H).
  - intros r. rewrite Hheap, (scheduled_same r w w' Himm).
    apply (wf_streams w Hwf).
Qed.

(** The oldest queued callback runs and emits its request's error. *)
Lemma wf_immediate_step {strict} w w' r q :
  wfs strict w ->
  w_immediates w = r :: w_immediates w' ->
  w_heap w !! r = Some q ->
  heap_update w w' r (deliver (EvError (frq_error q)) q) ->
  same_tables w w' ->
  wfs strict w'.
Proof.
  intros Hwf Himm Hq [Hr Hother] (Hpend & Habt & Hstart & Hdone).
  assert (forall r1 q1, w_heap w !! r1 = Some q1 ->
            exists q2, w_heap w' !! r1 = Some q2 /\
                       frq_msgid q2 = frq_msgid q1 /\
                       frq_error q2 = frq_error q1 /\
                       frq_done_graceful q2 = frq_done_graceful q1 /\
                       frq_aborted q2 = frq_aborted q1) as Hsame.
  { intros r1 q1 H1. destruct (decide (r1 = r)) as [->|Hne].
    - exists (deliver (EvError (frq_error q)) q).
      rewrite Hq in H1. injection H1 as <-. auto.
    - exists q1. rewrite Hother by exact Hne. auto. }
  split.
  - rewrite Hstart, Hdone, Hpend. apply (wf_count w Hwf).
  - intros m' r'. rewrite Hpend. intros Hm'.
    destruct (wf_pending w Hwf _ _ Hm') as (q1 & Hq1 & Hi & Hp & Ha).
    destruct (Hsame _ _ Hq1) as (q2 & Hq2 & Hi2 & He2 & Hg2 & Ha2).
    exists q2. repeat split; try congruence.
    unfold requestIsPending in *. rewrite He2, Hg2. exact Hp.
  - intros m' r'. rewrite Habt. intros Hm'.
    destruct (wf_aborted w Hwf _ _ Hm') as (q1 & Hq1 & Hi & Ha & Hg).
    destruct (Hsame _ _ Hq1) as (q2 & Hq2 & Hi2 & He2 & Hg2 & Ha2).
    exists q2. repeat split; congruence.
  - intros r'. pose proof (wf_streams w Hwf r') as Hs.
    rewrite (scheduled_pop r' r w w' Himm) in Hs.
    destruct (decide (r = r')) as [<-|Hne'].
    + rewrite Hr. rewrite Hq in Hs. destruct Hs as (ds & tail & Ht & Hs).
      exists ds, tail. split; [exact Ht|]. fields.
      destruct (frq_error q) as [e|].
      * destruct Hs as [[Hk Hs] | [Hk Hs]]; [|discriminate].
        right. split; [lia|]. rewrite Hs, app_assoc. reflexivity.
      * destruct Hs as [Hk _]. discriminate.
    + rewrite Hother by congruence. exact Hs.
Qed.

(** ** Aborting requests *)

(** Solve [heap_update w w' r q'] when [w'] is [w] under a stack of
    updates. *)
Ltac heap_tac Hq :=
  split;
  [ fields; rewrite ?list_lookup_alter_eq, Hq; reflexivity
  | let r' := fresh "r'" in
    let Hne := fresh "Hne" in
    intros r' Hne; fields;
    rewrite ?list_lookup_alter_ne by congruence; reflexivity ].

Lemma wf_aborted_by {strict} w m r q error :
  wfs strict w ->
  fc_pending (w_client w) !! m = Some r ->
  w_heap w !! r = Some q ->
  wfs strict (aborted_by r m (frq_rpcmethod q) error w).
Proof.
  intros Hwf Hm Hq.
  destruct (wf_pending w Hwf _ _ Hm) as (q0 & Hq0 & Hmsg & Hpq & Haq).
  assert (q0 = q) by congruence. subst q0.
  apply requestIsPending_true in Hpq as [Hgr Hne].
  eapply (wf_fail_step w _ m r q
            (set_frq_error
               (Some (request_error m (frq_rpcmethod q) (abort_error error)))
               (set_frq_aborted true q))); try eassumption;
    try reflexivity.
  - heap_tac Hq.
  - right. repeat split. exact Hgr.
Qed.

Lemma requestAbortAll_loop {strict} keys error w :
  wfs strict w ->
  for_each keys (fun msgid =>
    let* w1 := get in
    match fc_pending (w_client w1) !! msgid with
    | None => ret tt
    | Some r =>
        let* q := deref r in
        assert_ok (requestIsPending q) "request is not pending" >>
        requestAbort r (Some error) >>
        let* w2 := get in
        assert_ok (bool_decide (fc_pending (w_client w2) !! msgid = None))
          "request is still in fc_pending"
    end) w
  = (Ok tt, abort_all keys error w)
  /\ wfs strict (abort_all keys error w).
Proof.
  revert w. induction keys as [|k keys IH]; intros w Hwf.
  - split; [reflexivity | exact Hwf].
  - cbn [for_each abort_all]. unfold bind at 1. unfold bind at 1.
    unfold get at 1.
    destruct (fc_pending (w_client w) !! k) as [r|] eqn:Hk.
    + destruct (wf_pending w Hwf _ _ Hk) as (q & Hq & Hmsg & Hpq & Haq).
      rewrite Hq. plumbing. rewrite Hq, Hpq.
      rewrite (requestAbort_run r q (Some error) w Hq Hpq)
        by (rewrite Hmsg; exact Hk).
      rewrite Hmsg.
      rewrite bool_decide_eq_true_2.
      * apply IH. apply wf_aborted_by; assumption.
      * fields. apply lookup_delete_eq.
    + unfold ret at 1. apply IH. exact Hwf.
Qed.

Lemma requestAbortAll_run error w :
  wf w ->
  requestAbortAll error w
  = (Ok tt, abort_all (pending_keys (fc_pending (w_client w))) error w).
Proof.
  intros Hwf. unfold requestAbortAll. unfold bind at 1, get at 1.
  apply (requestAbortAll_loop (strict := false)). exact Hwf.
Qed.

Lemma wf_abort_all {strict} keys error w :
  wfs strict w -> wfs strict (abort_all keys error w).
Proof. intros Hwf. apply (requestAbortAll_loop keys error w Hwf). Qed.

Lemma fatalError_run err w :
  wf w -> fatalError err w = (Ok tt, fatal err w).
Proof.
  intros Hwf. unfold fatalError, fatal.
  unfold bind at 1, modify at 1. unfold bind at 1, modify at 1.
  unfold bind at 1, get at 1. fields.
  destruct (fc_error (w_client w)) as [e|] eqn:He.
  - reflexivity.
  - unfold bind at 1, modify at 1. unfold bind at 1, modify at 1.
    rewrite requestAbortAll_run.
    + reflexivity.
    + eapply wf_same; [exact Hwf | reflexivity | | reflexivity].
      repeat split.
Qed.

Lemma wf_fatal {strict} err w : wfs strict w -> wfs strict (fatal err w).
Proof.
  intros Hwf. unfold fatal.
  destruct (fc_error (w_client w)).
  - eapply wf_same; [exact Hwf | reflexivity | | reflexivity]. repeat split.
  - apply wf_abort_all.
    eapply wf_same; [exact Hwf | reflexivity | | reflexivity]. repeat split.
Qed.

(** ** Incoming messages *)

#[local] Arguments onMessage : simpl never.

(** Reduce a lookup of the object just updated. *)
Ltac heap_lookup Hq :=
  fields; rewrite ?list_lookup_alter_eq, ?Hq;
  cbn [fmap option_fmap option_map]; fields.

Lemma onMessage_unknown_run msg w :
  wf w ->
  fc_pending (w_client w) !! msg_msgid msg = None ->
  fc_aborted (w_client w) !! msg_msgid msg = None ->
  onMessage msg w = (Ok tt, fatal (unknown_msgid_error (msg_msgid msg)) w).
Proof.
  intros Hwf Hp Ha. unfold onMessage.
  unfold bind at 1, get at 1. rewrite Hp, Ha.
  unfold bind at 1. unfold bind at 1.
  rewrite (fatalError_run _ w Hwf). reflexivity.
Qed.

Lemma onMessage_aborted_end_run msg w r q :
  wf w ->
  fc_pending (w_client w) !! msg_msgid msg = None ->
  fc_aborted (w_client w) !! msg_msgid msg = Some r ->
  w_heap w !! r = Some q ->
  msg_status msg = FP_STATUS_END ->
  onMessage msg w
  = (Ok tt,
     upd_client (fun c => set_fc_aborted (delete (frq_msgid q) (fc_aborted c)) c)
       (upd_heap (alter (set_frq_last msg) r) w)).
Proof.
  intros Hwf Hp Ha Hq Hst.
  destruct (wf_aborted w Hwf _ _ Ha) as (q0 & Hq0 & Hmsg & Hab & Hgr).
  assert (q0 = q) by congruence. subst q0.
  apply Z.eqb_eq in Hst.
  unfold onMessage. plumbing.
  repeat (progress (fields; cbn [negb]; rewrite ?Hp, ?Ha, ?Hq, ?Hab, ?Hgr, ?Hst)).
  reflexivity.
Qed.

Lemma onMessage_aborted_other_run msg w r q :
  wf w ->
  fc_pending (w_client w) !! msg_msgid msg = None ->
  fc_aborted (w_client w) !! msg_msgid msg = Some r ->
  w_heap w !! r = Some q ->
  msg_status msg <> FP_STATUS_END ->
  onMessage msg w
  = (Ok tt,
     upd_heap (alter incr_frq_nignored r)
       (upd_heap (alter (set_frq_last msg) r) w)).
Proof.
  intros Hwf Hp Ha Hq Hst.
  destruct (wf_aborted w Hwf _ _ Ha) as (q0 & Hq0 & Hmsg & Hab & Hgr).
  assert (q0 = q) by congruence. subst q0.
  apply Z.eqb_neq in Hst.
  unfold onMessage. plumbing.
  repeat (progress (fields; cbn [negb]; rewrite ?Hp, ?Ha, ?Hq, ?Hab, ?Hgr, ?Hst)).
  reflexivity.
Qed.

Lemma onMessage_pending_end_run msg w r q :
  wf w ->
  fc_pending (w_client w) !! msg_msgid msg = Some r ->
  w_heap w !! r = Some q ->
  msg_status msg = FP_STATUS_END ->
  onMessage msg w
  = (Ok tt,
     upd_heap (alter stream_end r)
       (completed r (frq_msgid q)
          (upd_heap (alter (set_frq_done_graceful true) r)
             (upd_heap (alter (set_frq_last msg) r) w)))).
Proof.
  intros Hwf Hp Hq Hst.
  destruct (wf_pending w Hwf _ _ Hp) as (q0 & Hq0 & Hmsg & Hpq & Hab).
  assert (q0 = q) by congruence. subst q0.
  apply requestIsPending_true in Hpq as [Hgr Hne].
  apply Z.eqb_eq in Hst.
  unfold onMessage. plumbing.
  repeat (progress (fields; cbn [negb]; rewrite ?Hp, ?Hq, ?Hab, ?Hgr, ?Hst)).
  erewrite requestComplete_run; cycle 1.
  - heap_lookup Hq. reflexivity.
  - apply requestIsPending_graceful. reflexivity.
  - fields. rewrite Hmsg. exact Hp.
  - reflexivity.
Qed.

Lemma pushed_stream items q :
  has_null items = false -> stream_over (frq_stream q) = false ->
  frq_stream (pushed items q) = frq_stream q ++ map EvData items.
Proof.
  intros Hn Ho. unfold pushed. fields. apply push_all_data; assumption.
Qed.

Lemma pushed_fields items q :
  frq_msgid (pushed items q) = frq_msgid q /\
  frq_error (pushed items q) = frq_error q /\
  frq_done_graceful (pushed items q) = frq_done_graceful q /\
  frq_aborted (pushed items q) = frq_aborted q /\
  frq_nignored (pushed items q) = frq_nignored q.
Proof. repeat split. Qed.

Lemma alter_same {A} (f : A -> A) (i : nat) (l : list A) :
  (forall x, f x = x) -> alter f i l = l.
Proof.
  intros Hf. apply list_eq. intros j.
  destruct (decide (i = j)) as [->|Hne].
  - rewrite list_lookup_alter_eq. destruct (l !! j); simpl; congruence.
  - apply list_lookup_alter_ne. exact Hne.
Qed.

Lemma alter_twice {A} (f g : A -> A) (i : nat) (l : list A) :
  alter f i (alter g i l) = alter (fun x => f (g x)) i l.
Proof.
  apply list_eq. intros j.
  destruct (decide (i = j)) as [->|Hne].
  - rewrite !list_lookup_alter_eq. destruct (l !! j); reflexivity.
  - rewrite !list_lookup_alter_ne by exact Hne. reflexivity.
Qed.

(** Run [onMessage] up to the point where the request has been found and
    [frq_last] recorded. *)
Ltac run_message :=
  unfold onMessage; plumbing;
  repeat (progress
    (fields; cbn [negb fmap option_fmap option_map];
     rewrite ?list_lookup_alter_eq;
     rewrite ?bool_decide_eq_true_2 by reflexivity;
     repeat match goal with
       | H : _ !! _ = _ |- _ => rewrite H
       | H : frq_aborted _ = _ |- _ => rewrite H
       | H : frq_done_graceful _ = _ |- _ => rewrite H
       | H : frq_error _ = _ |- _ => rewrite H
       | H : (_ =? _) = _ |- _ => rewrite H
       end)).

(** A DATA message for a pending request whose payload is an array. *)
Lemma onMessage_pending_data_run msg w r q items :
  wf w ->
  fc_pending (w_client w) !! msg_msgid msg = Some r ->
  w_heap w !! r = Some q ->
  msg_status msg = FP_STATUS_DATA ->
  js_get (msg_data msg) "d" = Ok (JArr items) ->
  onMessage msg w
  = (Ok tt,
     upd_heap (alter (pushed items) r)
       (upd_heap (alter incr_frq_ndata r)
          (upd_heap (alter (set_frq_last msg) r) w))).
Proof.
  intros Hwf Hp Hq Hst Hd.
  destruct (wf_pending w Hwf _ _ Hp) as (q0 & Hq0 & Hmsg & Hpq & Hab).
  assert (q0 = q) by congruence. subst q0. clear Hq0.
  apply requestIsPending_true in Hpq as [Hgr Hne].
  assert ((msg_status msg =? FP_STATUS_END) = false) as Hst1
    by (rewrite Hst; reflexivity).
  assert ((msg_status msg =? FP_STATUS_DATA) = true) as Hst2
    by (rewrite Hst; reflexivity).
  clear Hst.
  run_message. rewrite Hd. unfold push_each. plumbing. reflexivity.
Qed.

(** An ERROR message for a pending request whose payload is an object. *)
Lemma onMessage_pending_error_run msg w r q props name :
  wf w ->
  fc_pending (w_client w) !! msg_msgid msg = Some r ->
  w_heap w !! r = Some q ->
  msg_status msg = FP_STATUS_ERROR ->
  js_get (msg_data msg) "d" = Ok (JObj props) ->
  name_option (prop (JObj props) "name") = Ok name ->
  onMessage msg w
  = (Ok tt,
     failed r (frq_msgid q) (frq_rpcmethod q)
       (server_error
          (server_cause (frq_msgid q) (frq_rpcmethod q) (JObj props) name))
       (upd_heap (alter (set_frq_done_graceful true) r)
          (upd_heap (alter (set_frq_last msg) r) w))).
Proof.
  intros Hwf Hp Hq Hst Hd Hname.
  destruct (wf_pending w Hwf _ _ Hp) as (q0 & Hq0 & Hmsg & Hpq & Hab).
  assert (q0 = q) by congruence. subst q0. clear Hq0.
  apply requestIsPending_true in Hpq as [Hgr Hne].
  assert ((msg_status msg =? FP_STATUS_END) = false) as Hst1
    by (rewrite Hst; reflexivity).
  assert ((msg_status msg =? FP_STATUS_DATA) = false) as Hst2
    by (rewrite Hst; reflexivity).
  assert ((msg_status msg =? FP_STATUS_ERROR) = true) as Hst3
    by (rewrite Hst; reflexivity).
  clear Hst.
  run_message. rewrite Hd.
  change (js_get (JObj props) "name") with (Ok (prop (JObj props) "name")).
  cbn beta iota. rewrite Hname.
  cbn [js_get]. fields.
  erewrite requestFail_run; cycle 1.
  - heap_lookup Hq. reflexivity.
  - fields. exact Hne.
  - fields. rewrite Hmsg. exact Hp.
  - reflexivity.
Qed.

Lemma stream_end_fields q :
  frq_msgid (stream_end q) = frq_msgid q /\
  frq_error (stream_end q) = frq_error q /\
  frq_done_graceful (stream_end q) = frq_done_graceful q /\
  frq_aborted (stream_end q) = frq_aborted q /\
  frq_nignored (stream_end q) = frq_nignored q.
Proof. unfold stream_end. destruct (stream_over _); repeat split. Qed.

(** Close a goal [wfs strict w'] where [w'] is [w] with the object at [r]
    changed to [q'] and nothing else touched; what is left to show is how
    the stream of [q'] comes from the one at [r]. *)
Ltac data_step Hwf Hq q' :=
  match type of Hq with
  | w_heap ?w !! ?r = Some ?q =>
      eapply (wf_data_step w _ r q q');
      [ exact Hwf | exact Hq | heap_tac Hq
      | reflexivity | reflexivity | reflexivity | reflexivity
      | | repeat split | reflexivity ]
  end.

(** A message keeps the invariant; it keeps the stronger one when it is
    not a DATA message with a null item. *)
Lemma onMessage_wfs {strict} msg w :
  (strict = true -> null_free (DecoderMessage msg) = true) ->
  wfs strict w -> wfs strict (snd (onMessage msg w)).
Proof.
  intros Hnull Hwf. pose proof (wfs_weaken w Hwf) as Hwf0.
  destruct (fc_pending (w_client w) !! msg_msgid msg) as [r|] eqn:Hp.
  - destruct (wf_pending w Hwf _ _ Hp) as (q & Hq & Hmsg & Hpq & Hab).
    pose proof Hpq as Hpq'. apply requestIsPending_true in Hpq' as [Hgr Hne].
    destruct (msg_status msg =? FP_STATUS_END) eqn:Hst1.
    + apply Z.eqb_eq in Hst1.
      rewrite (onMessage_pending_end_run msg w r q Hwf0 Hp Hq Hst1).
      cbn [snd].
      pose proof (stream_end_fields
                    (set_frq_done_graceful true (set_frq_last msg q)))
        as (F1 & F2 & F3 & F4 & F5).
      eapply (wf_end_step w _ (msg_msgid msg) r q
                (stream_end
                   (set_frq_done_graceful true (set_frq_last msg q))));
        [ exact Hwf | exact Hp | exact Hq | heap_tac Hq
        | rewrite F1; reflexivity
        | unfold stream_end; fields;
          destruct (stream_over (frq_stream q)); reflexivity
        | rewrite F2; exact Hne
        | rewrite F3; reflexivity
        | fields; rewrite Hmsg; reflexivity
        | reflexivity | reflexivity | reflexivity | reflexivity ].
    + destruct (msg_status msg =? FP_STATUS_DATA) eqn:Hst2.
      * run_message.
        destruct (js_get (msg_data msg) "d") as [d|e] eqn:Hd.
        -- unfold push_each.
           destruct d as [| | | | |items|];
             try (plumbing; fields;
                  data_step Hwf Hq (incr_frq_ndata (set_frq_last msg q));
                  left; reflexivity).
           plumbing. fields.
           data_step Hwf Hq
             (pushed items (incr_frq_ndata (set_frq_last msg q))).
           right. split; [exact Hpq|]. exists items.
           split; [|reflexivity].
           intros E. specialize (Hnull E). cbn [null_free] in Hnull.
           rewrite Hd, Hst2 in Hnull.
           destruct (has_null items); [discriminate Hnull | reflexivity].
        -- fields.
           data_step Hwf Hq (incr_frq_ndata (set_frq_last msg q)).
           left. reflexivity.
      * run_message.
        destruct (msg_status msg =? FP_STATUS_ERROR);
          repeat match goal with
            | |- context [match js_get ?a ?b with _ => _ end] =>
                destruct (js_get a b)
            | |- context [match name_option ?a with _ => _ end] =>
                destruct (name_option a)
            end;
          fields;
          try (data_step Hwf Hq (set_frq_last msg q); left; reflexivity).
        erewrite requestFail_run; cycle 1.
        -- heap_lookup Hq. reflexivity.
        -- fields. exact Hne.
        -- fields. rewrite Hmsg. exact Hp.
        -- fields.
           eapply (wf_fail_step w _ (msg_msgid msg) r q);
             [ exact Hwf | exact Hp | exact Hq | heap_tac Hq
             | reflexivity | reflexivity | reflexivity
             | fields; rewrite Hmsg; reflexivity
             | reflexivity | reflexivity | reflexivity
             | left; reflexivity ].
  - destruct (fc_aborted (w_client w) !! msg_msgid msg) as [r|] eqn:Ha.
    + destruct (wf_aborted w Hwf _ _ Ha) as (q & Hq & Hmsg & Hab & Hgr).
      destruct (decide (msg_status msg = FP_STATUS_END)) as [Hst|Hst].
      * rewrite (onMessage_aborted_end_run msg w r q Hwf0 Hp Ha Hq Hst).
        cbn [snd].
        eapply (wf_aborted_delete
                  (upd_heap (alter (set_frq_last msg) r) w) _ (frq_msgid q));
          try reflexivity.
        data_step Hwf Hq (set_frq_last msg q).
        left. reflexivity.
      * rewrite (onMessage_aborted_other_run msg w r q Hwf0 Hp Ha Hq Hst).
        cbn [snd].
        data_step Hwf Hq (incr_frq_nignored (set_frq_last msg q)).
        left. reflexivity.
    + rewrite (onMessage_unknown_run msg w Hwf0 Hp Ha).
      apply wf_fatal. exact Hwf.
Qed.

Lemma onMessage_wf msg w : wf w -> wf (snd (onMessage msg w)).
Proof. apply onMessage_wfs. discriminate. Qed.

(** ** Calls, transport events and the event loop *)

Lemma rpc_wf {strict} rpcmethod rpcargs w :
  wfs strict w -> wfs strict (snd (rpc rpcmethod rpcargs w)).
Proof.
  intros Hwf. unfold rpc. unfold bind at 1. rewrite allocMessageId_run.
  set (m := next_msgid (msgid_of w)).
  set (q := new_FastRpcRequest m rpcmethod rpcargs).
  set (r := length (w_heap w)).
  set (w1 := upd_heap (fun h => h ++ [q]) (upd_client (set_fc_msgid m) w)).
  assert (wfs strict w1) as Hwf1.
  { eapply (wf_alloc_step w w1 m rpcmethod rpcargs);
      [exact Hwf | reflexivity | repeat split | reflexivity]. }
  assert (w_heap w1 !! r = Some q) as Hq.
  { subst w1 r. fields. apply list_lookup_middle. reflexivity. }
  unfold bind at 1. unfold alloc_request at 1. fields. fold r. fold q. fold w1.
  unfold bind at 1, get at 1. unfold bind at 1.
  change (fc_pending (w_client w1)) with (fc_pending (w_client w)).
  destruct (fc_pending (w_client w) !! m) as [r0|] eqn:Hfree.
  - rewrite bool_decide_eq_false_2 by discriminate.
    unfold assert_ok, throw. fields. exact Hwf1.
  - rewrite bool_decide_eq_true_2 by reflexivity.
    unfold assert_ok, ret at 1.
    unfold bind at 1, modify at 1. unfold bind at 1, modify at 1.
    set (w2 := upd_client _ (upd_client _ w1)).
    assert (wfs strict w2) as Hwf2.
    { eapply (wf_insert_step w1 w2 m r q); try reflexivity; try assumption. }
    assert (fc_pending (w_client w2) !! m = Some r) as Hp2.
    { subst w2. fields. apply lookup_insert_eq. }
    assert (w_heap w2 !! r = Some q) as Hq2 by exact Hq.
    unfold bind at 1, get at 1.
    destruct (fc_detached (w_client w2) || fc_transport_ended (w_client w2)).
    + unfold bind at 1, update_request at 1, modify at 1.
      unfold bind at 1.
      erewrite requestFail_run; cycle 1.
      * heap_lookup Hq2. reflexivity.
      * reflexivity.
      * exact Hp2.
      * unfold ret. fields.
        eapply (wf_fail_step w2 _ m r q);
          [ exact Hwf2 | exact Hp2 | exact Hq2 | heap_tac Hq2
          | reflexivity | reflexivity | reflexivity
          | reflexivity | reflexivity | reflexivity | reflexivity
          | left; reflexivity ].
    + unfold bind, modify, ret. fields.
      eapply wf_same; [exact Hwf2 | reflexivity | repeat split | reflexivity].
Qed.

Lemma requestAbort_wf {strict} r error w :
  wfs strict w -> wfs strict (snd (requestAbort r error w)).
Proof.
  intros Hwf. unfold requestAbort. unfold bind at 1, deref at 1.
  destruct (w_heap w !! r) as [q|] eqn:Hq; [|exact Hwf].
  destruct (requestIsPending q) eqn:Hpq; [|exact Hwf].
  cbn [negb]. unfold bind at 1, get at 1. unfold bind at 1.
  destruct (bool_decide (fc_pending (w_client w) !! frq_msgid q = Some r))
    eqn:Hp.
  - apply bool_decide_eq_true in Hp.
    pose proof (requestAbort_run r q error w Hq Hpq Hp) as Hrun.
    unfold requestAbort in Hrun. revert Hrun. plumbing.
    rewrite Hq, Hpq. cbn [negb].
    rewrite bool_decide_eq_true_2 by exact Hp.
    intros ->. cbn [snd]. apply wf_aborted_by; assumption.
  - exact Hwf.
Qed.

Lemma fatalError_wf {strict} err w :
  wfs strict w -> wfs strict (snd (fatalError err w)).
Proof.
  intros Hwf. rewrite fatalError_run by exact (wfs_weaken w Hwf).
  apply wf_fatal. exact Hwf.
Qed.

Lemma keeps_wf_bind {strict} {A B} (m : M A) (k : A -> M B) :
  keeps_wf strict m -> (forall a, keeps_wf strict (k a)) ->
  keeps_wf strict (bind m k).
Proof.
  intros Hm Hk w Hwf. unfold bind. specialize (Hm w Hwf).
  destruct (m w) as [[a|e] w1]; cbn [snd] in *.
  - apply Hk. exact Hm.
  - exact Hm.
Qed.

Lemma keeps_wf_modify {strict} (g : World -> World) :
  (forall w, w_heap (g w) = w_heap w) ->
  (forall w, same_tables w (g w)) ->
  (forall w, w_immediates (g w) = w_immediates w) ->
  keeps_wf strict (modify g).
Proof.
  intros H1 H2 H3 w Hwf. unfold modify. cbn [snd].
  eapply wf_same; [exact Hwf | apply H1 | apply H2 | apply H3].
Qed.

Lemma keeps_wf_removeListener {strict} ev l :
  keeps_wf strict (transport_removeListener ev l).
Proof.
  unfold transport_removeListener. destruct l.
  - apply keeps_wf_modify; intros; repeat split.
  - intros w Hwf. unfold bind, get, throw, ret.
    destruct (tr_checks_listener (w_transport w)); exact Hwf.
Qed.

Lemma keeps_wf_requestAbortAll {strict} error :
  keeps_wf strict (requestAbortAll error).
Proof.
  intros w Hwf. rewrite requestAbortAll_run by exact (wfs_weaken w Hwf).
  apply wf_abort_all. exact Hwf.
Qed.

Lemma keeps_wf_get {strict} : keeps_wf strict get.
Proof. intros w Hwf. exact Hwf. Qed.

Lemma keeps_wf_ret {strict} {A} (a : A) : keeps_wf strict (ret a).
Proof. intros w Hwf. exact Hwf. Qed.

Lemma detach_keeps_wf {strict} : keeps_wf strict detach.
Proof.
  unfold detach, transport_set_piped.
  apply keeps_wf_bind; [apply keeps_wf_get|]. intros w0.
  destruct (fc_detached (w_client w0)); [apply keeps_wf_ret|].
  repeat (apply keeps_wf_bind; [|intros _]);
    first [ apply keeps_wf_removeListener
          | apply keeps_wf_requestAbortAll
          | apply keeps_wf_modify; intros; repeat split ].
Qed.

Lemma detach_wf {strict} w : wfs strict w -> wfs strict (snd (detach w)).
Proof. apply detach_keeps_wf. Qed.

Lemma onTransportEnd_wf {strict} w :
  wfs strict w -> wfs strict (snd (onTransportEnd w)).
Proof.
  intros Hwf. unfold onTransportEnd.
  unfold bind at 1, modify at 1. unfold bind at 1, get at 1.
  assert (wfs strict (upd_client (set_fc_transport_ended true) w)) as Hwf1.
  { eapply wf_same; [exact Hwf | reflexivity | repeat split | reflexivity]. }
  match goal with |- context [if ?c then _ else _] => destruct c end.
  - apply fatalError_wf. exact Hwf1.
  - exact Hwf1.
Qed.

Lemma for_each_wf {strict} {A} (l : list A) (body : A -> M unit) w :
  (forall x w0, wfs strict w0 -> wfs strict (snd (body x w0))) ->
  wfs strict w -> wfs strict (snd (for_each l body w)).
Proof.
  intros Hb. revert w. induction l as [|x l IH]; intros w Hwf.
  - exact Hwf.
  - cbn [for_each]. unfold bind.
    pose proof (Hb x w Hwf) as H1.
    destruct (body x w) as [[[]|e] w1]; cbn [snd] in *.
    + apply IH. exact H1.
    + exact H1.
Qed.

Lemma transport_emit_wf {strict} ev arg w :
  wfs strict w -> wfs strict (snd (transport_emit ev arg w)).
Proof.
  intros Hwf. unfold transport_emit. unfold bind at 1, get at 1.
  apply for_each_wf; [|exact Hwf].
  intros [ev' l] w0 Hwf0. destruct l; cbn [invoke_listener snd].
  - apply onTransportEnd_wf. exact Hwf0.
  - apply fatalError_wf. exact Hwf0.
Qed.

Lemma run_immediate_wf {strict} w :
  wfs strict w -> wfs strict (snd (run_immediate w)).
Proof.
  intros Hwf. unfold run_immediate. unfold bind at 1, get at 1.
  destruct (w_immediates w) as [|r rest] eqn:Himm; [exact Hwf|].
  pose proof (wf_streams w Hwf r) as Hs.
  destruct (w_heap w !! r) as [q|] eqn:Hq.
  - plumbing. fields. rewrite Hq. fields.
    eapply (wf_immediate_step w _ r q);
      [exact Hwf | fields; exact Himm | exact Hq | heap_tac Hq | repeat split].
  - exfalso. unfold scheduled in Hs. rewrite Himm, filter_cons in Hs.
    rewrite decide_True in Hs by reflexivity. discriminate.
Qed.

Lemma attach_run w :
  attach w
  = (Ok tt,
     upd_transport (fun t =>
       {| tr_listeners := tr_listeners t ++ [("end", OnTransportEnd);
                                             ("error", OnTransportError)];
          tr_piped_to_decoder := true;
          tr_checks_listener := tr_checks_listener t |})
       (upd_client (fun c =>
          set_fc_transport_onerr (Some OnTransportError)
            (set_fc_transport_onend (Some OnTransportEnd) c))
          (set_encoder_piped true w))).
Proof.
  unfold attach, transport_set_piped, transport_on. plumbing. fields.
  unfold upd_transport. fields. rewrite <- app_assoc. reflexivity.
Qed.

Lemma wf_new_FastClient {strict} nRecentRequests transport :
  wfs strict (new_FastClient nRecentRequests transport).
Proof.
  unfold new_FastClient. rewrite attach_run. cbn [snd]. unfold constructed.
  split; fields.
  - rewrite map_size_empty. reflexivity.
  - intros m r H. rewrite lookup_empty in H. discriminate.
  - intros m r H. rewrite lookup_empty in H. discriminate.
  - intros r. rewrite lookup_nil. reflexivity.
Qed.

Lemma step_wfs {strict} w a :
  (strict = true -> null_free a = true) ->
  wfs strict w -> wfs strict (step w a).
Proof.
  intros Hnull Hwf. unfold step. destruct a; cbn [perform].
  - unfold bind. pose proof (rpc_wf rpcmethod rpcargs w Hwf) as H.
    destruct (rpc rpcmethod rpcargs w) as [[r|e] w']; exact H.
  - apply requestAbort_wf. exact Hwf.
  - apply detach_wf. exact Hwf.
  - apply onMessage_wfs; assumption.
  - apply fatalError_wf. exact Hwf.
  - apply transport_emit_wf. exact Hwf.
  - apply transport_emit_wf. exact Hwf.
  - apply run_immediate_wf. exact Hwf.
Qed.

Lemma step_wf w a : wf w -> wf (step w a).
Proof. apply step_wfs. discriminate. Qed.

Lemma run_wfs {strict} actions w :
  (strict = true -> forallb null_free actions = true) ->
  wfs strict w -> wfs strict (run actions w).
Proof.
  revert w. induction actions as [|a actions IH]; intros w Hnull Hwf.
  - exact Hwf.
  - cbn [forallb] in Hnull. apply IH.
    + intros E. specialize (Hnull E).
      apply andb_true_iff in Hnull as [_ H]. exact H.
    + apply step_wfs; [|exact Hwf].
      intros E. specialize (Hnull E).
      apply andb_true_iff in Hnull as [H _]. exact H.
Qed.

Lemma run_wf actions w : wf w -> wf (run actions w).
Proof. apply run_wfs. discriminate. Qed.

(** Every state a client can reach satisfies the invariant. *)
Lemma history_wf nRecentRequests checks actions :
  wf (history nRecentRequests checks actions).
Proof. apply run_wf. apply wf_new_FastClient. Qed.

(** Every state a client can reach while the server sends no null item
    satisfies the stronger invariant. *)
Lemma history_tidy nRecentRequests checks actions :
  forallb null_free actions = true ->
  wfs true (history nRecentRequests checks actions).
Proof.
  intros Hnull. apply run_wfs; [intros _; exact Hnull|].
  apply wf_new_FastClient.
Qed.

(** ** The scenarios of the test suite, run on the client *)

(** C1. An END message that carries data: the test suite expects the stream
    to deliver ['string_0', 'string_1', 'lastmessage'] and then to end; the
    client ends the stream without delivering the END message's data. *)
Theorem end_message_data_is_dropped :
  stream_of (history 10 true scenario_data_then_end) 0
  = [EvData (JStr "string_0"); EvData (JStr "string_1"); EvEnd]
  /\ delivered_data (history 10 true scenario_data_then_end) 0
     <> [JStr "string_0"; JStr "string_1"; JStr "lastmessage"].
Proof. split; [vm_compute; reflexivity | vm_compute; discriminate]. Qed.

(** The same for every pending request and every END message: whatever
    [data.d] holds, no data is delivered; the message ends the stream,
    unless a null item had ended it before. *)
Lemma end_message_delivers_no_data nRecentRequests checks actions msg r :
  let w := history nRecentRequests checks actions in
  fc_pending (w_client w) !! msg_msgid msg = Some r ->
  msg_status msg = FP_STATUS_END ->
  delivered_data (step w (DecoderMessage msg)) r = delivered_data w r /\
  stream_of (step w (DecoderMessage msg)) r
  = if stream_over (stream_of w r) then stream_of w r
    else stream_of w r ++ [EvEnd].
Proof.
  intros w Hp Hst.
  pose proof (history_wf nRecentRequests checks actions) as Hwf. fold w in Hwf.
  destruct (wf_pending w Hwf _ _ Hp) as (q & Hq & _).
  change (step w (DecoderMessage msg)) with (snd (onMessage msg w)).
  rewrite (onMessage_pending_end_run msg w r q Hwf Hp Hq Hst).
  unfold delivered_data, stream_of. fields.
  rewrite !list_lookup_alter_eq, Hq.
  cbn [fmap option_fmap option_map]. unfold stream_end. fields.
  destruct (stream_over (frq_stream q)); fields.
  - split; reflexivity.
  - split; [|reflexivity]. rewrite omap_app. cbn. apply app_nil_r.
Qed.

(** C2. A request failed by the end of the transport: the test suite expects
    an error named 'FastRequestError' with message 'request failed:
    unexpected end of transport stream' whose cause is the protocol error;
    the client delivers an error that takes the name of its cause, whose
    message starts with ': ', and whose cause is the 'RequestAbortedError'
    wrapper.  The info block does hold rpcMsgid and rpcMethod. *)
Theorem request_error_is_not_FastRequestError :
  exists e c,
    delivered_error (history 10 true scenario_transport_end) 0 = Some e /\
    ve_name e = "RequestAbortedError" /\
    ve_message e = ": request aborted: unexpected end of transport stream" /\
    ve_cause e = Some c /\
    ve_name c = "RequestAbortedError" /\
    VError_info e !! "rpcMsgid" = Some (JNum 1) /\
    VError_info e !! "rpcMethod" = Some (JStr "testmethod").
Proof.
  eexists. eexists.
  split; [vm_compute; reflexivity|].
  repeat split; vm_compute; reflexivity.
Qed.

(** C3. A request failed by an ERROR message: the test suite expects
    'FastRequestError' wrapping 'FastServerError' wrapping the server's
    error, with the server's info merged into the info block; the client
    delivers two wrappers named 'VError', a message that starts with ': ',
    and an info block without the server's 'dummyProp'. *)
Theorem server_error_is_not_layered_as_expected :
  exists e c s,
    delivered_error (history 10 true scenario_server_error) 0 = Some e /\
    ve_name e = "VError" /\
    ve_message e = ": server error: dummy error message" /\
    ve_cause e = Some c /\
    ve_name c = "VError" /\
    ve_message c = "server error: dummy error message" /\
    ve_cause c = Some s /\
    ve_name s = "DummyError" /\
    ve_message s = "dummy error message" /\
    VError_info e !! "rpcMsgid" = Some (JNum 1) /\
    VError_info e !! "rpcMethod" = Some (JStr "testmethod") /\
    VError_info e !! "dummyProp" = None.
Proof.
  eexists. eexists. eexists.
  split; [vm_compute; reflexivity|].
  repeat split; vm_compute; reflexivity.
Qed.

(** C7. [detach] on a client with a pending request: the listener for
    'end' is removed, the listener for 'error' stays registered, because
    [detach] passes [fc_transport_onerror], which nothing assigns, instead
    of [fc_transport_onerr].  On a transport that checks the listener the
    call throws at that point, and the pending request is never failed.
    On a transport that does not, the pending request is failed, with a
    cause named 'VError', not 'TransportError'. *)
Theorem detach_leaves_error_listener :
  (forall checks,
     tr_listeners (w_transport (history 10 checks (test_client ++ [CallDetach])))
     = [("error", OnTransportError)]) /\
  fst (detach (history 10 true test_client))
  = Throw (TypeError "listener must be a function") /\
  fc_pending (w_client (history 10 true (test_client ++ [CallDetach]))) !! 1
  = Some 0%nat /\
  w_immediates (history 10 true (test_client ++ [CallDetach])) = [] /\
  (exists e a c,
     delivered_error
       (history 10 false (test_client ++ [CallDetach; Immediate])) 0
     = Some e /\
     ve_cause e = Some a /\ ve_name a = "RequestAbortedError" /\
     ve_cause a = Some c /\ ve_name c = "VError" /\
     ve_message c = "client detached from transport").
Proof.
  split; [intros []; vm_compute; reflexivity|].
  split; [vm_compute; reflexivity|].
  split; [vm_compute; reflexivity|].
  split; [vm_compute; reflexivity|].
  eexists. eexists. eexists.
  split; [vm_compute; reflexivity|].
  repeat split; vm_compute; reflexivity.
Qed.

(** [detach] is idempotent: on a detached client it changes nothing, and a
    first call always marks the client detached. *)
Lemma detach_idempotent w :
  fc_detached (w_client w) = true -> detach w = (Ok tt, w).
Proof. intros H. unfold detach. plumbing. rewrite H. reflexivity. Qed.

Lemma detach_marks_detached w :
  fc_detached (w_client (snd (detach w))) = true.
Proof.
  destruct (fc_detached (w_client w)) eqn:H.
  - rewrite detach_idempotent by exact H. exact H.
  - unfold detach. unfold bind at 1, get at 1. rewrite H.
    unfold bind at 1, modify at 1.
    match goal with
    | |- fc_detached (w_client (snd (bind ?m ?k ?w1))) = true =>
        change (fc_detached (w_client (snd (bind m k w1)))
                = fc_detached (w_client w1));
        assert (keeps (fun w => fc_detached (w_client w)) (bind m k)) as Hk
    end.
    { unfold transport_removeListener, transport_set_piped. keeps_auto. }
    apply Hk.
Qed.

(** ** The encoder's reference vector *)

(** In the modes OLD and NEW the checksum the encoder emits is the one the
    check of the test case 'basic data message' requires. *)
Lemma basic_data_message_check mode :
  mode <> CRC_MODE_OLD_NEW ->
  encoded_crc mode basic_data_message = Some (basic_data_message_crc mode).
Proof. destruct mode; intros H; try contradiction; vm_compute; reflexivity. Qed.

(** In mode OLD_NEW the check of that test case compares the checksum field
    with 7500, as in every mode other than OLD, where the encoder, emitting
    the legacy checksum, writes 10980. *)
Lemma basic_data_message_check_old_new :
  basic_data_message_crc CRC_MODE_OLD_NEW = 7500 /\
  encoded_crc CRC_MODE_OLD_NEW basic_data_message = Some 10980.
Proof. split; vm_compute; reflexivity. Qed.

(** C9.  For the message [{ msgid: 1, status: DATA, data: ['hello',
    'world'] }] the payload is the JSON text [["hello","world"]], whatever
    the mode; the checksum field of the frame is 10980 in mode OLD and 7500
    in mode NEW, and in mode OLD_NEW the encoder emits the OLD checksum,
    10980.  These are the legacy and the conformant CRC-16 of the
    payload. *)
Theorem basic_data_message_encoding :
  (forall mode,
     encoded_payload mode basic_data_message
     = Some (bytes_of_string hello_world_json)) /\
  encoded_crc CRC_MODE_OLD basic_data_message = Some 10980 /\
  encoded_crc CRC_MODE_NEW basic_data_message = Some 7500 /\
  encoded_crc CRC_MODE_OLD_NEW basic_data_message = Some 10980 /\
  crc16_old (bytes_of_string hello_world_json) = 10980 /\
  crc16_new (bytes_of_string hello_world_json) = 7500.
Proof.
  split; [intros []; vm_compute; reflexivity|].
  repeat split; vm_compute; reflexivity.
Qed.

(** ** End of the transport *)

(** What [requestAbortAll] leaves alone. *)
Lemma abort_all_frame {X} (f : World -> X) keys error w :
  (forall r m rpcmethod e w0, f (aborted_by r m rpcmethod e w0) = f w0) ->
  f (abort_all keys error w) = f w.
Proof.
  intros Hf. revert w. induction keys as [|k keys IH]; intros w.
  - reflexivity.
  - cbn [abort_all].
    destruct (fc_pending (w_client w) !! k) as [r|]; [|apply IH].
    destruct (w_heap w !! r) as [q|]; [|reflexivity].
    rewrite IH. apply Hf.
Qed.

Lemma fatal_logged err w : w_logged (fatal err w) = w_logged w ++ [err].
Proof.
  unfold fatal. destruct (fc_error (w_client w)); [reflexivity|].
  rewrite (abort_all_frame w_logged) by reflexivity. reflexivity.
Qed.

Lemma fatal_nerrors err w :
  fc_nerrors (w_client (fatal err w)) = S (fc_nerrors (w_client w)).
Proof.
  unfold fatal. destruct (fc_error (w_client w)); [reflexivity|].
  rewrite (abort_all_frame (fun w => fc_nerrors (w_client w))) by reflexivity.
  reflexivity.
Qed.

Lemma fatal_first err w :
  fc_error (w_client w) = None ->
  fc_error (w_client (fatal err w)) = Some err /\
  w_emitted (fatal err w) = w_emitted w ++ [err].
Proof.
  intros He. unfold fatal. rewrite He.
  rewrite (abort_all_frame (fun w => fc_error (w_client w))) by reflexivity.
  rewrite (abort_all_frame w_emitted) by reflexivity.
  split; reflexivity.
Qed.




(** Until [detach] is called, the two listeners [attach] installed are the
    transport's listeners, so the transport's 'end' event runs the listener
    the lemma above is about. *)
Lemma step_attachment w a :
  a <> CallDetach -> attachment (step w a) = attachment w.
Proof.
  intros Ha. unfold step.
  destruct a; cbn [perform]; try contradiction;
    match goal with
    | |- attachment (snd (?m w)) = attachment w =>
        assert (keeps attachment m) as Hk;
        [ unfold rpc, alloc_request, allocMessageId, request_abort,
            requestAbort, onMessage, push_each, fatalError, transport_emit,
            invoke_listener, onTransportEnd, onTransportError, run_immediate,
            update_request;
          keeps_auto
        | apply Hk ]
    end.
Qed.

Lemma history_attached nRecentRequests checks actions :
  let w := history nRecentRequests checks actions in
  fc_detached (w_client w) = false ->
  tr_listeners (w_transport w)
  = [("end", OnTransportEnd); ("error", OnTransportError)].
Proof.
  unfold history.
  assert (forall w0,
            (fc_detached (w_client w0) = false ->
             tr_listeners (w_transport w0)
             = [("end", OnTransportEnd); ("error", OnTransportError)]) ->
            fc_detached (w_client (run actions w0)) = false ->
            tr_listeners (w_transport (run actions w0))
            = [("end", OnTransportEnd); ("error", OnTransportError)]) as H.
  { induction actions as [|a actions IH]; intros w0 H0.
    - exact H0.
    - cbn [run fold_left]. apply IH.
      assert (a = CallDetach \/ a <> CallDetach) as [->|Ha]
        by (destruct a; first [left; reflexivity | right; discriminate]).
      + intros Hd. change (step w0 CallDetach) with (snd (detach w0)) in Hd.
        rewrite detach_marks_detached in Hd. discriminate.
      + pose proof (step_attachment w0 a Ha) as Hs.
        unfold attachment in Hs. injection Hs as Hd Hl.
        rewrite Hd, Hl. exact H0. }
  cbn zeta. apply H. intros _.
  unfold new_FastClient. rewrite attach_run. reflexivity.
Qed.

Lemma transport_end_runs_listener nRecentRequests checks actions :
  let w := history nRecentRequests checks actions in
  fc_detached (w_client w) = false ->
  step w TransportEnd = snd (onTransportEnd w).
Proof.
  intros w Hd. subst w. unfold step. cbn [perform]. unfold transport_emit.
  unfold bind at 1, get at 1.
  rewrite (history_attached nRecentRequests checks actions Hd).
  replace (filter (fun p : string * listener => p.1 = "end")
             [("end", OnTransportEnd); ("error", OnTransportError)])
    with [("end", OnTransportEnd)] by reflexivity.
  cbn [for_each invoke_listener snd]. unfold bind, ret.
  destruct (onTransportEnd (history nRecentRequests checks actions))
    as [[[]|e] w']; reflexivity.
Qed.




(** ** Aborted requests *)

Lemma step_message w msg : step w (DecoderMessage msg) = snd (onMessage msg w).
Proof. reflexivity. Qed.

(** One message other than END for an aborted request. *)
Lemma ignored_step w m r msg :
  wf w ->
  fc_pending (w_client w) !! m = None ->
  fc_aborted (w_client w) !! m = Some r ->
  msg_msgid msg = m ->
  msg_status msg <> FP_STATUS_END ->
  let w' := step w (DecoderMessage msg) in
  fst (onMessage msg w) = Ok tt /\
  fc_pending (w_client w') = fc_pending (w_client w) /\
  fc_aborted (w_client w') = fc_aborted (w_client w) /\
  nignored_of w' r = S (nignored_of w r) /\
  stream_of w' r = stream_of w r /\
  w_immediates w' = w_immediates w.
Proof.
  intros Hwf Hp Ha Hid Hst w'. subst w' m. rewrite step_message.
  destruct (wf_aborted w Hwf _ _ Ha) as (q & Hq & _).
  rewrite (onMessage_aborted_other_run msg w r q) by assumption.
  cbn [fst snd]. unfold nignored_of, stream_of. fields.
  rewrite !list_lookup_alter_eq, Hq. cbn [fmap option_fmap option_map].
  repeat split.
Qed.

(** The END message for an aborted request. *)
Lemma aborted_end_step w m r msg :
  wf w ->
  fc_pending (w_client w) !! m = None ->
  fc_aborted (w_client w) !! m = Some r ->
  msg_msgid msg = m ->
  msg_status msg = FP_STATUS_END ->
  let w' := step w (DecoderMessage msg) in
  fst (onMessage msg w) = Ok tt /\
  fc_aborted (w_client w') !! m = None /\
  nignored_of w' r = nignored_of w r /\
  stream_of w' r = stream_of w r /\
  w_immediates w' = w_immediates w.
Proof.
  intros Hwf Hp Ha Hid Hst w'. subst w' m. rewrite step_message.
  destruct (wf_aborted w Hwf _ _ Ha) as (q & Hq & Hmsg & _).
  rewrite (onMessage_aborted_end_run msg w r q) by assumption.
  cbn [fst snd]. unfold nignored_of, stream_of. fields.
  rewrite !list_lookup_alter_eq, Hq. cbn [fmap option_fmap option_map].
  rewrite Hmsg. repeat split. apply lookup_delete_eq.
Qed.

Lemma ignored_run msgs w m r :
  wf w ->
  fc_pending (w_client w) !! m = None ->
  fc_aborted (w_client w) !! m = Some r ->
  Forall (fun msg => msg_msgid msg = m /\ msg_status msg <> FP_STATUS_END)
    msgs ->
  let w' := run (map DecoderMessage msgs) w in
  wf w' /\
  fc_pending (w_client w') !! m = None /\
  fc_aborted (w_client w') !! m = Some r /\
  nignored_of w' r = (nignored_of w r + length msgs)%nat /\
  stream_of w' r = stream_of w r /\
  w_immediates w' = w_immediates w.
Proof.
  intros Hwf Hp Ha Hall. revert w Hwf Hp Ha.
  induction Hall as [|msg msgs [Hid Hst] _ IH]; intros w Hwf Hp Ha.
  - cbn. rewrite Nat.add_0_r.
    split; [exact Hwf|]. split; [exact Hp|]. split; [exact Ha|].
    repeat split.
  - cbn [map run fold_left].
    destruct (ignored_step w m r msg Hwf Hp Ha Hid Hst)
      as (_ & Hp1 & Ha1 & Hn1 & Hs1 & Hi1).
    specialize (IH (step w (DecoderMessage msg))).
    destruct IH as (Hwf2 & Hp2 & Ha2 & Hn2 & Hs2 & Hi2).
    + apply step_wf. exact Hwf.
    + rewrite Hp1. exact Hp.
    + rewrite Ha1. exact Ha.
    + unfold run in *.
      split; [exact Hwf2|]. split; [exact Hp2|]. split; [exact Ha2|].
      split; [|split].
      * rewrite Hn2, Hn1. cbn [length]. lia.
      * rewrite Hs2. exact Hs1.
      * rewrite Hi2. exact Hi1.
Qed.

(** Running a queued callback delivers the error of its request. *)
Lemma immediate_run w r rest q :
  w_immediates w = r :: rest ->
  w_heap w !! r = Some q ->
  run_immediate w
  = (Ok tt,
     upd_heap (alter (deliver (EvError (frq_error q))) r)
       (set_immediates rest w)).
Proof.
  intros Hi Hq. unfold run_immediate. plumbing. rewrite Hi. fields.
  rewrite Hq. reflexivity.
Qed.

(** Letting the event loop run every queued callback empties the queue and
    changes no request's error. *)
Lemma drain_queue n w :
  wf w ->
  length (w_immediates w) = n ->
  let w' := run (repeat Immediate n) w in
  wf w' /\ w_immediates w' = [] /\
  forall r, frq_error <$> w_heap w' !! r = frq_error <$> w_heap w !! r.
Proof.
  revert w. induction n as [|n IH]; intros w Hwf Hlen.
  - cbn. split; [exact Hwf|]. split; [|reflexivity].
    destruct (w_immediates w); [reflexivity | discriminate].
  - destruct (w_immediates w) as [|r0 rest] eqn:Hi; [discriminate|].
    pose proof (wf_streams w Hwf r0) as Hs.
    destruct (w_heap w !! r0) as [q0|] eqn:Hq0.
    + cbn [repeat run fold_left].
      assert (step w Immediate
              = upd_heap (alter (deliver (EvError (frq_error q0))) r0)
                  (set_immediates rest w)) as Hstep.
      { unfold step. cbn [perform].
        rewrite (immediate_run w r0 rest q0 Hi Hq0). reflexivity. }
      destruct (IH (step w Immediate)) as (H1 & H2 & H3).
      * apply step_wf. exact Hwf.
      * rewrite Hstep. fields. injection Hlen as Hlen. exact Hlen.
      * split; [exact H1|]. split; [exact H2|].
        intros r. unfold run in H3. rewrite H3, Hstep. fields.
        destruct (decide (r0 = r)) as [<-|Hne].
        -- rewrite list_lookup_alter_eq, Hq0. reflexivity.
        -- rewrite list_lookup_alter_ne by exact Hne. reflexivity.
    + exfalso. unfold scheduled in Hs. rewrite Hi, filter_cons in Hs.
      rewrite decide_True in Hs by reflexivity. discriminate.
Qed.

(** Once the queue is empty, a failed request has had its error delivered,
    as the last event of its stream. *)
Lemma failed_request_delivered w r q e :
  wf w ->
  w_immediates w = [] ->
  w_heap w !! r = Some q ->
  frq_error q = Some e ->
  delivered_error w r = Some e.
Proof.
  intros Hwf Hi Hq He.
  pose proof (wf_streams w Hwf r) as Hs. rewrite Hq in Hs.
  destruct Hs as (ds & tail & _ & Hs). rewrite He in Hs.
  unfold scheduled in Hs. rewrite Hi in Hs. cbn in Hs.
  destruct Hs as [[Hk _] | [_ Hs]]; [discriminate|].
  unfold delivered_error, stream_of.
  rewrite Hq, Hs, app_assoc, last_snoc. reflexivity.
Qed.

(** C6. After [abort()] on a still-pending request: the request has left
    [fc_pending] and sits in [fc_aborted]; it has failed with an error
    whose cause is the 'RequestAbortedError', nothing is delivered on the
    stream during the call and the callback that delivers the error is
    queued (the failure is asynchronous).  Every following message for
    that identifier whose status is not END is discarded, each one
    incrementing [frq_nignored], and the first END message removes the
    entry from [fc_aborted]; none of these messages puts anything on the
    stream.  Once the event loop has run the queued callbacks, the stream
    has ended with that error. *)
Theorem abort_then_discard (nRecentRequests : Z) (checks : bool)
    (actions : list action) (m : Z) (r : reqref)
    (msgs : list message) (end_msg : message) :
  let w := history nRecentRequests checks actions in
  fc_pending (w_client w) !! m = Some r ->
  Forall (fun msg => msg_msgid msg = m /\ msg_status msg <> FP_STATUS_END)
    msgs ->
  msg_msgid end_msg = m ->
  msg_status end_msg = FP_STATUS_END ->
  let w1 := step w (CallAbort r) in
  let w2 := run (map DecoderMessage msgs) w1 in
  let w3 := step w2 (DecoderMessage end_msg) in
  (fst (request_abort r w) = Ok tt /\
   fc_pending (w_client w1) !! m = None /\
   fc_aborted (w_client w1) !! m = Some r /\
   (exists q1 e, w_heap w1 !! r = Some q1 /\ frq_error q1 = Some e /\
                 ve_cause e = Some (abort_error None) /\
                 ve_name (abort_error None) = "RequestAbortedError" /\
                 delivered_error
                   (run (repeat Immediate (length (w_immediates w1))) w1) r
                 = Some e) /\
   stream_of w1 r = stream_of w r /\
   w_immediates w1 = w_immediates w ++ [r]) /\
  (fc_aborted (w_client w2) !! m = Some r /\
   nignored_of w2 r = (nignored_of w1 r + length msgs)%nat /\
   stream_of w2 r = stream_of w1 r /\
   w_immediates w2 = w_immediates w1) /\
  (fc_aborted (w_client w3) !! m = None /\
   nignored_of w3 r = nignored_of w2 r /\
   stream_of w3 r = stream_of w2 r /\
   w_immediates w3 = w_immediates w2).
Proof.
  intros w Hp Hall Hid Hst w1 w2 w3.
  pose proof (history_wf nRecentRequests checks actions) as Hwf. fold w in Hwf.
  destruct (wf_pending w Hwf _ _ Hp) as (q & Hq & Hmsg & Hpq & Hab).
  assert (request_abort r w
          = (Ok tt, aborted_by r m (frq_rpcmethod q) None w)) as Hrun.
  { unfold request_abort. rewrite <- Hmsg.
    apply requestAbort_run; [exact Hq | exact Hpq | rewrite Hmsg; exact Hp]. }
  assert (w1 = aborted_by r m (frq_rpcmethod q) None w) as Hw1.
  { subst w1. unfold step. cbn [perform]. rewrite Hrun. reflexivity. }
  assert (wf w1) as Hwf1 by (apply step_wf; exact Hwf).
  assert (fc_pending (w_client w1) !! m = None) as Hp1.
  { rewrite Hw1. fields. apply lookup_delete_eq. }
  assert (fc_aborted (w_client w1) !! m = Some r) as Ha1.
  { rewrite Hw1. fields. apply lookup_insert_eq. }
  destruct (ignored_run msgs w1 m r Hwf1 Hp1 Ha1 Hall)
    as (Hwf2 & Hp2 & Ha2 & Hn2 & Hs2 & Hi2).
  fold w2 in Hwf2, Hp2, Ha2, Hn2, Hs2, Hi2.
  destruct (aborted_end_step w2 m r end_msg Hwf2 Hp2 Ha2 Hid Hst)
    as (_ & Ha3 & Hn3 & Hs3 & Hi3).
  fold w3 in Ha3, Hn3, Hs3, Hi3.
  split; [|split].
  - split; [rewrite Hrun; reflexivity|].
    split; [exact Hp1|]. split; [exact Ha1|].
    split; [|split].
    + destruct (drain_queue (length (w_immediates w1)) w1 Hwf1 eq_refl)
        as (Hwfd & Hqueue & Hed).
      assert (exists q1 e, w_heap w1 !! r = Some q1 /\ frq_error q1 = Some e /\
                           ve_cause e = Some (abort_error None))
        as (q1 & e & Hq1 & He1 & Hc1).
      { rewrite Hw1. eexists. eexists. fields.
        rewrite !list_lookup_alter_eq, Hq. cbn [fmap option_fmap option_map].
        split; [reflexivity|]. split; reflexivity. }
      exists q1, e. split; [exact Hq1|]. split; [exact He1|].
      split; [exact Hc1|]. split; [reflexivity|].
      specialize (Hed r). rewrite Hq1 in Hed. cbn in Hed.
      destruct (w_heap (run (repeat Immediate (length (w_immediates w1))) w1)
                  !! r) as [qd|] eqn:Hqd; [|discriminate].
      cbn in Hed. injection Hed as Hed.
      apply (failed_request_delivered _ r qd e Hwfd Hqueue Hqd). congruence.
    + rewrite Hw1. unfold stream_of. fields.
      rewrite !list_lookup_alter_eq, Hq. reflexivity.
    + rewrite Hw1. reflexivity.
  - repeat split; assumption.
  - repeat split; assumption.
Qed.

(** An instance: the test client aborts its request; the server then sends
    a DATA message, an ERROR message and the END message. *)
Lemma abort_then_discard_witness :
  let w := history 10 true test_client in
  let msgs := [reply 1 FP_STATUS_DATA (JArr [JStr "late"]);
               reply 1 FP_STATUS_ERROR dummyErrorData] in
  let w1 := step w (CallAbort 0%nat) in
  let w2 := run (map DecoderMessage msgs) w1 in
  let w3 := step w2 (DecoderMessage (reply 1 FP_STATUS_END (JArr []))) in
  (fst (request_abort 0%nat w) = Ok tt /\
   fc_pending (w_client w1) !! 1 = None /\
   fc_aborted (w_client w1) !! 1 = Some 0%nat /\
   (exists q1 e, w_heap w1 !! 0%nat = Some q1 /\ frq_error q1 = Some e /\
                 ve_cause e = Some (abort_error None) /\
                 ve_name (abort_error None) = "RequestAbortedError" /\
                 delivered_error
                   (run (repeat Immediate (length (w_immediates w1))) w1)
                   0%nat
                 = Some e) /\
   stream_of w1 0%nat = stream_of w 0%nat /\
   w_immediates w1 = w_immediates w ++ [0%nat]) /\
  (fc_aborted (w_client w2) !! 1 = Some 0%nat /\
   nignored_of w2 0%nat = (nignored_of w1 0%nat + length msgs)%nat /\
   stream_of w2 0%nat = stream_of w1 0%nat /\
   w_immediates w2 = w_immediates w1) /\
  (fc_aborted (w_client w3) !! 1 = None /\
   nignored_of w3 0%nat = nignored_of w2 0%nat /\
   stream_of w3 0%nat = stream_of w2 0%nat /\
   w_immediates w3 = w_immediates w2).
Proof.
  apply (abort_then_discard 10 true test_client 1 0%nat).
  - vm_compute. reflexivity.
  - repeat constructor; vm_compute; discriminate.
  - reflexivity.
  - reflexivity.
Defined.

(** ** Fatal errors reach every pending request *)

Lemma elem_of_pending_keys (pending : gmap Z reqref) m :
  m ∈ pending_keys pending <-> is_Some (pending !! m).
Proof.
  unfold pending_keys. rewrite merge_sort_Permutation.
  rewrite list_elem_of_fmap. split.
  - intros [[m' r] [-> Hin]]. apply elem_of_map_to_list in Hin. eauto.
  - intros [r Hr]. exists (m, r). split; [reflexivity|].
    apply elem_of_map_to_list. exact Hr.
Qed.

Lemma NoDup_pending_keys (pending : gmap Z reqref) :
  NoDup (pending_keys pending).
Proof.
  unfold pending_keys. rewrite merge_sort_Permutation.
  apply NoDup_fst_map_to_list.
Qed.

Lemma aborted_by_establishes err w m r q :
  wf w ->
  fc_pending (w_client w) !! m = Some r ->
  w_heap w !! r = Some q ->
  aborted_with err m r (aborted_by r m (frq_rpcmethod q) (Some err) w).
Proof.
  intros Hwf Hp Hq.
  destruct (wf_pending w Hwf _ _ Hp) as (q0 & Hq0 & Hmsg & Hpq & Hab).
  assert (q0 = q) by congruence. subst q0.
  apply requestIsPending_true in Hpq as [Hgr Hne].
  pose proof (wf_streams w Hwf r) as Hs. rewrite Hq in Hs.
  destruct Hs as (ds & tail & _ & Hs). rewrite Hne in Hs.
  destruct Hs as [Hz _].
  split; [fields; apply lookup_delete_eq|].
  split; [fields; apply lookup_insert_eq|].
  eexists. split; [fields; rewrite !list_lookup_alter_eq, Hq; reflexivity|].
  fields. split; [exact Hmsg|]. split; [reflexivity|].
  rewrite (scheduled_snoc r r w) by reflexivity.
  rewrite Hz, decide_True by reflexivity. reflexivity.
Qed.

Lemma aborted_with_stable err w m r m' r' q' :
  wf w ->
  aborted_with err m r w ->
  fc_pending (w_client w) !! m' = Some r' ->
  w_heap w !! r' = Some q' ->
  aborted_with err m r (aborted_by r' m' (frq_rpcmethod q') (Some err) w).
Proof.
  intros Hwf (Hp & Ha & q & Hq & Hmsg & He & Hk) Hp' Hq'.
  destruct (wf_pending w Hwf _ _ Hp') as (q0 & Hq0 & Hmsg' & Hpq & Hab).
  assert (q0 = q') by congruence. subst q0.
  apply requestIsPending_true in Hpq as [Hgr Hne].
  assert (m' <> m) as Hm by congruence.
  assert (r' <> r) as Hr by congruence.
  split; [fields; rewrite lookup_delete_ne by exact Hm; exact Hp|].
  split; [fields; rewrite lookup_insert_ne by exact Hm; exact Ha|].
  exists q.
  split; [fields; rewrite !list_lookup_alter_ne by exact Hr; exact Hq|].
  split; [exact Hmsg|]. split; [exact He|].
  rewrite (scheduled_snoc r r' w) by reflexivity.
  rewrite decide_False by exact Hr. lia.
Qed.

Lemma abort_all_spec keys err w :
  wf w ->
  NoDup keys ->
  (forall m,
     fc_pending (w_client (abort_all keys err w)) !! m
     = if decide (m ∈ keys) then None else fc_pending (w_client w) !! m) /\
  (forall m r,
     m ∈ keys -> fc_pending (w_client w) !! m = Some r ->
     aborted_with err m r (abort_all keys err w)) /\
  (forall m r,
     aborted_with err m r w -> aborted_with err m r (abort_all keys err w)).
Proof.
  intros Hwf Hnd. revert w Hwf.
  induction Hnd as [|k keys Hk Hnd IH]; intros w Hwf.
  - cbn [abort_all]. split; [|split].
    + intros m. rewrite decide_False by apply not_elem_of_nil. reflexivity.
    + intros m r Hin. apply elem_of_nil in Hin. contradiction.
    + auto.
  - cbn [abort_all].
    destruct (fc_pending (w_client w) !! k) as [r0|] eqn:Hpk.
    + destruct (wf_pending w Hwf _ _ Hpk) as (q0 & Hq0 & Hmsg0 & _).
      rewrite Hq0.
      set (w1 := aborted_by r0 (frq_msgid q0) (frq_rpcmethod q0) (Some err) w).
      assert (wf w1) as Hwf1.
      { subst w1. rewrite Hmsg0. apply wf_aborted_by; assumption. }
      destruct (IH w1 Hwf1) as (IH1 & IH2 & IH3).
      assert (forall m, m <> k ->
                fc_pending (w_client w1) !! m = fc_pending (w_client w) !! m)
        as Hother.
      { intros m Hm. subst w1. fields. rewrite Hmsg0.
        apply lookup_delete_ne. congruence. }
      split; [|split].
      * intros m. rewrite IH1. destruct (decide (m = k)) as [->|Hm].
        -- rewrite decide_False by exact Hk.
           rewrite decide_True by apply list_elem_of_here.
           subst w1. fields. rewrite Hmsg0. apply lookup_delete_eq.
        -- rewrite Hother by exact Hm.
           destruct (decide (m ∈ keys)) as [Hin|Hin].
           ++ rewrite decide_True by (apply list_elem_of_further; exact Hin).
              reflexivity.
           ++ rewrite decide_False; [reflexivity|].
              intros Hc. apply elem_of_cons in Hc as [Hc|Hc]; contradiction.
      * intros m r Hin Hm. apply elem_of_cons in Hin as [->|Hin].
        -- apply IH3. assert (r = r0) by congruence. subst r.
           subst w1. rewrite Hmsg0. apply aborted_by_establishes; assumption.
        -- apply IH2; [exact Hin|].
           rewrite Hother; [exact Hm|]. intros ->. contradiction.
      * intros m r Hab. apply IH3. subst w1. rewrite Hmsg0.
        apply aborted_with_stable; assumption.
    + destruct (IH w Hwf) as (IH1 & IH2 & IH3).
      split; [|split].
      * intros m. rewrite IH1. destruct (decide (m = k)) as [->|Hm].
        -- rewrite decide_False by exact Hk.
           rewrite decide_True by apply list_elem_of_here. exact Hpk.
        -- destruct (decide (m ∈ keys)) as [Hin|Hin].
           ++ rewrite decide_True by (apply list_elem_of_further; exact Hin).
              reflexivity.
           ++ rewrite decide_False; [reflexivity|].
              intros Hc. apply elem_of_cons in Hc as [Hc|Hc]; contradiction.
      * intros m r Hin Hm. apply elem_of_cons in Hin as [->|Hin].
        -- congruence.
        -- apply IH2; assumption.
      * exact IH3.
Qed.


(** In the scenario 'server responds with wrong msgid' the request is
    failed by the first fatal error; the cause of its error is the
    'RequestAbortedError' wrapper of [requestAbort], as in C2, and the
    protocol error is the cause of that wrapper. *)
Lemma unknown_msgid_cause_is_wrapped :
  let w := history 10 true
             (test_client ++
              [DecoderMessage (reply 47 FP_STATUS_END (JArr [dummyValue]));
               Immediate]) in
  exists e a,
    delivered_error w 0 = Some e /\
    ve_cause e = Some a /\
    ve_name a = "RequestAbortedError" /\
    ve_cause a = Some (unknown_msgid_error 47).
Proof.
  eexists. eexists. split; [vm_compute; reflexivity|].
  repeat split; vm_compute; reflexivity.
Qed.




(** ** One terminal event per request *)

(** *** Streams only grow *)







(** *** What running the queued callbacks delivers *)


(** *** Terminal events *)




Lemma history_app nRecentRequests checks actions more :
  history nRecentRequests checks (actions ++ more)
  = run more (history nRecentRequests checks actions).
Proof. unfold history, run. apply fold_left_app. Qed.





(** * Further properties of the client *)

(** ** Invariants of whole histories *)

(** *** The client's 'error' event *)

Lemma requestAbortAll_keeps_fatal_view err :
  keeps fatal_view (requestAbortAll err).
Proof. unfold requestAbortAll, update_request. keeps_auto. Qed.

Lemma fatalError_view err w :
  fatal_view (snd (fatalError err w))
  = match fc_error (w_client w) with
    | Some e0 =>
        (Some e0, w_emitted w, w_logged w ++ [err], S (fc_nerrors (w_client w)))
    | None =>
        (Some err, w_emitted w ++ [err], w_logged w ++ [err],
         S (fc_nerrors (w_client w)))
    end.
Proof.
  unfold fatalError.
  unfold bind at 1, modify at 1. unfold bind at 1, modify at 1.
  unfold bind at 1, get at 1. fields.
  destruct (fc_error (w_client w)) as [e0|] eqn:E.
  - unfold ret, fatal_view. fields. rewrite E. reflexivity.
  - unfold bind at 1, modify at 1. unfold bind at 1, modify at 1.
    rewrite requestAbortAll_keeps_fatal_view. reflexivity.
Qed.

Lemma fatalError_preserves_view err : preserves fatal_view_ok (fatalError err).
Proof.
  intros w (H1 & H2 & H3).
  pose proof (fatalError_view err w) as Hv. unfold fatal_view in Hv.
  unfold fatal_view_ok.
  destruct (fc_error (w_client w)) as [e0|] eqn:E;
    injection Hv as He Hm Hl Hn; rewrite He, Hm, Hl, Hn.
  - destruct (w_logged w) as [|x l]; [discriminate|].
    cbn in *. repeat split; try assumption. rewrite length_app. cbn. lia.
  - destruct (w_logged w) as [|x l]; [|discriminate].
    cbn in *. rewrite H2. repeat split. lia.
Qed.

(** Decompose a computation, stopping at [fatalError]. *)
Ltac view_step :=
  first
    [ apply fatalError_preserves_view
    | apply preserves_ret | apply preserves_throw | apply preserves_get
    | apply preserves_lift | apply preserves_assert_ok | apply preserves_deref
    | apply (preserves_keeps fatal_view_ok fatal_view);
      [ unfold fatal_view, fatal_view_ok;
        intros ? ? [= -> -> -> ->] ?; assumption
      | solve [ unfold requestComplete, requestFail, requestAbort,
                  requestAbortAll, update_request, allocMessageId,
                  alloc_request, push_each, transport_removeListener,
                  transport_set_piped;
                keeps_auto ] ]
    | apply preserves_bind; [| intros ?]
    | apply preserves_for_each; intros ?
    | match goal with
      | |- preserves _ (if ?b then _ else _) => destruct b
      | |- preserves _ (match ?x with _ => _ end) => destruct x
      end ].

Lemma perform_preserves_view a : preserves fatal_view_ok (perform a).
Proof.
  destruct a; cbn [perform];
    unfold rpc, request_abort, detach, onMessage, transport_emit,
      invoke_listener, onTransportEnd, onTransportError, run_immediate;
    repeat view_step.
Qed.

(** X1. The client emits its 'error' event at most once: in every state a
    client can reach, the recorded error [fc_error] is the first fatal
    error that was raised, the emitted events are that one error (or none),
    and [fc_nerrors] counts all fatal errors raised, the later ones having
    been logged only. *)
Theorem client_error_emitted_once (nRecentRequests : Z) (checks : bool)
    (actions : list action) :
  let w := history nRecentRequests checks actions in
  fc_error (w_client w) = head (w_logged w) /\
  w_emitted w = take 1 (w_logged w) /\
  fc_nerrors (w_client w) = length (w_logged w) /\
  (length (w_emitted w) <= 1)%nat.
Proof.
  intros w.
  assert (fatal_view_ok w) as (H1 & H2 & H3).
  { subst w. unfold history.
    apply preserves_run; [apply perform_preserves_view|].
    unfold new_FastClient. rewrite attach_run. repeat split. }
  split; [exact H1|]. split; [exact H2|]. split; [exact H3|].
  rewrite H2, length_take. lia.
Qed.

(** *** The list of recent requests *)

Lemma length_tail {A : Type} (l : list A) : length (tail l) = (length l - 1)%nat.
Proof. destruct l; cbn; lia. Qed.

Lemma requestComplete_preserves_recent n r :
  preserves (recent_ok n) (requestComplete r).
Proof.
  intros w [Hn Hlen]. unfold requestComplete. plumbing.
  destruct (w_heap w !! r) as [q|]; [|split; assumption].
  destruct (negb (requestIsPending q)); [|split; assumption].
  destruct (bool_decide (fc_pending (w_client w) !! frq_msgid q = Some r));
    [|split; assumption].
  fields. rewrite length_app. cbn [length].
  destruct (Z.of_nat (length (fc_recentrpc (w_client w)) + 1)
            >? fc_nrecent (w_client w)) eqn:E; unfold recent_ok, upd_client; fields.
  - split; [exact Hn|].
    rewrite length_tail, length_app. cbn [length].
    rewrite Z.gtb_ltb in E. apply Z.ltb_lt in E. lia.
  - split; [exact Hn|]. rewrite length_app. cbn [length].
    rewrite Z.gtb_ltb in E. apply Z.ltb_ge in E. lia.
Qed.

Ltac recent_step n :=
  first
    [ apply requestComplete_preserves_recent
    | apply preserves_ret | apply preserves_throw | apply preserves_get
    | apply preserves_lift | apply preserves_assert_ok | apply preserves_deref
    | apply preserves_modify; intros ? ?; assumption
    | apply preserves_bind; [| intros ?]
    | apply preserves_for_each; intros ?
    | match goal with
      | |- preserves _ (if ?b then _ else _) => destruct b
      | |- preserves _ (match ?x with _ => _ end) => destruct x
      end ].

Lemma perform_preserves_recent n a : preserves (recent_ok n) (perform a).
Proof.
  destruct a; cbn [perform];
    unfold rpc, request_abort, detach, onMessage, transport_emit,
      invoke_listener, onTransportEnd, onTransportError, run_immediate,
      requestFail, requestAbort, requestAbortAll, fatalError, push_each,
      update_request, allocMessageId, transport_removeListener,
      transport_set_piped;
    repeat recent_step n.
Qed.

(** X2. The client remembers the requests it completed most recently, and no
    more of them than it was configured for: after any history of a client
    created with [nRecentRequests], the list [fc_recentrpc] holds exactly
    [min (fc_nrpc_done, nRecentRequests)] requests (none when the
    configured number is not positive). *)
Theorem recent_requests_bounded (nRecentRequests : Z) (checks : bool)
    (actions : list action) :
  let w := history nRecentRequests checks actions in
  fc_nrecent (w_client w) = nRecentRequests /\
  length (fc_recentrpc (w_client w)) =
    Nat.min (fc_nrpc_done (w_client w)) (Z.to_nat nRecentRequests).
Proof.
  intros w. subst w. unfold history.
  apply (preserves_run (recent_ok nRecentRequests));
    [apply perform_preserves_recent|].
  split; reflexivity.
Qed.

(** *** Aborting twice *)

Lemma aborted_by_heap r m meth e w q :
  w_heap w !! r = Some q ->
  w_heap (aborted_by r m meth e w) !! r
  = Some (set_frq_error (Some (request_error m meth (abort_error e)))
            (set_frq_aborted true q)).
Proof. intros Hq. heap_lookup Hq. reflexivity. Qed.

Lemma requestAbort_not_pending r q e w :
  w_heap w !! r = Some q ->
  requestIsPending q = false ->
  requestAbort r e w = (Ok tt, w).
Proof.
  intros Hq Hp. unfold requestAbort. plumbing. rewrite Hq, Hp. reflexivity.
Qed.

(** X3. Aborting a request is idempotent.  Whatever the state of the client
    and of the request, a second [requestAbort] of the same request (with
    the same or another cause) changes nothing, and it returns normally
    whenever the first one did: the first abort leaves the request with
    its error set, so that the second finds it no longer pending. *)
Theorem requestAbort_idempotent (r : reqref) (e1 e2 : option VError)
    (w : World) :
  let w1 := snd (requestAbort r e1 w) in
  snd (requestAbort r e2 w1) = w1 /\
  (fst (requestAbort r e1 w) = Ok tt -> fst (requestAbort r e2 w1) = Ok tt).
Proof.
  intros w1. subst w1.
  destruct (w_heap w !! r) as [q|] eqn:Hq.
  - destruct (requestIsPending q) eqn:Hp.
    + destruct (decide (fc_pending (w_client w) !! frq_msgid q = Some r))
        as [Hm|Hm].
      * rewrite (requestAbort_run r q e1 w Hq Hp Hm). cbn [fst snd].
        erewrite requestAbort_not_pending;
          [ split; reflexivity
          | apply aborted_by_heap; exact Hq
          | eapply requestIsPending_error; reflexivity ].
      * assert (forall e, requestAbort r e w
                = (Throw (AssertionError "request is not in fc_pending"), w))
          as Hrun.
        { intros e. unfold requestAbort. plumbing. rewrite Hq, Hp.
          cbn [negb]. rewrite bool_decide_eq_false_2 by exact Hm.
          reflexivity. }
        rewrite Hrun. cbn [fst snd]. rewrite Hrun. split; [reflexivity|].
        discriminate.
    + rewrite (requestAbort_not_pending r q e1 w Hq Hp). cbn [fst snd].
      rewrite (requestAbort_not_pending r q e2 w Hq Hp). split; reflexivity.
  - assert (forall e, snd (requestAbort r e w) = w /\
                      fst (requestAbort r e w) <> Ok tt) as Hrun.
    { intros e. unfold requestAbort. plumbing. rewrite Hq.
      split; [reflexivity | discriminate]. }
    rewrite (proj1 (Hrun e1)), (proj1 (Hrun e2)). split; [reflexivity|].
    intros H. destruct (proj2 (Hrun e1) H).
Qed.

(** *** The request tables *)

(** X4. The client's bookkeeping is consistent after every history: the
    requests started are those completed plus those in [fc_pending]; a
    request filed in [fc_pending] under an identifier carries that
    identifier, is still pending and is not flagged as aborted; a request
    filed in [fc_aborted] carries its identifier, is flagged as aborted and
    did not end gracefully; no request object is filed under two
    identifiers of [fc_pending], and none is in both tables. *)
Theorem request_tables_consistent (nRecentRequests : Z) (checks : bool)
    (actions : list action) :
  let w := history nRecentRequests checks actions in
  let c := w_client w in
  fc_nrpc_started c = (fc_nrpc_done c + size (fc_pending c))%nat /\
  (forall m r, fc_pending c !! m = Some r ->
     exists q, w_heap w !! r = Some q /\ frq_msgid q = m /\
               requestIsPending q = true /\ frq_aborted q = false) /\
  (forall m r, fc_aborted c !! m = Some r ->
     exists q, w_heap w !! r = Some q /\ frq_msgid q = m /\
               frq_aborted q = true /\ frq_done_graceful q = false) /\
  (forall m m' r,
     fc_pending c !! m = Some r -> fc_pending c !! m' = Some r -> m = m') /\
  (forall m m' r,
     fc_pending c !! m = Some r -> fc_aborted c !! m' = Some r -> False).
Proof.
  intros w c. subst c.
  assert (wf w) as Hwf by apply history_wf.
  split; [apply (wf_count w Hwf)|].
  split; [apply (wf_pending w Hwf)|].
  split; [apply (wf_aborted w Hwf)|].
  split.
  - intros m m' r H1 H2. exact (wf_pending_inj w m m' r Hwf H1 H2).
  - intros m m' r H1 H2. exact (wf_pending_not_aborted w m m' r Hwf H1 H2).
Qed.

(** *** The transport's listeners *)

Lemma listeners_ok_view w w' :
  listener_view w' = listener_view w -> listeners_ok w -> listeners_ok w'.
Proof.
  unfold listener_view, listeners_ok. intros Hv (H1 & H2 & H3).
  injection Hv as Hd He Hr Hl. rewrite Hd, He, Hr, Hl. auto.
Qed.

Lemma detach_preserves_listeners : preserves listeners_ok detach.
Proof.
  intros w H. destruct (fc_detached (w_client w)) eqn:Hd.
  - rewrite detach_idempotent by exact Hd. exact H.
  - destruct H as (He & Hr & Hl). rewrite Hd in Hl. cbn [app] in Hl.
    unfold detach. unfold bind at 1, get at 1. rewrite Hd, He, Hr.
    unfold bind at 1, modify at 1.
    unfold transport_removeListener at 1. unfold bind at 1, modify at 1.
    match goal with
    | |- listeners_ok (snd (bind _ _ ?w2)) =>
        assert (listeners_ok w2) as H2
    end.
    { unfold listeners_ok. fields. rewrite Hl.
      split; [exact He|]. split; [exact Hr|]. reflexivity. }
    revert H2. apply preserves_bind.
    + unfold transport_removeListener. plumbing.
      intros w2 H2. destruct (tr_checks_listener (w_transport w2)); exact H2.
    + intros _.
      apply (preserves_keeps listeners_ok listener_view);
        [apply listeners_ok_view|].
      unfold transport_set_piped. keeps_auto.
Qed.

Lemma perform_preserves_listeners a : preserves listeners_ok (perform a).
Proof.
  assert (a = CallDetach \/ a <> CallDetach) as [->|Ha]
    by (destruct a; first [left; reflexivity | right; discriminate]).
  - apply detach_preserves_listeners.
  - apply (preserves_keeps listeners_ok listener_view);
      [apply listeners_ok_view|].
    destruct a; cbn [perform]; try contradiction;
      unfold rpc, alloc_request, allocMessageId, request_abort,
        requestAbort, onMessage, push_each, fatalError, transport_emit,
        invoke_listener, onTransportEnd, onTransportError, run_immediate,
        update_request;
      keeps_auto.
Qed.

Lemma history_listeners nRecentRequests checks actions :
  listeners_ok (history nRecentRequests checks actions).
Proof.
  unfold history. apply preserves_run; [apply perform_preserves_listeners|].
  unfold new_FastClient. rewrite attach_run. repeat split.
Qed.

Lemma emit_error_run err w :
  filter (fun p : string * listener => p.1 = "error")
    (tr_listeners (w_transport w))
  = [("error", OnTransportError)] ->
  snd (transport_emit "error" (Some err) w)
  = snd (fatalError (transport_error err) w).
Proof.
  intros Hl. unfold transport_emit. unfold bind at 1, get at 1. rewrite Hl.
  cbn [for_each invoke_listener snd default from_option id]. unfold onTransportError.
  fold (transport_error err). unfold bind, ret.
  destruct (fatalError (transport_error err) w) as [[[]|e] w']; reflexivity.
Qed.

(** X5. An error of the transport is always fatal to the client, also after
    [detach]: in every history the listener for the transport's 'error'
    event is still registered (the one for 'end' is registered exactly while
    the client is not detached), so that an 'error' event runs [fatalError]
    with a [TransportError] that wraps the transport's error; the error is
    logged and counted. *)
Theorem transport_error_is_fatal (nRecentRequests : Z) (checks : bool)
    (actions : list action) (err : VError) :
  let w := history nRecentRequests checks actions in
  let w' := step w (TransportError err) in
  tr_listeners (w_transport w)
  = (if fc_detached (w_client w) then [] else [("end", OnTransportEnd)])
    ++ [("error", OnTransportError)] /\
  w' = fatal (transport_error err) w /\
  ve_name (transport_error err) = "TransportError" /\
  ve_message (transport_error err)
  = "unexpected error on transport: " +:+ ve_message err /\
  ve_cause (transport_error err) = Some err /\
  w_logged w' = w_logged w ++ [transport_error err] /\
  fc_nerrors (w_client w') = S (fc_nerrors (w_client w)).
Proof.
  intros w w'.
  destruct (history_listeners nRecentRequests checks actions)
    as (He & Hr & Hl). fold w in He, Hr, Hl.
  assert (w' = fatal (transport_error err) w) as Hw'.
  { subst w'. unfold step. cbn [perform]. rewrite emit_error_run.
    - rewrite fatalError_run by apply history_wf. reflexivity.
    - rewrite Hl. destruct (fc_detached (w_client w)); reflexivity. }
  split; [exact Hl|]. split; [exact Hw'|].
  split; [reflexivity|]. split; [reflexivity|]. split; [reflexivity|].
  rewrite Hw'. split; [apply fatal_logged | apply fatal_nerrors].
Qed.

(** X6. After [detach] the end of the transport is no longer the client's
    business: in every history in which the client is detached, no listener
    for the transport's 'end' event is left, and the event changes nothing
    in the client (in particular [fc_transport_ended] is not set and no
    error is raised). *)
Theorem transport_end_ignored_after_detach (nRecentRequests : Z)
    (checks : bool) (actions : list action) :
  let w := history nRecentRequests checks actions in
  fc_detached (w_client w) = true ->
  filter (fun p : string * listener => p.1 = "end")
    (tr_listeners (w_transport w)) = [] /\
  perform TransportEnd w = (Ok tt, w).
Proof.
  intros w Hd.
  destruct (history_listeners nRecentRequests checks actions)
    as (_ & _ & Hl). fold w in Hl. rewrite Hd in Hl. cbn [app] in Hl.
  assert (filter (fun p : string * listener => p.1 = "end")
            (tr_listeners (w_transport w)) = []) as Hf
    by (rewrite Hl; reflexivity).
  split; [exact Hf|].
  cbn [perform]. unfold transport_emit. unfold bind at 1, get at 1.
  rewrite Hf. reflexivity.
Qed.

Lemma transport_end_ignored_after_detach_witness :
  let w := history 10 false [CallRpc "echo" []; CallDetach] in
  fc_detached (w_client w) = true /\ perform TransportEnd w = (Ok tt, w).
Proof.
  split; [reflexivity|].
  apply (transport_end_ignored_after_detach 10 false
           [CallRpc "echo" []; CallDetach]).
  reflexivity.
Defined.

(** *** Issuing a request *)

Lemma rpc_run rpcmethod rpcargs w :
  rpc rpcmethod rpcargs w
  = match fc_pending (w_client w) !! next_msgid (msgid_of w) with
    | Some _ =>
        (Throw (AssertionError "msgid is already pending"),
         allocated rpcmethod rpcargs w)
    | None =>
        if closed w then
          (Ok (length (w_heap w)),
           failed (length (w_heap w)) (next_msgid (msgid_of w)) rpcmethod
             transport_detached_error
             (upd_heap (alter (set_frq_skip true) (length (w_heap w)))
                (registered rpcmethod rpcargs w)))
        else
          (Ok (length (w_heap w)),
           encoder_write
             (rpc_message (next_msgid (msgid_of w)) rpcmethod rpcargs)
             (registered rpcmethod rpcargs w))
    end.
Proof.
  unfold rpc. unfold bind at 1. rewrite allocMessageId_run.
  set (m := next_msgid (msgid_of w)).
  set (q := new_FastRpcRequest m rpcmethod rpcargs).
  set (r := length (w_heap w)).
  unfold bind at 1. unfold alloc_request at 1. fields. fold r. fold q.
  change (upd_heap (fun h => h ++ [q]) (upd_client (set_fc_msgid m) w))
    with (allocated rpcmethod rpcargs w).
  set (w1 := allocated rpcmethod rpcargs w).
  assert (w_heap w1 !! r = Some q) as Hq.
  { subst w1 r. unfold allocated. fields. apply list_lookup_middle.
    reflexivity. }
  unfold bind at 1, get at 1. unfold bind at 1.
  change (fc_pending (w_client w1)) with (fc_pending (w_client w)).
  destruct (fc_pending (w_client w) !! m) as [r0|] eqn:Hfree.
  - rewrite bool_decide_eq_false_2 by discriminate. reflexivity.
  - rewrite bool_decide_eq_true_2 by reflexivity.
    unfold assert_ok, ret at 1.
    unfold bind at 1, modify at 1. unfold bind at 1, modify at 1.
    change (upd_client _ (upd_client _ w1))
      with (registered rpcmethod rpcargs w).
    set (w2 := registered rpcmethod rpcargs w).
    assert (fc_pending (w_client w2) !! m = Some r) as Hp2.
    { subst w2. unfold registered. fields. apply lookup_insert_eq. }
    assert (w_heap w2 !! r = Some q) as Hq2 by exact Hq.
    unfold bind at 1, get at 1.
    change (fc_detached (w_client w2) || fc_transport_ended (w_client w2))
      with (closed w).
    destruct (closed w).
    + unfold bind at 1, update_request at 1, modify at 1.
      unfold bind at 1.
      erewrite requestFail_run; cycle 1.
      * heap_lookup Hq2. reflexivity.
      * reflexivity.
      * exact Hp2.
      * reflexivity.
    + reflexivity.
Qed.

Lemma step_rpc rpcmethod rpcargs w :
  step w (CallRpc rpcmethod rpcargs) = snd (rpc rpcmethod rpcargs w).
Proof.
  unfold step. cbn [perform]. unfold bind, ret.
  destruct (rpc rpcmethod rpcargs w) as [[r|e] w']; reflexivity.
Qed.

Lemma registered_heap rpcmethod rpcargs w :
  w_heap (registered rpcmethod rpcargs w) !! length (w_heap w)
  = Some (new_FastRpcRequest (next_msgid (msgid_of w)) rpcmethod rpcargs).
Proof.
  unfold registered, allocated. fields. apply list_lookup_middle. reflexivity.
Qed.

(** X7. A request issued while the client is detached, or after its
    transport has ended, fails without touching the transport: [rpc] still
    allocates an identifier and returns a new request object, and counts the
    request as started and as completed, but it writes nothing to the
    encoder, leaves [fc_pending] as it was, marks the request as skipped and
    stores an error named [TransportError] whose cause says 'transport
    detached'.  The error is not emitted during the call: its delivery is
    scheduled, and the next turn of the event loop emits it on the
    request. *)
Theorem rpc_on_closed_transport (rpcmethod : string) (rpcargs : list jsval)
    (w : World) :
  closed w = true ->
  fc_pending (w_client w) !! next_msgid (msgid_of w) = None ->
  let m := next_msgid (msgid_of w) in
  let r := length (w_heap w) in
  let e := request_error m rpcmethod transport_detached_error in
  let w' := step w (CallRpc rpcmethod rpcargs) in
  fst (rpc rpcmethod rpcargs w) = Ok r /\
  w_encoder_written w' = w_encoder_written w /\
  fc_pending (w_client w') = fc_pending (w_client w) /\
  fc_nrpc_started (w_client w') = S (fc_nrpc_started (w_client w)) /\
  fc_nrpc_done (w_client w') = S (fc_nrpc_done (w_client w)) /\
  w_immediates w' = w_immediates w ++ [r] /\
  (exists q, w_heap w' !! r = Some q /\ frq_msgid q = m /\
             frq_rpcmethod q = rpcmethod /\ frq_skip q = true /\
             frq_error q = Some e /\ frq_stream q = []) /\
  ve_name e = "TransportError" /\
  ve_cause e = Some transport_detached_error /\
  ve_message transport_detached_error = "transport detached" /\
  (w_immediates w = [] ->
   stream_of (step w' Immediate) r = [EvError (Some e)]).
Proof.
  intros Hc Hfree m r e w'.
  assert (rpc rpcmethod rpcargs w
          = (Ok r, failed r m rpcmethod transport_detached_error
                     (upd_heap (alter (set_frq_skip true) r)
                        (registered rpcmethod rpcargs w)))) as Hrun.
  { rewrite rpc_run, Hfree, Hc. reflexivity. }
  assert (w_heap w' !! r
          = Some (set_frq_error (Some e)
                    (set_frq_skip true
                       (new_FastRpcRequest m rpcmethod rpcargs)))) as Hq.
  { subst w'. rewrite step_rpc, Hrun. cbn [snd]. fields.
    rewrite !list_lookup_alter_eq.
    pose proof (registered_heap rpcmethod rpcargs w) as Hh.
    fold r m in Hh. rewrite Hh. reflexivity. }
  assert (w_immediates w' = w_immediates w ++ [r]) as Hi.
  { subst w'. rewrite step_rpc, Hrun. reflexivity. }
  split; [rewrite Hrun; reflexivity|].
  split; [subst w'; rewrite step_rpc, Hrun; reflexivity|].
  split.
  { subst w'. rewrite step_rpc, Hrun. cbn [snd]. unfold registered. fields.
    fold m r. rewrite delete_insert_eq. apply delete_id. exact Hfree. }
  split; [subst w'; rewrite step_rpc, Hrun; reflexivity|].
  split; [subst w'; rewrite step_rpc, Hrun; reflexivity|].
  split; [exact Hi|].
  split; [eexists; split; [exact Hq|]; repeat split|].
  split; [reflexivity|]. split; [reflexivity|]. split; [reflexivity|].
  intros Hempty. rewrite Hempty in Hi. cbn [app] in Hi.
  unfold step at 1. cbn [perform].
  rewrite (immediate_run w' r [] _ Hi Hq). cbn [snd].
  unfold stream_of. fields. rewrite list_lookup_alter_eq, Hq. reflexivity.
Qed.

Lemma rpc_on_closed_transport_witness :
  let w := history 10 false [CallDetach] in
  closed w = true /\
  w_encoder_written (step w (CallRpc "echo" [])) = w_encoder_written w.
Proof.
  split; [reflexivity|].
  apply (rpc_on_closed_transport "echo" [] (history 10 false [CallDetach]));
    reflexivity.
Defined.

(** Only [rpc] writes to the encoder. *)
Lemma step_written w a :
  is_rpc a = false -> w_encoder_written (step w a) = w_encoder_written w.
Proof.
  intros Ha. unfold step.
  destruct a; cbn [perform]; try discriminate;
    match goal with
    | |- w_encoder_written (snd (?m w)) = w_encoder_written w =>
        assert (keeps w_encoder_written m) as Hk;
        [ unfold request_abort, requestAbort, detach, onMessage, push_each,
            fatalError, transport_emit, invoke_listener, onTransportEnd,
            onTransportError, run_immediate, update_request,
            transport_removeListener, transport_set_piped;
          keeps_auto
        | apply Hk ]
    end.
Qed.

Lemma run_written actions w :
  Forall (fun a => is_rpc a = false) actions ->
  w_encoder_written (run actions w) = w_encoder_written w.
Proof.
  intros Hall. revert w. induction Hall as [|a actions Ha Hall IH]; intros w.
  - reflexivity.
  - cbn [run fold_left]. fold (run actions (step w a)).
    rewrite IH. apply step_written. exact Ha.
Qed.

Lemma messages_not_rpc msgs :
  Forall (fun a => is_rpc a = false) (map DecoderMessage msgs).
Proof. apply Forall_map. apply Forall_true. intros msg. reflexivity. Qed.

(** *** Responses to a pending request *)

Lemma pushed_ndata items q : frq_ndata (pushed items q) = frq_ndata q.
Proof. reflexivity. Qed.

(** One DATA message for a pending request whose stream is not over; no
    item is null. *)
Lemma data_step_run w m r msg items :
  wf w ->
  fc_pending (w_client w) !! m = Some r ->
  data_message m msg items ->
  has_null items = false ->
  stream_over (stream_of w r) = false ->
  let w' := step w (DecoderMessage msg) in
  fst (onMessage msg w) = Ok tt /\
  wf w' /\
  w_client w' = w_client w /\
  stream_of w' r = stream_of w r ++ map EvData items /\
  ndata_of w' r = S (ndata_of w r) /\
  w_immediates w' = w_immediates w /\
  w_logged w' = w_logged w /\
  w_emitted w' = w_emitted w.
Proof.
  intros Hwf Hp (Hm & Hst & Hd) Hnull Hover w'. subst m.
  destruct (wf_pending w Hwf _ _ Hp) as (q & Hq & _).
  assert (wf w') as Hwf' by (apply onMessage_wf; exact Hwf).
  subst w'. rewrite step_message in *.
  rewrite (onMessage_pending_data_run msg w r q items Hwf Hp Hq Hst Hd) in *.
  cbn [fst snd] in *.
  split; [reflexivity|]. split; [exact Hwf'|]. split; [reflexivity|].
  unfold stream_of, ndata_of in *. fields.
  rewrite !list_lookup_alter_eq, Hq. cbn [fmap option_fmap option_map].
  rewrite Hq in Hover.
  rewrite pushed_stream, pushed_ndata by (exact Hnull || exact Hover).
  repeat split.
Qed.

(** A run of such DATA messages. *)
Lemma data_run msgs batches w m r :
  wf w ->
  fc_pending (w_client w) !! m = Some r ->
  Forall2 (data_message m) msgs batches ->
  Forall (fun items => has_null items = false) batches ->
  stream_over (stream_of w r) = false ->
  let w' := run (map DecoderMessage msgs) w in
  wf w' /\
  w_client w' = w_client w /\
  stream_of w' r = stream_of w r ++ map EvData (concat batches) /\
  ndata_of w' r = (ndata_of w r + length msgs)%nat /\
  w_immediates w' = w_immediates w /\
  w_logged w' = w_logged w /\
  w_emitted w' = w_emitted w.
Proof.
  intros Hwf Hp Hall. revert w Hwf Hp.
  induction Hall as [|msg items msgs batches Hmsg Hall IH];
    intros w Hwf Hp Hnull Hover.
  - cbn. rewrite app_nil_r, Nat.add_0_r. split; [exact Hwf|]. repeat split.
  - cbn [map run fold_left concat length].
    apply Forall_cons in Hnull as [Hnull1 Hnull].
    destruct (data_step_run w m r msg items Hwf Hp Hmsg Hnull1 Hover)
      as (_ & Hwf1 & Hc1 & Hs1 & Hn1 & Hi1 & Hl1 & He1).
    specialize (IH (step w (DecoderMessage msg)) Hwf1).
    rewrite Hc1 in IH. specialize (IH Hp Hnull).
    destruct IH as (Hwf2 & Hc2 & Hs2 & Hn2 & Hi2 & Hl2 & He2).
    { rewrite Hs1, stream_over_app, Hover, stream_over_data. reflexivity. }
    fold (run (map DecoderMessage msgs) (step w (DecoderMessage msg))).
    split; [exact Hwf2|]. split; [exact Hc2|].
    split; [rewrite Hs2, Hs1, map_app, app_assoc; reflexivity|].
    split; [rewrite Hn2, Hn1; lia|].
    split; [congruence|]. split; congruence.
Qed.

(** X8. DATA messages for a pending request are delivered in order: after
    any history, a run of DATA messages for a request that is in
    [fc_pending] and whose stream has neither ended nor failed, each
    carrying an array without a null item, appends the elements of the
    arrays to the request's stream, message by message and element by
    element; [frq_ndata] counts the messages; the request stays pending, the
    client's tables and counters are untouched, and no error is raised,
    logged or scheduled. *)
Theorem data_messages_delivered_in_order (nRecentRequests : Z)
    (checks : bool) (actions : list action) (m : Z) (r : reqref)
    (msgs : list message) (batches : list (list jsval)) :
  let w := history nRecentRequests checks actions in
  fc_pending (w_client w) !! m = Some r ->
  stream_over (stream_of w r) = false ->
  Forall2 (data_message m) msgs batches ->
  Forall (fun items => has_null items = false) batches ->
  let w' := run (map DecoderMessage msgs) w in
  stream_of w' r = stream_of w r ++ map EvData (concat batches) /\
  ndata_of w' r = (ndata_of w r + length msgs)%nat /\
  w_client w' = w_client w /\
  fc_pending (w_client w') !! m = Some r /\
  w_immediates w' = w_immediates w /\
  w_logged w' = w_logged w /\
  w_emitted w' = w_emitted w.
Proof.
  intros w Hp Hover Hall Hnull w'.
  destruct (data_run msgs batches w m r (history_wf _ _ _) Hp Hall Hnull Hover)
    as (_ & Hc & Hs & Hn & Hi & Hl & He).
  fold w' in Hc, Hs, Hn, Hi, Hl, He.
  split; [exact Hs|]. split; [exact Hn|]. split; [exact Hc|].
  split; [rewrite Hc; exact Hp|]. split; [exact Hi|]. split; assumption.
Qed.

Lemma data_messages_delivered_in_order_witness :
  let w := history 10 true [CallRpc "echo" []] in
  let w' :=
    run (map DecoderMessage
           [reply 1 FP_STATUS_DATA (JArr [JNum 1; JNum 2]);
            reply 1 FP_STATUS_DATA (JArr [JNum 3])]) w in
  stream_of w' 0%nat = [EvData (JNum 1); EvData (JNum 2); EvData (JNum 3)].
Proof.
  apply (data_messages_delivered_in_order 10 true [CallRpc "echo" []] 1 0%nat
           [reply 1 FP_STATUS_DATA (JArr [JNum 1; JNum 2]);
            reply 1 FP_STATUS_DATA (JArr [JNum 3])]
           [[JNum 1; JNum 2]; [JNum 3]]).
  - reflexivity.
  - reflexivity.
  - repeat constructor.
  - repeat constructor.
Defined.

(** One END message for a pending request. *)
Lemma end_step_run w m r msg :
  wf w ->
  fc_pending (w_client w) !! m = Some r ->
  msg_msgid msg = m ->
  msg_status msg = FP_STATUS_END ->
  let w' := step w (DecoderMessage msg) in
  fst (onMessage msg w) = Ok tt /\
  wf w' /\
  stream_of w' r
  = (if stream_over (stream_of w r) then stream_of w r
     else stream_of w r ++ [EvEnd]) /\
  fc_pending (w_client w') = delete m (fc_pending (w_client w)) /\
  fc_aborted (w_client w') = fc_aborted (w_client w) /\
  fc_nrpc_started (w_client w') = fc_nrpc_started (w_client w) /\
  fc_nrpc_done (w_client w') = S (fc_nrpc_done (w_client w)) /\
  fc_error (w_client w') = fc_error (w_client w) /\
  fc_nerrors (w_client w') = fc_nerrors (w_client w) /\
  w_immediates w' = w_immediates w /\
  w_logged w' = w_logged w /\
  w_emitted w' = w_emitted w.
Proof.
  intros Hwf Hp Hm Hst w'. subst m.
  destruct (wf_pending w Hwf _ _ Hp) as (q & Hq & Hid & _).
  assert (wf w') as Hwf' by (apply onMessage_wf; exact Hwf).
  subst w'. rewrite step_message in *.
  rewrite (onMessage_pending_end_run msg w r q Hwf Hp Hq Hst) in *.
  cbn [fst snd] in *.
  split; [reflexivity|]. split; [exact Hwf'|].
  split.
  { unfold stream_of. fields. rewrite !list_lookup_alter_eq, Hq.
    cbn [fmap option_fmap option_map]. unfold stream_end. fields.
    destruct (stream_over (frq_stream q)); reflexivity. }
  split; [fields; rewrite Hid; reflexivity|].
  repeat split.
Qed.

(** X9. A request and its response.  On a client that may still write to
    its transport, [rpc] allocates the next message identifier, files the
    new request in [fc_pending] and writes one DATA message that names the
    method and carries the arguments.  When the server then answers with
    DATA messages, none with a null item, and an END message under that
    identifier, the request's stream delivers the values of the DATA
    messages in order and then ends;
    the request is counted as completed and has left [fc_pending], and
    nothing has been logged or scheduled. *)
Theorem rpc_round_trip (nRecentRequests : Z) (checks : bool)
    (actions : list action) (rpcmethod : string) (rpcargs : list jsval)
    (msgs : list message) (batches : list (list jsval))
    (end_msg : message) :
  let w := history nRecentRequests checks actions in
  let m := next_msgid (msgid_of w) in
  let r := length (w_heap w) in
  closed w = false ->
  fc_pending (w_client w) !! m = None ->
  Forall2 (data_message m) msgs batches ->
  Forall (fun items => has_null items = false) batches ->
  msg_msgid end_msg = m ->
  msg_status end_msg = FP_STATUS_END ->
  let w1 := step w (CallRpc rpcmethod rpcargs) in
  let w2 := run (map DecoderMessage msgs) w1 in
  let w3 := step w2 (DecoderMessage end_msg) in
  fst (rpc rpcmethod rpcargs w) = Ok r /\
  w_encoder_written w1
  = w_encoder_written w ++ [rpc_message m rpcmethod rpcargs] /\
  fc_pending (w_client w1) = <[m := r]> (fc_pending (w_client w)) /\
  stream_of w1 r = [] /\
  stream_of w2 r = map EvData (concat batches) /\
  stream_of w3 r = map EvData (concat batches) ++ [EvEnd] /\
  fc_pending (w_client w3) = fc_pending (w_client w) /\
  fc_nrpc_started (w_client w3) = S (fc_nrpc_started (w_client w)) /\
  fc_nrpc_done (w_client w3) = S (fc_nrpc_done (w_client w)) /\
  w_encoder_written w3 = w_encoder_written w1 /\
  w_immediates w3 = w_immediates w /\
  w_logged w3 = w_logged w.
Proof.
  intros w m r Hc Hfree Hall Hnull Hm Hst w1 w2 w3.
  assert (wf w) as Hwf by apply history_wf.
  assert (rpc rpcmethod rpcargs w
          = (Ok r, encoder_write (rpc_message m rpcmethod rpcargs)
                     (registered rpcmethod rpcargs w))) as Hrun.
  { rewrite rpc_run. fold m. rewrite Hfree, Hc. reflexivity. }
  assert (w1 = encoder_write (rpc_message m rpcmethod rpcargs)
                 (registered rpcmethod rpcargs w)) as Hw1.
  { subst w1. rewrite step_rpc, Hrun. reflexivity. }
  assert (wf w1) as Hwf1.
  { subst w1. rewrite step_rpc. apply rpc_wf. exact Hwf. }
  assert (fc_pending (w_client w1) = <[m := r]> (fc_pending (w_client w)))
    as Hp1 by (rewrite Hw1; reflexivity).
  assert (fc_pending (w_client w1) !! m = Some r) as Hp1m
    by (rewrite Hp1; apply lookup_insert_eq).
  assert (stream_of w1 r = []) as Hs1.
  { rewrite Hw1. unfold stream_of. fields.
    pose proof (registered_heap rpcmethod rpcargs w) as Hh.
    fold r in Hh. rewrite Hh. reflexivity. }
  destruct (data_run msgs batches w1 m r Hwf1 Hp1m Hall Hnull)
    as (Hwf2 & Hc2 & Hs2 & _ & Hi2 & Hl2 & _).
  { rewrite Hs1. reflexivity. }
  fold w2 in Hwf2, Hc2, Hs2, Hi2, Hl2.
  assert (fc_pending (w_client w2) !! m = Some r) as Hp2m
    by (rewrite Hc2; exact Hp1m).
  destruct (end_step_run w2 m r end_msg Hwf2 Hp2m Hm Hst)
    as (_ & _ & Hs3 & Hp3 & _ & Hn3 & Hd3 & _ & _ & Hi3 & Hl3 & _).
  fold w3 in Hs3, Hp3, Hn3, Hd3, Hi3, Hl3.
  rewrite Hs1 in Hs2. cbn [app] in Hs2.
  rewrite Hs2, stream_over_data in Hs3.
  split; [rewrite Hrun; reflexivity|].
  split; [rewrite Hw1; reflexivity|].
  split; [exact Hp1|]. split; [exact Hs1|]. split; [exact Hs2|].
  split; [exact Hs3|].
  split.
  { rewrite Hp3, Hc2, Hp1, delete_insert_eq. apply delete_id. exact Hfree. }
  split; [rewrite Hn3, Hc2, Hw1; reflexivity|].
  split; [rewrite Hd3, Hc2, Hw1; reflexivity|].
  split.
  { subst w3 w2. rewrite step_written by reflexivity.
    apply run_written. apply messages_not_rpc. }
  split; [rewrite Hi3, Hi2, Hw1; reflexivity|].
  rewrite Hl3, Hl2, Hw1. reflexivity.
Qed.

Lemma rpc_round_trip_witness :
  let w := history 10 true [] in
  let w1 := step w (CallRpc "echo" [JNum 7]) in
  let w2 := run (map DecoderMessage
                   [reply 1 FP_STATUS_DATA (JArr [JNum 7])]) w1 in
  let w3 := step w2 (DecoderMessage (reply 1 FP_STATUS_END (JArr []))) in
  closed w = false /\
  stream_of w3 0%nat = map EvData (concat [[JNum 7]]) ++ [EvEnd].
Proof.
  split; [reflexivity|].
  apply (rpc_round_trip 10 true [] "echo" [JNum 7]
           [reply 1 FP_STATUS_DATA (JArr [JNum 7])] [[JNum 7]]
           (reply 1 FP_STATUS_END (JArr []))).
  - reflexivity.
  - reflexivity.
  - repeat constructor.
  - repeat constructor.
  - reflexivity.
  - reflexivity.
Defined.

Lemma aborted_by_stream r m rpcmethod e w r' :
  stream_of (aborted_by r m rpcmethod e w) r' = stream_of w r'.
Proof.
  unfold stream_of. fields.
  destruct (decide (r' = r)) as [->|Hne].
  - rewrite !list_lookup_alter_eq. destruct (w_heap w !! r); reflexivity.
  - rewrite !list_lookup_alter_ne by congruence. reflexivity.
Qed.

(** A fatal error delivers nothing on any stream: the requests it aborts
    learn of it from the callbacks it schedules. *)
Lemma fatal_stream err w r : stream_of (fatal err w) r = stream_of w r.
Proof.
  unfold fatal. destruct (fc_error (w_client w)); [reflexivity|].
  rewrite (abort_all_frame (fun w0 => stream_of w0 r)); [reflexivity|].
  intros. apply aborted_by_stream.
Qed.

(** X10. A message that arrives after the END of its request is a protocol
    error.  Once an END message has completed a pending request, the
    request's identifier is in neither table (unless an older, aborted
    request still holds it), so that any further message under that
    identifier makes the client raise the fatal error for an unknown
    message identifier.  The late message puts nothing on the stream of the
    completed request, which the END message had ended, unless the stream
    was over already. *)
Theorem message_after_end_is_fatal (nRecentRequests : Z) (checks : bool)
    (actions : list action) (m : Z) (r : reqref)
    (end_msg late : message) :
  let w := history nRecentRequests checks actions in
  fc_pending (w_client w) !! m = Some r ->
  fc_aborted (w_client w) !! m = None ->
  msg_msgid end_msg = m ->
  msg_status end_msg = FP_STATUS_END ->
  msg_msgid late = m ->
  let w1 := step w (DecoderMessage end_msg) in
  let w2 := step w1 (DecoderMessage late) in
  w2 = fatal (unknown_msgid_error m) w1 /\
  w_logged w2 = w_logged w ++ [unknown_msgid_error m] /\
  fc_nerrors (w_client w2) = S (fc_nerrors (w_client w)) /\
  (fc_error (w_client w) = None ->
   fc_error (w_client w2) = Some (unknown_msgid_error m) /\
   w_emitted w2 = w_emitted w ++ [unknown_msgid_error m]) /\
  stream_of w2 r = stream_of w1 r /\
  stream_of w1 r
  = (if stream_over (stream_of w r) then stream_of w r
     else stream_of w r ++ [EvEnd]).
Proof.
  intros w Hp Ha Hm Hst Hl w1 w2.
  assert (wf w) as Hwf by apply history_wf.
  destruct (end_step_run w m r end_msg Hwf Hp Hm Hst)
    as (_ & Hwf1 & Hs1 & Hp1 & Ha1 & _ & _ & He1 & Hn1 & _ & Hl1 & Hem1).
  fold w1 in Hwf1, Hs1, Hp1, Ha1, He1, Hn1, Hl1, Hem1.
  assert (w2 = fatal (unknown_msgid_error m) w1) as Hw2.
  { subst w2. rewrite step_message, <- Hl.
    rewrite onMessage_unknown_run; [reflexivity | exact Hwf1 | | ].
    - rewrite Hl, Hp1. apply lookup_delete_eq.
    - rewrite Hl, Ha1. exact Ha. }
  split; [exact Hw2|].
  split; [rewrite Hw2, fatal_logged, Hl1; reflexivity|].
  split.
  { rewrite Hw2, fatal_nerrors, Hn1. reflexivity. }
  split.
  { intros He. rewrite <- He1 in He.
    destruct (fatal_first (unknown_msgid_error m) w1 He) as [H1 H2].
    rewrite Hw2, H1, H2, Hem1. split; reflexivity. }
  split; [rewrite Hw2, fatal_stream; reflexivity | exact Hs1].
Qed.

Lemma message_after_end_is_fatal_witness :
  let w := history 10 true [CallRpc "echo" []] in
  let w1 := step w (DecoderMessage (reply 1 FP_STATUS_END (JArr []))) in
  let w2 := step w1 (DecoderMessage (reply 1 FP_STATUS_DATA (JArr []))) in
  fc_pending (w_client w) !! 1 = Some 0%nat /\
  w_logged w2 = w_logged w ++ [unknown_msgid_error 1].
Proof.
  split; [reflexivity|].
  apply (message_after_end_is_fatal 10 true [CallRpc "echo" []] 1 0%nat
           (reply 1 FP_STATUS_END (JArr []))
           (reply 1 FP_STATUS_DATA (JArr [])));
    reflexivity.
Defined.

(** *** What the client writes *)

(** X11. A message identifier that is still pending is never reused: when
    the identifier [allocMessageId] hands out belongs to a request in
    [fc_pending] (which can happen once the identifiers have wrapped
    around), [rpc] throws an assertion error instead of overwriting the
    entry.  The tables, the counters and the encoder are untouched; the
    identifier is consumed all the same, and the request object that was
    created for the call is left unregistered. *)
Theorem rpc_does_not_reuse_pending_msgid (rpcmethod : string)
    (rpcargs : list jsval) (w : World) (r0 : reqref) :
  fc_pending (w_client w) !! next_msgid (msgid_of w) = Some r0 ->
  let w' := step w (CallRpc rpcmethod rpcargs) in
  (exists msg, fst (rpc rpcmethod rpcargs w) = Throw (AssertionError msg)) /\
  fc_pending (w_client w') = fc_pending (w_client w) /\
  fc_aborted (w_client w') = fc_aborted (w_client w) /\
  fc_nrpc_started (w_client w') = fc_nrpc_started (w_client w) /\
  fc_nrpc_done (w_client w') = fc_nrpc_done (w_client w) /\
  w_encoder_written w' = w_encoder_written w /\
  w_immediates w' = w_immediates w /\
  msgid_of w' = next_msgid (msgid_of w) /\
  w_heap w'
  = w_heap w ++ [new_FastRpcRequest (next_msgid (msgid_of w))
                   rpcmethod rpcargs].
Proof.
  intros Hused w'.
  assert (rpc rpcmethod rpcargs w
          = (Throw (AssertionError "msgid is already pending"),
             allocated rpcmethod rpcargs w)) as Hrun.
  { rewrite rpc_run, Hused. reflexivity. }
  subst w'. rewrite step_rpc, Hrun. cbn [fst snd].
  split; [eexists; reflexivity|]. repeat split.
Qed.

Lemma rpc_does_not_reuse_pending_msgid_witness :
  let w := upd_client (set_fc_msgid (FP_MSGID_MAX - 1))
             (history 10 true [CallRpc "echo" []]) in
  fc_pending (w_client w) !! next_msgid (msgid_of w) = Some 0%nat /\
  fc_pending (w_client (step w (CallRpc "date" []))) = fc_pending (w_client w).
Proof.
  split; [reflexivity|].
  apply (rpc_does_not_reuse_pending_msgid "date" []
           (upd_client (set_fc_msgid (FP_MSGID_MAX - 1))
              (history 10 true [CallRpc "echo" []])) 0%nat).
  reflexivity.
Defined.

Ltac closed_step :=
  first
    [ apply preserves_ret | apply preserves_throw | apply preserves_get
    | apply preserves_lift | apply preserves_assert_ok | apply preserves_deref
    | apply preserves_modify;
      let w0 := fresh "w0" in
      let H0 := fresh "H0" in
      intros w0 H0;
      first [ exact H0 | reflexivity | unfold closed; fields; apply orb_true_r ]
    | apply preserves_bind; [| intros ?]
    | apply preserves_for_each; intros ?
    | match goal with
      | |- preserves _ (if ?b then _ else _) => destruct b
      | |- preserves _ (match ?x with _ => _ end) => destruct x
      end ].

Lemma perform_preserves_closed a :
  preserves (fun w => closed w = true) (perform a).
Proof.
  destruct a; cbn [perform];
    unfold rpc, request_abort, detach, onMessage, transport_emit,
      invoke_listener, onTransportEnd, onTransportError, run_immediate,
      requestFail, requestComplete, requestAbort, requestAbortAll, fatalError,
      push_each, update_request, allocMessageId, alloc_request,
      transport_removeListener, transport_set_piped;
    repeat closed_step.
Qed.

Lemma step_closed_written w a :
  closed w = true ->
  closed (step w a) = true /\
  w_encoder_written (step w a) = w_encoder_written w.
Proof.
  intros Hc. split; [apply (perform_preserves_closed a w Hc)|].
  destruct (is_rpc a) eqn:Ha; [|apply step_written; exact Ha].
  destruct a; try discriminate.
  rewrite step_rpc, rpc_run, Hc.
  destruct (fc_pending (w_client w) !! next_msgid (msgid_of w)); reflexivity.
Qed.

(** X12. A closed client stays closed and writes nothing.  Once the client
    is detached or has seen the end of its transport, no sequence of calls
    and events reopens it, and none makes it write a message to the
    encoder, whatever requests are issued. *)
Theorem closed_client_never_writes (w : World) (actions : list action) :
  closed w = true ->
  closed (run actions w) = true /\
  w_encoder_written (run actions w) = w_encoder_written w.
Proof.
  revert w. induction actions as [|a actions IH]; intros w Hc.
  - split; [exact Hc | reflexivity].
  - cbn [run fold_left]. fold (run actions (step w a)).
    destruct (step_closed_written w a Hc) as [Hc1 Hw1].
    destruct (IH (step w a) Hc1) as [Hc2 Hw2].
    split; [exact Hc2 | rewrite Hw2; exact Hw1].
Qed.

Lemma closed_client_never_writes_witness :
  let w := history 10 true [CallRpc "echo" []; TransportEnd] in
  closed w = true /\
  w_encoder_written (run [CallRpc "date" []; Immediate] w)
  = w_encoder_written w.
Proof.
  split; [reflexivity|].
  apply (closed_client_never_writes
           (history 10 true [CallRpc "echo" []; TransportEnd])
           [CallRpc "date" []; Immediate]).
  reflexivity.
Defined.

Lemma run_snoc actions a w : run (actions ++ [a]) w = step (run actions w) a.
Proof. unfold run. rewrite fold_left_app. reflexivity. Qed.

Lemma rpc_calls_snoc actions a :
  rpc_calls (actions ++ [a])
  = (rpc_calls actions + (if is_rpc a then 1 else 0))%nat.
Proof.
  unfold rpc_calls. rewrite filter_app, length_app. f_equal.
  destruct a; reflexivity.
Qed.

Lemma msgid_after_range n : 1 <= msgid_after (S n) < FP_MSGID_MAX.
Proof.
  unfold msgid_after, FP_MSGID_MAX.
  pose proof (Z.mod_pos_bound (Z.of_nat n) (2 ^ 31 - 2)). lia.
Qed.

Lemma history_msgid nRecentRequests checks actions :
  msgid_of (history nRecentRequests checks actions)
  = msgid_after (rpc_calls actions).
Proof.
  unfold history. apply (run_msgid actions _ 0).
  unfold new_FastClient. rewrite attach_run. reflexivity.
Qed.

(** X13. Everything the client writes is a well-formed request.  After any
    history, each message handed to the encoder is the DATA message of an
    [rpc] call: it names the method, carries the arguments, and its
    identifier lies between 1 and [FP_MSGID_MAX - 1], within the range the
    protocol allows.  The client writes at most one message per call of
    [rpc], and nothing else. *)
Theorem written_messages_are_requests (nRecentRequests : Z) (checks : bool)
    (actions : list action) :
  let w := history nRecentRequests checks actions in
  Forall (fun msg =>
            msg_status msg = FP_STATUS_DATA /\
            1 <= msg_msgid msg < FP_MSGID_MAX /\
            exists rpcmethod rpcargs,
              msg = rpc_message (msg_msgid msg) rpcmethod rpcargs)
    (w_encoder_written w) /\
  (length (w_encoder_written w) <= rpc_calls actions)%nat.
Proof.
  induction actions as [|a actions IH] using rev_ind.
  - split; [constructor | reflexivity].
  - cbn zeta in *. unfold history in *. rewrite run_snoc, rpc_calls_snoc.
    fold (history nRecentRequests checks actions) in *.
    set (w := history nRecentRequests checks actions) in *.
    destruct IH as [IH1 IH2].
    destruct (is_rpc a) eqn:Ha.
    + destruct a; try discriminate.
      rewrite step_rpc, rpc_run.
      destruct (fc_pending (w_client w) !! next_msgid (msgid_of w));
        [split; [exact IH1 | cbn [snd]; unfold allocated; fields; lia]|].
      destruct (closed w);
        [split; [exact IH1 | cbn [snd]; unfold registered, allocated;
                             fields; lia]|].
      cbn [snd]. unfold registered, allocated. fields. split.
      * apply Forall_app. split; [exact IH1|].
        constructor; [|constructor].
        split; [reflexivity|]. split; [|eexists _, _; reflexivity].
        cbn [msg_msgid rpc_message]. subst w.
        rewrite history_msgid, next_msgid_after. apply msgid_after_range.
      * rewrite length_app. cbn [length]. lia.
    + rewrite step_written by exact Ha. split; [exact IH1 | lia].
Qed.

(** *** Detaching *)

Lemma detach_run w :
  wf w ->
  fc_detached (w_client w) = false ->
  fc_transport_onend (w_client w) = Some OnTransportEnd ->
  fc_transport_onerror (w_client w) = None ->
  detach w
  = if tr_checks_listener (w_transport w)
    then (Throw (TypeError "listener must be a function"), detaching w)
    else (Ok tt,
          abort_all (pending_keys (fc_pending (w_client w))) detach_error
            (unpiped (detaching w))).
Proof.
  intros Hwf Hd He Hr.
  unfold detach. unfold bind at 1, get at 1. rewrite Hd, He, Hr.
  unfold bind at 1, modify at 1.
  unfold bind at 1, transport_removeListener at 1, modify at 1.
  fold (detaching w).
  unfold bind at 1, transport_removeListener at 1.
  unfold bind at 1, get at 1.
  change (tr_checks_listener (w_transport (detaching w)))
    with (tr_checks_listener (w_transport w)).
  destruct (tr_checks_listener (w_transport w)); [reflexivity|].
  unfold ret at 1.
  unfold bind at 1, transport_set_piped at 1, modify at 1.
  unfold bind at 1, modify at 1.
  fold (unpiped (detaching w)).
  assert (wf (unpiped (detaching w))) as Hwf1.
  { eapply wf_same; [exact Hwf | reflexivity | repeat split | reflexivity]. }
  rewrite (requestAbortAll_run _ _ Hwf1). reflexivity.
Qed.

Lemma history_checks nRecentRequests checks actions :
  tr_checks_listener (w_transport (history nRecentRequests checks actions))
  = checks.
Proof.
  unfold history.
  apply (preserves_run
           (fun w => tr_checks_listener (w_transport w) = checks)).
  - intros a.
    apply (preserves_keeps _ (fun w => tr_checks_listener (w_transport w)));
      [intros w w' ->; auto|].
    destruct a; cbn [perform];
      unfold rpc, alloc_request, allocMessageId, request_abort, detach,
        requestAbort, onMessage, push_each, fatalError, transport_emit,
        invoke_listener, onTransportEnd, onTransportError, run_immediate,
        update_request, transport_removeListener, transport_set_piped;
      keeps_auto.
  - unfold new_FastClient. rewrite attach_run. reflexivity.
Qed.

Lemma detach_history_run nRecentRequests checks actions :
  let w := history nRecentRequests checks actions in
  fc_detached (w_client w) = false ->
  detach w
  = if checks
    then (Throw (TypeError "listener must be a function"), detaching w)
    else (Ok tt,
          abort_all (pending_keys (fc_pending (w_client w))) detach_error
            (unpiped (detaching w))).
Proof.
  intros w Hd.
  destruct (history_listeners nRecentRequests checks actions)
    as (He & Hr & _).
  rewrite (detach_run w (history_wf _ _ _) Hd He Hr).
  unfold w. rewrite history_checks. reflexivity.
Qed.

(** X14. [detach] on a transport that lets [removeListener] pass: the call
    returns normally, flags the client as detached, removes the listener
    for 'end', undoes both pipes and aborts every pending request.  After
    it [fc_pending] is empty, every request is counted as completed, and
    each request that was pending is in [fc_aborted] with an error that
    wraps the abort error caused by 'client detached from transport', whose
    delivery is scheduled.  The client itself raises no error. *)
Theorem detach_aborts_pending_requests (nRecentRequests : Z)
    (actions : list action) :
  let w := history nRecentRequests false actions in
  fc_detached (w_client w) = false ->
  let w' := step w CallDetach in
  fst (detach w) = Ok tt /\
  fc_detached (w_client w') = true /\
  tr_listeners (w_transport w') = [("error", OnTransportError)] /\
  tr_piped_to_decoder (w_transport w') = false /\
  w_encoder_piped w' = false /\
  fc_pending (w_client w') = ∅ /\
  fc_nrpc_done (w_client w') = fc_nrpc_started (w_client w') /\
  (forall m r,
     fc_pending (w_client w) !! m = Some r ->
     aborted_with detach_error m r w') /\
  ve_message detach_error = "client detached from transport" /\
  w_logged w' = w_logged w /\
  w_emitted w' = w_emitted w /\
  fc_error (w_client w') = fc_error (w_client w).
Proof.
  intros w Hd w'.
  pose proof (detach_history_run nRecentRequests false actions Hd) as Hrun.
  cbn zeta in Hrun. fold w in Hrun.
  set (w1 := unpiped (detaching w)) in *.
  assert (wf w1) as Hwf1.
  { eapply wf_same; [apply (history_wf nRecentRequests false actions)
                    | reflexivity | repeat split | reflexivity]. }
  assert (w' = abort_all (pending_keys (fc_pending (w_client w)))
                 detach_error w1) as Hw'.
  { unfold w', step. cbn [perform]. rewrite Hrun. reflexivity. }
  destruct (abort_all_spec (pending_keys (fc_pending (w_client w)))
              detach_error w1 Hwf1 (NoDup_pending_keys _)) as (H1 & H2 & _).
  rewrite <- Hw' in H1, H2.
  assert (wf w') as Hwf'.
  { rewrite Hw'. apply wf_abort_all. exact Hwf1. }
  assert (fc_pending (w_client w') = ∅) as Hempty.
  { apply map_eq. intros m. rewrite H1, lookup_empty.
    destruct (decide (m ∈ pending_keys (fc_pending (w_client w))))
      as [Hin|Hin]; [reflexivity|].
    rewrite elem_of_pending_keys in Hin.
    change (fc_pending (w_client w1)) with (fc_pending (w_client w)).
    destruct (fc_pending (w_client w) !! m) eqn:E; [|reflexivity].
    exfalso. apply Hin. eauto. }
  destruct (history_listeners nRecentRequests false actions)
    as (_ & _ & Hl). fold w in Hl. rewrite Hd in Hl. cbn [app] in Hl.
  split; [rewrite Hrun; reflexivity|].
  split; [apply detach_marks_detached|].
  split.
  { rewrite Hw'.
    rewrite (abort_all_frame (fun w0 => tr_listeners (w_transport w0)))
      by reflexivity.
    unfold w1, unpiped, detaching. fields. rewrite Hl. reflexivity. }
  split.
  { rewrite Hw'.
    rewrite (abort_all_frame
               (fun w0 => tr_piped_to_decoder (w_transport w0)))
      by reflexivity.
    reflexivity. }
  split.
  { rewrite Hw'. rewrite (abort_all_frame w_encoder_piped) by reflexivity.
    reflexivity. }
  split; [exact Hempty|].
  split.
  { rewrite (wf_count w' Hwf'), Hempty, map_size_empty. lia. }
  split.
  { intros m r Hm. apply H2; [|exact Hm].
    apply elem_of_pending_keys. eauto. }
  split; [reflexivity|].
  split; [rewrite Hw'; rewrite (abort_all_frame w_logged) by reflexivity;
          reflexivity|].
  split; [rewrite Hw'; rewrite (abort_all_frame w_emitted) by reflexivity;
          reflexivity|].
  rewrite Hw'.
  rewrite (abort_all_frame (fun w0 => fc_error (w_client w0))) by reflexivity.
  reflexivity.
Qed.

Lemma detach_aborts_pending_requests_witness :
  let w := history 10 false [CallRpc "echo" []; CallRpc "date" []] in
  fc_detached (w_client w) = false /\
  fc_pending (w_client (step w CallDetach)) = ∅.
Proof.
  split; [reflexivity|].
  apply (detach_aborts_pending_requests 10
           [CallRpc "echo" []; CallRpc "date" []]).
  reflexivity.
Defined.

(** X15. [detach] on a transport whose [removeListener] insists on a
    function: the client passes [fc_transport_onerror], a property it never
    assigns, so the call throws a [TypeError] after flagging the client as
    detached and removing the listener for 'end'.  No pending request is
    aborted or told anything, the pipes stay in place, and a second
    [detach] returns at once and changes nothing: the requests stay
    pending. *)
Theorem detach_on_strict_transport_throws (nRecentRequests : Z)
    (actions : list action) :
  let w := history nRecentRequests true actions in
  fc_detached (w_client w) = false ->
  let w' := step w CallDetach in
  (exists msg, fst (detach w) = Throw (TypeError msg)) /\
  fc_detached (w_client w') = true /\
  tr_listeners (w_transport w') = [("error", OnTransportError)] /\
  tr_piped_to_decoder (w_transport w') = tr_piped_to_decoder (w_transport w) /\
  w_encoder_piped w' = w_encoder_piped w /\
  fc_pending (w_client w') = fc_pending (w_client w) /\
  fc_aborted (w_client w') = fc_aborted (w_client w) /\
  w_heap w' = w_heap w /\
  w_immediates w' = w_immediates w /\
  detach w' = (Ok tt, w').
Proof.
  intros w Hd w'.
  pose proof (detach_history_run nRecentRequests true actions Hd) as Hrun.
  cbn zeta in Hrun. fold w in Hrun.
  assert (w' = detaching w) as Hw'.
  { unfold w', step. cbn [perform]. rewrite Hrun. reflexivity. }
  destruct (history_listeners nRecentRequests true actions)
    as (_ & _ & Hl). fold w in Hl. rewrite Hd in Hl. cbn [app] in Hl.
  split; [rewrite Hrun; eexists; reflexivity|].
  split; [apply detach_marks_detached|].
  split; [rewrite Hw'; unfold detaching; fields; rewrite Hl; reflexivity|].
  rewrite Hw'. repeat split.
Qed.

Lemma detach_on_strict_transport_throws_witness :
  let w := history 10 true [CallRpc "echo" []] in
  fc_detached (w_client w) = false /\
  fc_pending (w_client (step w CallDetach)) = fc_pending (w_client w).
Proof.
  split; [reflexivity|].
  apply (detach_on_strict_transport_throws 10 [CallRpc "echo" []]).
  reflexivity.
Defined.

(** *** Errors *)

(** X16. Every error of a request is delivered, once.  After any history, a
    request object that carries an error either has emitted it already or
    has the callback that emits it queued; when the event loop has run the
    callbacks that were queued, the queue is empty and that error is the
    last event of the request's stream, and the only 'error' event the
    client has emitted on it.  When the server has sent no null data item,
    the stream consists of the data it had received followed by that
    error. *)
Theorem request_errors_are_delivered (nRecentRequests : Z) (checks : bool)
    (actions : list action) (r : reqref) (q : FastRpcRequest) (e : VError) :
  let w := history nRecentRequests checks actions in
  w_heap w !! r = Some q ->
  frq_error q = Some e ->
  let w' := run (repeat Immediate (length (w_immediates w))) w in
  w_immediates w' = [] /\
  delivered_error w' r = Some e /\
  (exists pre,
     stream_of w' r = pre ++ [EvError (Some e)] /\
     Forall (fun ev => forall e', ev <> EvError e') pre) /\
  (forallb null_free actions = true ->
   exists ds, stream_of w' r = map EvData ds ++ [EvError (Some e)]).
Proof.
  intros w Hq He w'.
  destruct (drain_queue (length (w_immediates w)) w (history_wf _ _ _) eq_refl)
    as (Hwf' & Hi' & Herr).
  fold w' in Hwf', Hi', Herr.
  specialize (Herr r). rewrite Hq in Herr. cbn in Herr.
  destruct (w_heap w' !! r) as [q'|] eqn:Hq'; [|discriminate].
  cbn in Herr. injection Herr as Herr. rewrite He in Herr.
  split; [exact Hi'|].
  split; [exact (failed_request_delivered w' r q' e Hwf' Hi' Hq' Herr)|].
  split.
  - pose proof (wf_streams w' Hwf' r) as Hs. rewrite Hq' in Hs.
    destruct Hs as (ds & tail & Ht & Hs). rewrite Herr in Hs.
    unfold scheduled in Hs. rewrite Hi' in Hs. cbn in Hs.
    destruct Hs as [[Hk _] | [_ Hs]]; [discriminate|].
    exists (map EvData ds ++ tail). unfold stream_of. rewrite Hq'.
    split; [rewrite Hs, app_assoc; reflexivity|].
    apply Forall_app. split.
    + apply Forall_map. apply Forall_true. intros d e'. discriminate.
    + destruct Ht as [-> | [_ [-> | [-> | ->]]]];
        repeat constructor; discriminate.
  - intros Hnull.
    assert (wfs true w') as Hwft.
    { unfold w', w. rewrite <- history_app. apply history_tidy.
      rewrite forallb_app, Hnull. cbn [andb].
      generalize (length (w_immediates
                            (history nRecentRequests checks actions))).
      intros n. induction n as [|n IH]; [reflexivity | exact IH]. }
    pose proof (wf_streams w' Hwft r) as Hs. rewrite Hq' in Hs.
    destruct Hs as (ds & tail & Ht & Hs). rewrite Herr in Hs.
    apply push_tail_strict in Ht. subst tail.
    unfold scheduled in Hs. rewrite Hi' in Hs. cbn in Hs.
    destruct Hs as [[Hk _] | [_ Hs]]; [discriminate|].
    exists ds. unfold stream_of. rewrite Hq'. exact Hs.
Qed.

Lemma request_errors_are_delivered_witness :
  let w := history 10 true [CallRpc "echo" []; CallAbort 0%nat] in
  let w' := run (repeat Immediate (length (w_immediates w))) w in
  exists e, delivered_error w' 0%nat = Some e.
Proof.
  eexists.
  refine (proj1 (proj2 (request_errors_are_delivered 10 true
                          [CallRpc "echo" []; CallAbort 0%nat] 0%nat
                          _ _ _ _)));
    reflexivity.
Defined.

(** A DATA message for a pending request whose payload is not an array. *)
Lemma onMessage_pending_bad_data_run msg w r q :
  wf w ->
  fc_pending (w_client w) !! msg_msgid msg = Some r ->
  w_heap w !! r = Some q ->
  msg_status msg = FP_STATUS_DATA ->
  (forall items, js_get (msg_data msg) "d" <> Ok (JArr items)) ->
  exists t,
    onMessage msg w
    = (Throw (TypeError t),
       upd_heap (alter incr_frq_ndata r)
         (upd_heap (alter (set_frq_last msg) r) w)).
Proof.
  intros Hwf Hp Hq Hst Hd.
  destruct (wf_pending w Hwf _ _ Hp) as (q0 & Hq0 & Hmsg & Hpq & Hab).
  assert (q0 = q) by congruence. subst q0. clear Hq0.
  apply requestIsPending_true in Hpq as [Hgr Hne].
  assert ((msg_status msg =? FP_STATUS_END) = false) as Hst1
    by (rewrite Hst; reflexivity).
  assert ((msg_status msg =? FP_STATUS_DATA) = true) as Hst2
    by (rewrite Hst; reflexivity).
  clear Hst.
  unfold js_get in *.
  destruct (msg_data msg) as [| | | | | |props] eqn:Hdata;
    run_message; rewrite ?Hdata; unfold js_get, push_each;
    try (eexists; reflexivity).
  destruct (default JUndefined (assoc_last "d" props)) as [| | | | |items|]
    eqn:Hitems; plumbing; try (eexists; reflexivity).
  destruct (Hd items). reflexivity.
Qed.

(** X17. A DATA message without an array is not delivered, and the failure
    is not the request's: when a DATA message for a pending request has no
    [data.d] that is an array, [onMessage] throws a [TypeError] to the
    decoder that emitted the message.  The message is recorded and counted
    in [frq_ndata], but nothing reaches the request's stream, and the
    request stays pending: the client neither fails it nor raises a fatal
    error. *)
Theorem data_without_array_throws (nRecentRequests : Z) (checks : bool)
    (actions : list action) (r : reqref) (msg : message) :
  let w := history nRecentRequests checks actions in
  fc_pending (w_client w) !! msg_msgid msg = Some r ->
  msg_status msg = FP_STATUS_DATA ->
  (forall items, js_get (msg_data msg) "d" <> Ok (JArr items)) ->
  let w' := step w (DecoderMessage msg) in
  (exists t, fst (onMessage msg w) = Throw (TypeError t)) /\
  stream_of w' r = stream_of w r /\
  ndata_of w' r = S (ndata_of w r) /\
  w_client w' = w_client w /\
  w_immediates w' = w_immediates w /\
  w_logged w' = w_logged w /\
  w_emitted w' = w_emitted w.
Proof.
  intros w Hp Hst Hd w'.
  assert (wf w) as Hwf by apply history_wf.
  destruct (wf_pending w Hwf _ _ Hp) as (q & Hq & _).
  destruct (onMessage_pending_bad_data_run msg w r q Hwf Hp Hq Hst Hd)
    as [t Hrun].
  subst w'. rewrite step_message, Hrun. cbn [fst snd].
  split; [exists t; reflexivity|].
  unfold stream_of, ndata_of. fields.
  rewrite !list_lookup_alter_eq, Hq. repeat split.
Qed.

Lemma data_without_array_throws_witness :
  let w := history 10 true [CallRpc "echo" []] in
  let msg := reply 1 FP_STATUS_DATA (JStr "oops") in
  stream_of (step w (DecoderMessage msg)) 0%nat = stream_of w 0%nat.
Proof.
  apply (data_without_array_throws 10 true [CallRpc "echo" []] 0%nat
           (reply 1 FP_STATUS_DATA (JStr "oops"))).
  - reflexivity.
  - reflexivity.
  - intros items. discriminate.
Defined.

(** X18. An ERROR message fails its request.  When the server answers a
    pending request with an ERROR message whose [data.d] is an object (its
    [name] a string or absent), [onMessage] returns normally; the request
    leaves [fc_pending] and is counted as completed; its error wraps a
    'server error' whose cause carries the name and the message the server
    sent; the request is marked [frq_done_graceful] although it failed.
    Nothing is put on the stream during the call: the delivery of the error
    is scheduled, and the client itself raises no error. *)
Theorem error_message_fails_request (nRecentRequests : Z) (checks : bool)
    (actions : list action) (r : reqref) (msg : message)
    (props : list (string * jsval)) (name : option string) :
  let w := history nRecentRequests checks actions in
  fc_pending (w_client w) !! msg_msgid msg = Some r ->
  msg_status msg = FP_STATUS_ERROR ->
  js_get (msg_data msg) "d" = Ok (JObj props) ->
  name_option (prop (JObj props) "name") = Ok name ->
  let w' := step w (DecoderMessage msg) in
  fst (onMessage msg w) = Ok tt /\
  fc_pending (w_client w') = delete (msg_msgid msg) (fc_pending (w_client w)) /\
  fc_nrpc_done (w_client w') = S (fc_nrpc_done (w_client w)) /\
  (exists q cause,
     w_heap w' !! r = Some q /\
     frq_error q
     = Some (request_error (msg_msgid msg) (frq_rpcmethod q)
               (server_error cause)) /\
     ve_message (server_error cause)
     = "server error: " +:+ js_to_string (prop (JObj props) "message") /\
     ve_cause (server_error cause) = Some cause /\
     ve_name cause
     = match name with
       | Some s => if decide (s = EmptyString) then "VError" else s
       | None => "VError"
       end /\
     ve_message cause = js_to_string (prop (JObj props) "message") /\
     frq_done_graceful q = true) /\
  stream_of w' r = stream_of w r /\
  w_immediates w' = w_immediates w ++ [r] /\
  w_logged w' = w_logged w /\
  w_emitted w' = w_emitted w.
Proof.
  intros w Hp Hst Hd Hname w'.
  assert (wf w) as Hwf by apply history_wf.
  destruct (wf_pending w Hwf _ _ Hp) as (q & Hq & Hid & _).
  pose proof (onMessage_pending_error_run msg w r q props name
                Hwf Hp Hq Hst Hd Hname) as Hrun.
  subst w'. rewrite step_message, Hrun. cbn [fst snd].
  split; [reflexivity|].
  split; [fields; rewrite Hid; reflexivity|].
  split; [reflexivity|].
  split.
  { eexists _, _. split.
    - fields. rewrite !list_lookup_alter_eq, Hq. reflexivity.
    - fields. rewrite Hid. repeat split. }
  split.
  { unfold stream_of. fields. rewrite !list_lookup_alter_eq, Hq.
    reflexivity. }
  repeat split.
Qed.

Lemma error_message_fails_request_witness :
  let w := history 10 true [CallRpc "echo" []] in
  let msg := reply 1 FP_STATUS_ERROR
               (JObj [("name", JStr "DummyError");
                      ("message", JStr "dummy error message")]) in
  fc_pending (w_client w) !! 1 = Some 0%nat /\
  fc_nrpc_done (w_client (step w (DecoderMessage msg)))
  = S (fc_nrpc_done (w_client w)).
Proof.
  split; [reflexivity|].
  apply (error_message_fails_request 10 true [CallRpc "echo" []] 0%nat
           (reply 1 FP_STATUS_ERROR
              (JObj [("name", JStr "DummyError");
                     ("message", JStr "dummy error message")]))
           [("name", JStr "DummyError");
            ("message", JStr "dummy error message")]
           (Some "DummyError"));
    reflexivity.
Defined.

(** * The demo handlers *)

Lemma answers_once_single c : settles c = true -> answers_once [c].
Proof.
  intros H. exists [], c. split; [reflexivity|]. split; [constructor|exact H].
Qed.

Lemma answers_once_writes {A} (f : A -> jsval) (l : list A) c :
  settles c = true -> answers_once (map (fun a => RpcWrite (f a)) l ++ [c]).
Proof.
  intros H. exists (map (fun a => RpcWrite (f a)) l), c.
  split; [reflexivity|]. split; [|exact H].
  apply Forall_map. apply Forall_true. intros a. reflexivity.
Qed.

Lemma js_get_throws a k e :
  js_get a k = Throw e ->
  (a = JNull \/ a = JUndefined) /\ exists msg, e = TypeError msg.
Proof.
  unfold js_get. destruct a; intros H; try discriminate;
    injection H as <-; (split; [auto | eexists; reflexivity]).
Qed.

(** X19. Every demo handler answers its request exactly once.  Whatever the
    arguments, each of the handlers [date], [echo], [sleep] and [yes] makes
    some calls of [rpc.write] (possibly none) followed by exactly one call
    that settles the request ([rpc.end] or [rpc.fail], for [sleep] an
    [rpc.end] from its timer), and nothing after it.  The one exception:
    [sleep] and [yes] read a property of their argument before they
    validate it, so that for the argument [null] (or [undefined]) they throw
    a [TypeError] without having called [rpc] at all. *)
Theorem demo_handlers_answer_once (when : Date) (name : string) (h : handler)
    (argv : list jsval) :
  (name, h) ∈ demoRpc when ->
  match h argv with
  | (calls, Ok _) => answers_once calls
  | (calls, Throw e) =>
      calls = [] /\
      (exists msg, e = TypeError msg) /\
      (argv = [JNull] \/ argv = [JUndefined]) /\
      (name = "sleep" \/ name = "yes")
  end.
Proof.
  unfold demoRpc. intros Hin.
  repeat (apply elem_of_cons in Hin as [Hin|Hin];
          [injection Hin as -> ->|]);
    [ | | | | apply elem_of_nil in Hin; destruct Hin ].
  - unfold fastRpcDate. destruct (negb (length argv =? 0)%nat);
      apply answers_once_single; reflexivity.
  - unfold fastRpcEcho. apply answers_once_writes. reflexivity.
  - unfold fastRpcSleep.
    destruct argv as [|a [|b argv]];
      try (apply answers_once_single; reflexivity).
    destruct (js_get a "ms") as [v|e] eqn:Hget.
    + destruct v; try (apply answers_once_single; reflexivity).
      destruct ((n <? 0) || (n >? 30 * 60 * 1000));
        apply answers_once_single; reflexivity.
    + destruct (js_get_throws a "ms" e Hget) as [[-> | ->] Hmsg];
        (split; [reflexivity|]); (split; [exact Hmsg|]); auto.
  - unfold fastRpcYes.
    destruct argv as [|a [|b argv]];
      try (apply answers_once_single; reflexivity).
    destruct (js_get a "value") as [value|e] eqn:Hvalue.
    + destruct (js_get a "count") as [count|e] eqn:Hcount.
      * destruct count; try (apply answers_once_single; reflexivity).
        destruct ((n <? 1) || (n >? 10240));
          [apply answers_once_single; reflexivity|].
        apply (answers_once_writes (fun _ => JObj [("value", value)])).
        reflexivity.
      * destruct (js_get_throws a "count" e Hcount) as [[-> | ->] Hmsg];
          discriminate.
    + destruct (js_get_throws a "value" e Hvalue) as [[-> | ->] Hmsg];
        (split; [reflexivity|]); (split; [exact Hmsg|]); auto.
Qed.

Lemma demo_handlers_answer_once_witness :
  answers_once
    (fst (fastRpcYes [JObj [("value", JStr "y"); ("count", JNum 3)]])).
Proof.
  apply (demo_handlers_answer_once (MkDate 0 "1970-01-01T00:00:00.000Z")
           "yes" fastRpcYes
           [JObj [("value", JStr "y"); ("count", JNum 3)]]).
  unfold demoRpc. do 3 apply list_elem_of_further. apply list_elem_of_here.
Defined.

Lemma map_const_seqZ {A} (x : A) (n : Z) :
  map (fun _ => x) (seqZ 0 n) = repeat x (Z.to_nat n).
Proof.
  unfold seqZ. rewrite <- list_fmap_compose.
  generalize (Z.to_nat n) as k. generalize 0%nat as s.
  intros s k. revert s. induction k as [|k IH]; intros s.
  - reflexivity.
  - cbn [seq fmap list_fmap repeat]. f_equal. apply IH.
Qed.

Lemma writes_of_repeat v k c :
  is_write c = false ->
  length (filter (fun c => is_write c = true) (repeat (RpcWrite v) k ++ [c]))
  = k.
Proof.
  intros Hc. induction k as [|k IH].
  - cbn [repeat app]. rewrite filter_cons_False by (rewrite Hc; discriminate).
    reflexivity.
  - cbn [repeat app]. rewrite filter_cons_True by reflexivity.
    cbn [length]. rewrite IH. reflexivity.
Qed.

(** X20. [fastRpcYes] validates its count and then repeats the value that
    many times.  For one argument whose [count] is an integer, the handler
    accepts the call exactly when the count is between 1 and 10240: it then
    writes [count] copies of [{ value }] and ends the request; otherwise it
    writes nothing and fails the request with an error whose info block
    reports the count found and the two bounds. *)
Theorem fastRpcYes_repeats_value (a value : jsval) (count : Z) :
  js_get a "value" = Ok value ->
  js_get a "count" = Ok (JNum count) ->
  let calls := fst (fastRpcYes [a]) in
  snd (fastRpcYes [a]) = Ok tt /\
  (1 <= count <= 10240 ->
   calls
   = repeat (RpcWrite (JObj [("value", value)])) (Z.to_nat count)
     ++ [RpcEnd None] /\
   Z.of_nat (length (filter (fun c => is_write c = true) calls)) = count) /\
  (~ 1 <= count <= 10240 ->
   exists err,
     calls = [RpcFail err] /\
     ve_message err = "count must be an integer in range [1, 10240]" /\
     ve_info err !! "foundValue" = Some (JNum count) /\
     ve_info err !! "minValue" = Some (JNum 1) /\
     ve_info err !! "maxValue" = Some (JNum 10240)) /\
  ((exists writes, calls = writes ++ [RpcEnd None])
   <-> 1 <= count <= 10240).
Proof.
  intros Hvalue Hcount calls. subst calls.
  unfold fastRpcYes. rewrite Hvalue, Hcount.
  destruct ((count <? 1) || (count >? 10240)) eqn:Hrange.
  - assert (~ 1 <= count <= 10240) as Hout.
    { apply orb_true_iff in Hrange as [H|H];
        [apply Z.ltb_lt in H | rewrite Z.gtb_ltb in H; apply Z.ltb_lt in H];
        lia. }
    cbn [fst snd]. split; [reflexivity|].
    split; [intros H; destruct (Hout H)|].
    split.
    + intros _. eexists. split; [reflexivity|]. repeat split.
    + split; [|intros H; destruct (Hout H)].
      intros [writes Hw]. exfalso.
      destruct writes as [|c [|c' writes]]; discriminate.
  - assert (1 <= count <= 10240) as Hin.
    { apply orb_false_iff in Hrange as [H1 H2].
      apply Z.ltb_ge in H1. rewrite Z.gtb_ltb in H2. apply Z.ltb_ge in H2.
      lia. }
    cbn [fst snd]. rewrite map_const_seqZ.
    split; [reflexivity|].
    split.
    + intros _. split; [reflexivity|].
      rewrite writes_of_repeat by reflexivity. lia.
    + split; [intros H; destruct (H Hin)|].
      split; [intros _; exact Hin|]. intros _. eexists. reflexivity.
Qed.

Lemma fastRpcYes_repeats_value_witness :
  snd (fastRpcYes [JObj [("value", JStr "y"); ("count", JNum 3)]]) = Ok tt.
Proof.
  apply (fastRpcYes_repeats_value
           (JObj [("value", JStr "y"); ("count", JNum 3)]) (JStr "y") 3);
    reflexivity.
Defined.

(** * [makeBigObject] *)

Lemma obj_set_fresh k v props :
  k ∉ map fst props -> obj_set k v props = props ++ [(k, v)].
Proof.
  induction props as [|[k' v'] props IH]; intros Hk.
  - reflexivity.
  - cbn [map fst] in Hk. apply not_elem_of_cons in Hk as [Hne Hk].
    cbn [obj_set app]. rewrite decide_False by congruence.
    rewrite IH by exact Hk. reflexivity.
Qed.

(** Filling an object under distinct new names adds the properties in
    order. *)
Lemma fill_distinct (key : Z -> string) (val : Z -> jsval) (l : list Z)
    (acc : list (string * jsval)) :
  NoDup (map fst acc ++ map key l) ->
  fold_left (fun rv i => obj_set (key i) (val i) rv) l acc
  = acc ++ map (fun i => (key i, val i)) l.
Proof.
  revert acc. induction l as [|i l IH]; intros acc Hnd.
  - cbn. rewrite app_nil_r. reflexivity.
  - cbn [fold_left map]. cbn [map] in Hnd.
    apply NoDup_app in Hnd as (Hacc & Hdisj & Hl).
    apply NoDup_cons in Hl as [Hi Hl].
    rewrite obj_set_fresh by (intros Hin; apply (Hdisj _ Hin); left).
    rewrite IH.
    + rewrite <- app_assoc. reflexivity.
    + rewrite map_app. cbn [map fst]. rewrite <- app_assoc. cbn [app].
      apply NoDup_app. split; [exact Hacc|]. split.
      * intros k Hin Hin'. apply elem_of_cons in Hin' as [->|Hin'].
        -- apply (Hdisj _ Hin). left.
        -- apply (Hdisj _ Hin). right. exact Hin'.
      * apply NoDup_cons. split; assumption.
Qed.

Lemma fill_same (r : option (outcome jsval)) (v : jsval) (key : Z -> string)
    (l : list Z) (acc : list (string * jsval)) :
  r = Some (Ok v) ->
  fold_left (fun (a : option (outcome (list (string * jsval)))) i =>
    match a with
    | Some (Ok rv) =>
        match r with
        | Some (Ok x) => Some (Ok (obj_set (key i) x rv))
        | Some (Throw e) => Some (Throw e)
        | None => None
        end
    | _ => a
    end) l (Some (Ok acc))
  = Some (Ok (fold_left (fun rv i => obj_set (key i) v rv) l acc)).
Proof.
  intros ->. revert acc. induction l as [|i l IH]; intros acc.
  - reflexivity.
  - cbn [fold_left]. apply IH.
Qed.

Lemma NoDup_keys (prefix : string) (l : list Z) :
  NoDup l -> NoDup (map (fun i => prefix +:+ pretty i) l).
Proof.
  intros Hl. apply (NoDup_fmap_2 (fun i => prefix +:+ pretty i)). exact Hl.
Qed.

Lemma leaves_props (key : Z -> string) (val : Z -> jsval) (n : nat)
    (l : list Z) :
  (forall i, leaves (val i) = n) ->
  leaves (JObj (map (fun i => (key i, val i)) l)) = (length l * n)%nat.
Proof.
  intros Hval. induction l as [|i l IH].
  - reflexivity.
  - cbn [map length Nat.mul]. cbn [leaves fold_right] in *.
    rewrite IH, Hval. reflexivity.
Qed.

(** X21. [makeBigObject] builds a full tree.  For a depth of at least 1 the
    call returns (with enough fuel for [depth] nested calls, and whatever
    the width): the result is an object with one property per index below
    [width], named [prop_<depth>_<i>] in the order of the indices, the names
    distinct; and the object holds [width ^ depth] strings in all, so that
    its size is exponential in the depth.  For a depth below 1 the call
    fails its assertion. *)
Theorem makeBigObject_is_full_tree (fuel : nat) (width depth : Z) :
  (0 < fuel)%nat ->
  (Z.to_nat depth <= fuel)%nat ->
  if depth >=? 1 then
    exists props,
      makeBigObject fuel width depth = Some (Ok (JObj props)) /\
      map fst props
      = map (fun i => "prop_" +:+ pretty depth +:+ "_" +:+ pretty i)
          (seqZ 0 width) /\
      NoDup (map fst props) /\
      length props = Z.to_nat width /\
      leaves (JObj props) = (Z.to_nat width ^ Z.to_nat depth)%nat
  else
    exists msg,
      makeBigObject fuel width depth = Some (Throw (AssertionError msg)).
Proof.
  revert depth. induction fuel as [|fuel IH]; intros depth Hpos Hfuel;
    [lia|].
  destruct (depth >=? 1) eqn:Hd; cbn [makeBigObject]; rewrite Hd;
    cbn [negb]; [|eexists; reflexivity].
  rewrite Z.geb_leb in Hd. apply Z.leb_le in Hd.
  destruct (depth =? 1) eqn:H1.
  - apply Z.eqb_eq in H1. subst depth.
    rewrite (fill_distinct (fun i => "prop_1_" +:+ pretty i)
               (fun i => JStr ("prop_1_" +:+ pretty i +:+ "_value")))
      by (cbn [map fst app]; apply NoDup_keys, NoDup_seqZ).
    cbn [app]. eexists. split; [reflexivity|].
    split; [rewrite map_map; reflexivity|].
    split; [rewrite map_map; apply NoDup_keys, NoDup_seqZ|].
    split; [rewrite length_map, length_seqZ; reflexivity|].
    rewrite (leaves_props _ _ 1) by reflexivity.
    rewrite length_seqZ. change (Z.to_nat 1) with 1%nat.
    rewrite Nat.pow_1_r. lia.
  - apply Z.eqb_neq in H1.
    assert (0 < fuel)%nat as Hpos' by lia.
    assert (Z.to_nat (depth - 1) <= fuel)%nat as Hfuel' by lia.
    specialize (IH (depth - 1) Hpos' Hfuel').
    assert ((depth - 1 >=? 1) = true) as Hd' by (rewrite Z.geb_leb; apply Z.leb_le; lia).
    rewrite Hd' in IH. destruct IH as (sub & Hsub & _ & _ & _ & Hleaves).
    rewrite (fill_same _ (JObj sub)
               (fun i => "prop_" +:+ pretty depth +:+ "_" +:+ pretty i))
      by exact Hsub.
    rewrite (fill_distinct
               (fun i => "prop_" +:+ pretty depth +:+ "_" +:+ pretty i)
               (fun _ => JObj sub)).
    + cbn [app]. eexists. split; [reflexivity|].
      split; [rewrite map_map; reflexivity|].
      split.
      { rewrite map_map. cbn [fst].
        apply (NoDup_fmap_2
                 (fun i => "prop_" +:+ pretty depth +:+ "_" +:+ pretty i)).
        apply NoDup_seqZ. }
      split; [rewrite length_map, length_seqZ; reflexivity|].
      rewrite (leaves_props _ _ (Z.to_nat width ^ Z.to_nat (depth - 1)))
        by (intros _; exact Hleaves).
      rewrite length_seqZ.
      replace (Z.to_nat depth) with (S (Z.to_nat (depth - 1))) by lia.
      rewrite Nat.pow_succ_r'. reflexivity.
    + cbn [map fst app].
      apply (NoDup_fmap_2
               (fun i => "prop_" +:+ pretty depth +:+ "_" +:+ pretty i)).
      apply NoDup_seqZ.
Qed.

Lemma makeBigObject_is_full_tree_witness :
  exists props,
    makeBigObject 2 3 2 = Some (Ok (JObj props)) /\
    leaves (JObj props) = 9%nat.
Proof.
  destruct (makeBigObject_is_full_tree 2 3 2 ltac:(lia) ltac:(lia))
    as (props & Hrun & _ & _ & _ & Hleaves).
  exists props. split; [exact Hrun | exact Hleaves].
Defined.
